(** * Ackermann steering controller: control cycle, command hand-off, init

    A shallow embedding of [ackermann_steering_controller.cpp].  The C++
    [double] arithmetic is written against an interface ([DoubleOps]) so
    that the same transcription of the source can be read

    - over the real numbers ([R_ops]), for the geometric statements,
    - over operation traces ([expr], [expr_ops]), which record which
      library calls and divisions a cycle performs and which carry a NaN
      literal, and which evaluate inside Rocq, and
    - over binary64 values with IEEE rounding ([f64], [f64_ops]), for
      what a cycle computes where rounding decides the result.

    The odometry object, the joint handles and the publishers are
    collaborators of the controller; they appear through the calls the
    controller makes on them. *)

From Stdlib Require Import Reals Lra Lia ZArith QArith Qabs Qround Bool List Ascii String.
Import ListNotations.

Set Implicit Arguments.

(** ** ros::Time and ros::Duration

    Both are integer (seconds, nanoseconds) pairs in roscpp; they are kept
    here as a signed count of nanoseconds, on which [+], [-] and [<] are
    exact. *)

Definition RosTime := Z.
Definition RosDuration := Z.
Bind Scope Z_scope with RosTime RosDuration.

Definition NSEC_PER_SEC : Z := 1000000000.

(** The values of [int] and [int32_t]. *)
Definition in_int_range (z : Z) : bool :=
  ((-2147483648 <=? z) && (z <=? 2147483647))%Z.

(** ** The arithmetic the controller uses on [double] *)

Class DoubleOps (D : Type) : Type := {
  dofZ   : Z -> D;            (* an integer literal or int-to-double cast *)
  M_PI   : D;
  dadd   : D -> D -> D;
  dsub   : D -> D -> D;
  dmul   : D -> D -> D;
  ddiv   : D -> D -> D;
  dneg   : D -> D;
  dsin   : D -> D;
  dcos   : D -> D;
  dtan   : D -> D;
  datan  : D -> D;
  dsqrt  : D -> D;
  dabs   : D -> D;            (* abs on double, via <math.h> and <cmath> *)
  dpow   : D -> Z -> D;       (* pow(x, n) with an integer literal n *)
  dgt    : D -> D -> bool;    (* a > b *)
  dle    : D -> D -> bool;    (* a <= b *)
  disnan : D -> bool;         (* std::isnan *)
  toSec  : RosDuration -> D;  (* ros::Duration::toSec() *)
  (* ros::Duration(double d): [fromSec] throws "Duration is out of dual
     32-bit range" unless floor(d) is an int32; the nanoseconds are
     rounded to nearest.  [None] is the throw. *)
  fromSec : D -> option RosDuration;
  (* roscpp reading a double into an [int] parameter:
     [fmod(d, 1.0) < 0.5 ? floor(d) : ceil(d)] converted to [int].
     [None]: the conversion is undefined (NaN, or outside [int]). *)
  dtoint : D -> option Z
}.

Declare Scope double_scope.
Delimit Scope double_scope with D.
Infix "+" := dadd : double_scope.
Infix "-" := dsub : double_scope.
Infix "*" := dmul : double_scope.
Infix "/" := ddiv : double_scope.
Infix ">?" := dgt (at level 70, no associativity) : double_scope.

(** *** Instance 1: the real numbers

    The reading in which the geometry is stated: [M_PI] is pi, nothing is
    rounded, and there is no NaN and no infinity.  Every cycle over the
    reals therefore passes the NaN test of [update]; what a cycle does on
    a NaN reading is stated in arbitrary arithmetic and on traces.  A
    quotient by 0 and the tangent at pi/2 have the values of Rocq's total
    functions, which are not those of a [double]: the statements over the
    reals keep away from them by hypothesis, or do not depend on them,
    and the cycle at steering angle 0, whose turning radius is
    [|L * tan (M_PI / 2)|], is stated in binary64.  [toSec] is exact
    here; in binary64 it rounds. *)

Definition Rgtb (a b : R) : bool := if Rlt_dec b a then true else false.
Definition Rleb (a b : R) : bool := if Rle_dec a b then true else false.

(** [floor x] as an integer: [up x] is the least integer above [x]. *)
Definition Rfloor (x : R) : Z := (up x - 1)%Z.

Definition R_fromSec (d : R) : option RosDuration :=
  if in_int_range (Rfloor d)
  then Some (Rfloor (d * IZR NSEC_PER_SEC + / 2)%R)
  else None.

Definition R_toint (d : R) : option Z :=
  let fl := Rfloor d in
  let z := if Rle_dec 0 d
           then if Rlt_dec (d - IZR fl) (1 / 2) then fl else (fl + 1)%Z
           else fl in
  if in_int_range z then Some z else None.

#[export] Instance R_ops : DoubleOps R := {|
  dofZ := IZR;
  M_PI := PI;
  dadd := Rplus;
  dsub := Rminus;
  dmul := Rmult;
  ddiv := Rdiv;
  dneg := Ropp;
  dsin := sin;
  dcos := cos;
  dtan := tan;
  datan := atan;
  dsqrt := sqrt;
  dabs := Rabs;
  dpow := powerRZ;
  dgt := Rgtb;
  dle := Rleb;
  disnan := fun _ => false;
  toSec := fun ns => (IZR ns / IZR NSEC_PER_SEC)%R;
  fromSec := R_fromSec;
  dtoint := R_toint
|}.

(** *** Instance 2: operation traces

    An [expr] is the tree of operations applied to the numeric inputs of
    a cycle.  Nothing is rounded and the library functions stay
    uninterpreted.  Comparisons are decided when both sides reduce to a
    rational by [+ - * / abs pow]; [ENaN] is a NaN reading and propagates
    through every operation, as a quiet NaN does. *)

Inductive expr : Type :=
| ENum  (q : Q)
| ENaN
| EPi
| EAdd  (a b : expr)
| ESub  (a b : expr)
| EMul  (a b : expr)
| EDiv  (a b : expr)
| ENeg  (a : expr)
| ESin  (a : expr)
| ECos  (a : expr)
| ETan  (a : expr)
| EAtan (a : expr)
| ESqrt (a : expr)
| EAbs  (a : expr)
| EPow  (a : expr) (n : Z).

Fixpoint has_nan (e : expr) : bool :=
  match e with
  | ENum _ | EPi => false
  | ENaN => true
  | EAdd a b | ESub a b | EMul a b | EDiv a b => has_nan a || has_nan b
  | ENeg a | ESin a | ECos a | ETan a | EAtan a | ESqrt a | EAbs a
  | EPow a _ => has_nan a
  end.

Definition option_lift2 (f : Q -> Q -> Q) (x y : option Q) : option Q :=
  match x, y with
  | Some a, Some b => Some (f a b)
  | _, _ => None
  end.

Fixpoint evalQ (e : expr) : option Q :=
  match e with
  | ENum q => Some q
  | EAdd a b => option_lift2 Qplus (evalQ a) (evalQ b)
  | ESub a b => option_lift2 Qminus (evalQ a) (evalQ b)
  | EMul a b => option_lift2 Qmult (evalQ a) (evalQ b)
  | EDiv a b =>
      match evalQ b with
      | Some d => if Qeq_bool d 0 then None
                  else option_lift2 Qdiv (evalQ a) (Some d)
      | None => None
      end
  | ENeg a => option_map Qopp (evalQ a)
  | EAbs a => option_map Qabs (evalQ a)
  | EPow a n => option_map (fun q => Qpower q n) (evalQ a)
  | ENaN | EPi | ESin _ | ECos _ | ETan _ | EAtan _ | ESqrt _ => None
  end.

Definition expr_cmp (test : Q -> Q -> bool) (a b : expr) : bool :=
  match evalQ a, evalQ b with
  | Some x, Some y => test x y
  | _, _ => false
  end.

Definition Qltb (x y : Q) : bool := negb (Qle_bool y x).

(** A trace that does not reduce to a rational (a NaN, a quotient by 0)
    is out of range for [ros::Duration] and for [int]. *)
Definition expr_fromSec (e : expr) : option RosDuration :=
  match evalQ e with
  | Some q =>
      if in_int_range (Qfloor q)
      then Some (Qfloor (q * inject_Z NSEC_PER_SEC + (1 # 2)))
      else None
  | None => None
  end.

Definition expr_toint (e : expr) : option Z :=
  match evalQ e with
  | Some q =>
      let z := if Qle_bool 0 q
               then if Qltb (q - inject_Z (Qfloor q)) (1 # 2) then Qfloor q
                    else Qceiling q
               else Qfloor q in
      if in_int_range z then Some z else None
  | None => None
  end.

#[export] Instance expr_ops : DoubleOps expr := {|
  dofZ := fun z => ENum (inject_Z z);
  M_PI := EPi;
  dadd := EAdd;
  dsub := ESub;
  dmul := EMul;
  ddiv := EDiv;
  dneg := ENeg;
  dsin := ESin;
  dcos := ECos;
  dtan := ETan;
  datan := EAtan;
  dsqrt := ESqrt;
  dabs := EAbs;
  dpow := EPow;
  dgt := fun a b => expr_cmp (fun x y => Qltb y x) a b;
  dle := fun a b => expr_cmp Qle_bool a b;
  disnan := has_nan;
  toSec := fun ns => ENum (ns # 1000000000);
  fromSec := expr_fromSec;
  dtoint := expr_toint
|}.

(** *** Instance 3: binary64

    The values of a C [double] under IEEE 754 rounding.  A finite
    non-zero value is [(-1)^neg * m * 2^e] with a significand of 53 bits,
    [2^52 <= m < 2^53]; every operation rounds its exact result to
    nearest, ties to even.  Two things are left out: the exponent is not
    bounded (no overflow to infinity, no subnormal numbers), and the two
    zeros are one value, taken as +0.  The calls into the C library are
    parameters ([Libm]). *)

Section Binary64.

Local Open Scope Z_scope.

Inductive f64 : Type :=
| FZero
| FNum (neg : bool) (m e : Z)
| FInf (neg : bool)
| FNaN.

(** [N * 2^e], with [N] a positive integer, rounded to 53 bits. *)
Definition round_nearest_even (neg : bool) (N e : Z) : f64 :=
  if N <=? 0 then FZero
  else
    let n := Z.log2 N in
    if n <=? 52 then FNum neg (N * 2 ^ (52 - n)) (e - (52 - n))
    else
      let s := n - 52 in
      let q := N / 2 ^ s in
      let r := N mod 2 ^ s in
      let h := 2 ^ (s - 1) in
      let q' := if r <? h then q
                else if h <? r then q + 1
                else if Z.even q then q else q + 1 in
      if q' =? 2 ^ 53 then FNum neg (2 ^ 52) (e + s + 1)
      else FNum neg q' (e + s).

Definition signed (neg : bool) (m : Z) : Z := if neg then - m else m.

Definition sign_of (x : f64) : bool :=
  match x with
  | FNum s _ _ | FInf s => s
  | _ => false
  end.

Definition fneg (x : f64) : f64 :=
  match x with
  | FZero => FZero
  | FNum s m e => FNum (negb s) m e
  | FInf s => FInf (negb s)
  | FNaN => FNaN
  end.

Definition fabs (x : f64) : f64 :=
  match x with
  | FZero => FZero
  | FNum _ m e => FNum false m e
  | FInf _ => FInf false
  | FNaN => FNaN
  end.

Definition fadd (x y : f64) : f64 :=
  match x, y with
  | FNaN, _ | _, FNaN => FNaN
  | FInf s1, FInf s2 => if Bool.eqb s1 s2 then FInf s1 else FNaN
  | FInf s, _ | _, FInf s => FInf s
  | FZero, _ => y
  | _, FZero => x
  | FNum s1 m1 e1, FNum s2 m2 e2 =>
      let e := Z.min e1 e2 in
      let N := signed s1 (m1 * 2 ^ (e1 - e)) + signed s2 (m2 * 2 ^ (e2 - e)) in
      round_nearest_even (N <? 0) (Z.abs N) e
  end.

Definition fsub (x y : f64) : f64 := fadd x (fneg y).

Definition fmul (x y : f64) : f64 :=
  match x, y with
  | FNaN, _ | _, FNaN => FNaN
  | FInf _, FZero | FZero, FInf _ => FNaN
  | FInf s, _ => FInf (xorb s (sign_of y))
  | _, FInf s => FInf (xorb (sign_of x) s)
  | FZero, _ | _, FZero => FZero
  | FNum s1 m1 e1, FNum s2 m2 e2 =>
      round_nearest_even (xorb s1 s2) (m1 * m2) (e1 + e2)
  end.

(** The quotient of the significands is taken to 64 bits and more, with
    a sticky bit for the remainder, before it is rounded. *)
Definition fdiv (x y : f64) : f64 :=
  match x, y with
  | FNaN, _ | _, FNaN => FNaN
  | FInf _, FInf _ => FNaN
  | FInf s, _ => FInf (xorb s (sign_of y))
  | _, FInf _ => FZero
  | FZero, FZero => FNaN
  | FZero, _ => FZero
  | FNum s _ _, FZero => FInf s
  | FNum s1 m1 e1, FNum s2 m2 e2 =>
      let q := (m1 * 2 ^ 64) / m2 in
      let sticky := if (m1 * 2 ^ 64) mod m2 =? 0 then 0 else 1 in
      round_nearest_even (xorb s1 s2) (2 * q + sticky) (e1 - e2 - 65)
  end.

Definition fsqrt (x : f64) : f64 :=
  match x with
  | FNaN => FNaN
  | FZero => FZero
  | FInf s => if s then FNaN else FInf false
  | FNum s m e =>
      if s then FNaN
      else
        let k := if Z.even e then 76 else 77 in
        let N := m * 2 ^ k in
        let q := Z.sqrt N in
        let sticky := if q * q =? N then 0 else 1 in
        round_nearest_even false (2 * q + sticky) ((e - k) / 2 - 1)
  end.

(** [None]: unordered, one side is NaN. *)
Definition fcompare (x y : f64) : option comparison :=
  match x, y with
  | FNaN, _ | _, FNaN => None
  | FInf s1, FInf s2 =>
      Some (if Bool.eqb s1 s2 then Eq else if s1 then Lt else Gt)
  | FInf s, _ => Some (if s then Lt else Gt)
  | _, FInf s => Some (if s then Gt else Lt)
  | FZero, FZero => Some Eq
  | FZero, FNum s _ _ => Some (if s then Gt else Lt)
  | FNum s _ _, FZero => Some (if s then Lt else Gt)
  | FNum s1 m1 e1, FNum s2 m2 e2 =>
      let e := Z.min e1 e2 in
      Some (signed s1 (m1 * 2 ^ (e1 - e)) ?= signed s2 (m2 * 2 ^ (e2 - e)))
  end.

Definition fgt (x y : f64) : bool :=
  match fcompare x y with Some Gt => true | _ => false end.

Definition fle (x y : f64) : bool :=
  match fcompare x y with Some Lt | Some Eq => true | _ => false end.

Definition f64_eqb (x y : f64) : bool :=
  match fcompare x y with Some Eq => true | _ => false end.

Definition f64_of_Z (z : Z) : f64 :=
  round_nearest_even (z <? 0) (Z.abs z) 0.

(** [M_PI] is 0x1.921fb54442d18p+1; 1e-9 is 0x1.12e0be826d695p-30 and
    1e9 is exact. *)
Definition f64_M_PI : f64 := FNum false 7074237752028440 (-51).
Definition f64_1e_9 : f64 := FNum false 4835703278458517 (-82).
Definition f64_1e9 : f64 := FNum false 8388608000000000 (-23).

(** [toSec]: [static_cast<double>(sec) + 1e-9 * static_cast<double>(nsec)],
    with [nsec] in [0, 1e9). *)
Definition f64_toSec (ns : RosDuration) : f64 :=
  fadd (f64_of_Z (ns / NSEC_PER_SEC))
       (fmul f64_1e_9 (f64_of_Z (ns mod NSEC_PER_SEC))).

(** [floor] and [round] (half away from zero) of a finite value. *)
Definition f64_floor (x : f64) : option Z :=
  match x with
  | FZero => Some 0
  | FNum s m e =>
      Some (if 0 <=? e then signed s (m * 2 ^ e)
            else signed s m / 2 ^ (- e))
  | _ => None
  end.

Definition f64_round (x : f64) : option Z :=
  match x with
  | FZero => Some 0
  | FNum s m e =>
      Some (signed s (if 0 <=? e then m * 2 ^ e
                      else (2 * m + 2 ^ (- e)) / 2 ^ (1 - e)))
  | _ => None
  end.

(** [fromSec]: [sec = floor(d)], which must be an int32, and
    [nsec = round((d - sec) * 1e9)]. *)
Definition f64_fromSec (d : f64) : option RosDuration :=
  match f64_floor d with
  | Some sec =>
      if in_int_range sec then
        match f64_round (fmul (fsub d (f64_of_Z sec)) f64_1e9) with
        | Some nsec => Some (sec * NSEC_PER_SEC + nsec)
        | None => None
        end
      else None
  | None => None
  end.

Definition f64_toint (d : f64) : option Z :=
  match d with
  | FZero => Some 0
  | FNum s m e =>
      let z :=
        if 0 <=? e then signed s (m * 2 ^ e)
        else if s then (- m) / 2 ^ (- e)
        else if 2 * (m mod 2 ^ (- e)) <? 2 ^ (- e) then m / 2 ^ (- e)
             else m / 2 ^ (- e) + 1 in
      if in_int_range z then Some z else None
  | _ => None
  end.

(** The functions of the C library the controller calls. *)
Record Libm : Type := mkLibm {
  libm_sin : f64 -> f64;
  libm_cos : f64 -> f64;
  libm_tan : f64 -> f64;
  libm_atan : f64 -> f64;
  libm_pow : f64 -> Z -> f64
}.

Definition f64_ops (libm : Libm) : DoubleOps f64 := {|
  dofZ := f64_of_Z;
  M_PI := f64_M_PI;
  dadd := fadd;
  dsub := fsub;
  dmul := fmul;
  ddiv := fdiv;
  dneg := fneg;
  dsin := libm_sin libm;
  dcos := libm_cos libm;
  dtan := libm_tan libm;
  datan := libm_atan libm;
  dsqrt := fsqrt;
  dabs := fabs;
  dpow := libm_pow libm;
  dgt := fgt;
  dle := fle;
  disnan := fun x => match x with FNaN => true | _ => false end;
  toSec := f64_toSec;
  fromSec := f64_fromSec;
  dtoint := f64_toint
|}.

(** A significand of 53 bits; a value as the operations produce it; a
    finite non-zero value whose exponent keeps the products and squares
    of a cycle far from the ends of the exponent range of a [double]. *)
Definition normal (m : Z) : Prop := 2 ^ 52 <= m < 2 ^ 53.


Definition moderate (x : f64) : Prop :=
  match x with
  | FNum _ m e => normal m /\ - 500 <= e <= 400
  | _ => False
  end.

(** What a cycle at steering angle 0 needs of the C library: sin 0 = 0,
    cos 0 = 1 and atan 0 = 0 (C11 Annex F); the tangent of [M_PI / 2],
    the double next to pi/2, is finite and at least 1.5 * 2^53 (it is
    about 1.633e16); and [pow(x, 2)] is the correctly rounded square. *)
Record straight_ahead_libm (libm : Libm) : Prop := {
  sin_zero : libm_sin libm FZero = FZero;
  cos_zero : libm_cos libm FZero = f64_of_Z 1;
  atan_zero : libm_atan libm FZero = FZero;
  tan_half_pi :
    exists s m e,
      libm_tan libm (fdiv f64_M_PI (f64_of_Z 2)) = FNum s m e /\
      normal m /\ 3 * 2 ^ 51 <= m /\ 1 <= e;
  pow_square : forall x, libm_pow libm x 2 = fmul x x
}.

End Binary64.

(** ** Collaborators *)

(** The odometry object ([odometry_]).  Its class is declared outside this
    translation unit; the controller only calls it.  [update] returns a
    [bool] in the source, which the controller discards. *)

Class OdometryOps (D O : Type) : Type := {
  odom_new : O;
  odom_init : O -> RosTime -> O;
  odom_update : O -> D -> D -> RosTime -> D -> O;
  odom_updateOpenLoop : O -> D -> D -> RosTime -> O;
  odom_setWheelParams : O -> D -> D -> O;
  odom_setVelocityRollingWindowSize : O -> Z -> O
}.

(** An odometry object that records the calls made on it, oldest last. *)

Inductive OdomCall (D : Type) : Type :=
| CallInit (time : RosTime)
| CallUpdate (wheel_pos steer_pos : D) (time : RosTime) (gain : D)
| CallUpdateOpenLoop (linear angular : D) (time : RosTime)
| CallSetWheelParams (wheel_separation_h wheel_radius : D)
| CallSetVelocityRollingWindowSize (n : Z).

Arguments CallInit {D} time.
Arguments CallSetVelocityRollingWindowSize {D} n.

#[export] Instance recording_odometry (D : Type)
  : OdometryOps D (list (OdomCall D)) := {|
  odom_new := [];
  odom_init := fun o t => CallInit t :: o;
  odom_update := fun o w s t g => CallUpdate w s t g :: o;
  odom_updateOpenLoop := fun o l a t => CallUpdateOpenLoop l a t :: o;
  odom_setWheelParams := fun o ws wr => CallSetWheelParams ws wr :: o;
  odom_setVelocityRollingWindowSize :=
    fun o n => CallSetVelocityRollingWindowSize n :: o
|}.

(** ** What [init] reads *)

(** Values on the parameter server. *)
#[warnings="-register-all"]
Inductive XmlRpcValue (D : Type) : Type :=
| XBool (b : bool)
| XInt (z : Z)
| XDouble (d : D)
| XString (s : string)
| XArray (l : list (XmlRpcValue D)).

Arguments XBool {D} b.
Arguments XInt {D} z.
Arguments XString {D} s.

(** A node handle: its namespace and the parameters visible under it. *)
Record NodeHandle (D : Type) : Type := mkNodeHandle {
  getNamespace : string;
  parameters : list (string * XmlRpcValue D)
}.

(** The joint names each hardware interface has registered. *)
Record RobotHW : Type := mkRobotHW {
  velocity_joints : list string;
  position_joints : list string
}.

Inductive InitResult (A : Type) : Type :=
| InitOk (a : A)
| InitFalse              (* [return false] *)
| InitAssertFailed       (* a [ROS_ASSERT] does not hold *)
| InitThrows             (* [ros::Duration(double)] or [getHandle] throws *)
| InitUndefined.         (* a double outside [int] is converted to [int] *)

Arguments InitFalse {A}.
Arguments InitAssertFailed {A}.
Arguments InitThrows {A}.
Arguments InitUndefined {A}.

Definition init_bind {A B : Type} (r : InitResult A) (k : A -> InitResult B)
  : InitResult B :=
  match r with
  | InitOk a => k a
  | InitFalse => InitFalse
  | InitAssertFailed => InitAssertFailed
  | InitThrows => InitThrows
  | InitUndefined => InitUndefined
  end.

Notation "x <- r ;; k" := (init_bind r (fun x => k))
  (at level 61, r at next level, right associativity).

(** [complete_ns.substr(complete_ns.find_last_of("/") + 1)]: the text after
    the last slash, the whole string when there is none. *)
Fixpoint after_last_slash_from (acc s : string) : string :=
  match s with
  | EmptyString => acc
  | String c rest =>
      if Ascii.eqb c "/"%char then after_last_slash_from EmptyString rest
      else after_last_slash_from (acc ++ String c EmptyString) rest
  end.

Definition after_last_slash (s : string) : string :=
  after_last_slash_from EmptyString s.

(** ** Controller state *)

Section Controller.

Context {D : Type} {ops : DoubleOps D}.
Context {O : Type} {odo : OdometryOps D O}.

Local Open Scope double_scope.
Local Notation "0" := (dofZ 0%Z) : double_scope.
Local Notation "1" := (dofZ 1%Z) : double_scope.
Local Notation "2" := (dofZ 2%Z) : double_scope.

(** [struct Commands]: default-constructed as [lin(0.0), ang(0.0), stamp(0.0)]. *)
Record Commands : Type := mkCommands {
  lin : D;
  ang : D;
  stamp : RosTime
}.

Definition Commands_default : Commands := mkCommands 0 0 0%Z.

(** The fields of [geometry_msgs::Twist] the callback reads. *)
Record Twist : Type := mkTwist {
  linear_x : D;
  angular_z : D
}.

(** [SpeedLimiter]: the public fields [init] fills in. *)
Record SpeedLimiter : Type := mkSpeedLimiter {
  has_velocity_limits : bool;
  has_acceleration_limits : bool;
  has_jerk_limits : bool;
  min_velocity : D;
  max_velocity : D;
  min_acceleration : D;
  max_acceleration : D;
  min_jerk : D;
  max_jerk : D
}.

(** The command registers behind the seven joint handles
    (what [setCommand] last wrote). *)
Record JointHandles : Type := mkJoints {
  right_rear_wheel_joint_ : D;
  left_rear_wheel_joint_ : D;
  right_front_wheel_joint_ : D;
  left_front_wheel_joint_ : D;
  front_steer_joint_ : D;
  left_front_steer_joint_ : D;
  right_front_steer_joint_ : D
}.

(** Published messages.  An odometry message carries [getX()], [getY()],
    [getHeading()], [getLinear()] and [getAngular()] of the odometry
    object at publication time: the object itself is kept. *)
Record OdomMsg : Type := mkOdomMsg {
  odom_stamp : RosTime;
  odom_state : O
}.

Inductive LogEntry : Type :=
| ErrMultiplePublishers (at_sec : D) (publishers : Z)
| ErrNotRunning.

(** Values fixed by [init]. *)
Record Params : Type := mkParams {
  name_ : string;
  open_loop_ : bool;
  wheel_separation_h_ : D;
  wheel_separation_l_ : D;
  wheel_radius_ : D;
  wheel_separation_h_multiplier_ : D;
  wheel_radius_multiplier_ : D;
  steer_pos_multiplier_ : D;
  cmd_vel_timeout_ : D;
  allow_multiple_cmd_vel_publishers_ : bool;
  base_frame_id_ : string;
  odom_frame_id_ : string;
  enable_odom_tf_ : bool;
  publish_period_ : RosDuration;
  limiter_lin_ : SpeedLimiter;
  limiter_ang_ : SpeedLimiter;
  pose_covariance_diagonal : list D;
  twist_covariance_diagonal : list D
}.

Record Controller : Type := mkController {
  params : Params;
  running : bool;                    (* isRunning() *)
  command_ : Commands;               (* RealtimeBuffer: latest write *)
  command_struct_ : Commands;
  last1_cmd_ : Commands;
  last0_cmd_ : Commands;
  odometry_ : O;
  last_state_publish_time_ : RosTime;
  joints : JointHandles;
  odom_pub_ : list OdomMsg;          (* newest first *)
  tf_odom_pub_ : list OdomMsg;       (* newest first *)
  rosout : list LogEntry;            (* newest first *)
  throttle_last_hit : D              (* the throttled report's last hit *)
}.

Definition set_running (b : bool) (s : Controller) : Controller :=
  mkController (params s) b (command_ s) (command_struct_ s) (last1_cmd_ s)
    (last0_cmd_ s) (odometry_ s) (last_state_publish_time_ s) (joints s)
    (odom_pub_ s) (tf_odom_pub_ s) (rosout s) (throttle_last_hit s).

Definition set_command (c : Commands) (s : Controller) : Controller :=
  mkController (params s) (running s) c c (last1_cmd_ s)
    (last0_cmd_ s) (odometry_ s) (last_state_publish_time_ s) (joints s)
    (odom_pub_ s) (tf_odom_pub_ s) (rosout s) (throttle_last_hit s).

Definition set_last_cmds (c1 c0 : Commands) (s : Controller) : Controller :=
  mkController (params s) (running s) (command_ s) (command_struct_ s) c1
    c0 (odometry_ s) (last_state_publish_time_ s) (joints s)
    (odom_pub_ s) (tf_odom_pub_ s) (rosout s) (throttle_last_hit s).

Definition set_odometry (o : O) (s : Controller) : Controller :=
  mkController (params s) (running s) (command_ s) (command_struct_ s)
    (last1_cmd_ s) (last0_cmd_ s) o (last_state_publish_time_ s) (joints s)
    (odom_pub_ s) (tf_odom_pub_ s) (rosout s) (throttle_last_hit s).

Definition set_publish (t : RosTime) (om tm : list OdomMsg) (s : Controller)
  : Controller :=
  mkController (params s) (running s) (command_ s) (command_struct_ s)
    (last1_cmd_ s) (last0_cmd_ s) (odometry_ s) t (joints s)
    om tm (rosout s) (throttle_last_hit s).

Definition set_joints (j : JointHandles) (s : Controller) : Controller :=
  mkController (params s) (running s) (command_ s) (command_struct_ s)
    (last1_cmd_ s) (last0_cmd_ s) (odometry_ s) (last_state_publish_time_ s)
    j (odom_pub_ s) (tf_odom_pub_ s) (rosout s) (throttle_last_hit s).

Definition set_log (l : list LogEntry) (hit : D) (s : Controller)
  : Controller :=
  mkController (params s) (running s) (command_ s) (command_struct_ s)
    (last1_cmd_ s) (last0_cmd_ s) (odometry_ s) (last_state_publish_time_ s)
    (joints s) (odom_pub_ s) (tf_odom_pub_ s) l hit.

(** ** [update]: one control cycle *)

(** What the cycle reads from outside the controller: the two sensor
    registers and whether each realtime publisher's [trylock] succeeds. *)
Record CycleInputs : Type := mkInputs {
  wheel_pos_reading : D;    (* right_rear_wheel_joint_.getPosition() *)
  steer_pos_reading : D;    (* front_steer_joint_.getPosition() *)
  odom_pub_trylock : bool;
  tf_odom_pub_trylock : bool
}.

(** The odometry gain of the closed-loop branch (locals [r], [r_right],
    [gain]). *)
Definition odometry_gain (wheel_separation_l steer_pos : D) : D :=
  let r := wheel_separation_l * dtan ((M_PI / 2) - steer_pos) in
  let r_right := dabs (r - (wheel_separation_l / 2)) in
  r_right / dabs r.

(** "COMPUTE AND PUBLISH ODOMETRY", first half.  [None] is the [return]
    taken on a NaN reading, which leaves [update]. *)
Definition odometry_phase (s : Controller) (inp : CycleInputs)
    (time : RosTime) : option Controller :=
  let p := params s in
  if open_loop_ p then
    Some (set_odometry
            (odom_updateOpenLoop (odometry_ s) (lin (last0_cmd_ s))
               (ang (last0_cmd_ s)) time) s)
  else
    let wheel_pos := wheel_pos_reading inp in
    let steer_pos := steer_pos_reading inp in
    let gain := odometry_gain (wheel_separation_l_ p) steer_pos in
    if disnan wheel_pos || disnan steer_pos then None
    else
      let steer_pos := steer_pos * steer_pos_multiplier_ p in
      Some (set_odometry
              (odom_update (odometry_ s) wheel_pos steer_pos time gain) s).

(** "Publish odometry message". *)
Definition publish_phase (s : Controller) (inp : CycleInputs)
    (time : RosTime) : Controller :=
  let p := params s in
  if (last_state_publish_time_ s + publish_period_ p <? time)%Z then
    let msg := mkOdomMsg time (odometry_ s) in
    let om := if odom_pub_trylock inp then msg :: odom_pub_ s
              else odom_pub_ s in
    let tm := if enable_odom_tf_ p && tf_odom_pub_trylock inp
              then msg :: tf_odom_pub_ s else tf_odom_pub_ s in
    set_publish (last_state_publish_time_ s + publish_period_ p)%Z om tm s
  else s.

(** "Brake if cmd_vel has timeout". *)
Definition staleness_cutoff (cmd_vel_timeout : D) (time : RosTime)
    (curr_cmd : Commands) : Commands :=
  let dt := toSec (time - stamp curr_cmd)%Z in
  if dt >? cmd_vel_timeout then mkCommands 0 0 (stamp curr_cmd)
  else curr_cmd.

(** The forward kinematics, local by local. *)
Definition right_wheel_steer_angle (theta length width : D) : D :=
  datan ((2 * length * dsin theta) /
         (2 * length * dcos theta - width * dsin theta)).

Definition left_wheel_steer_angle (theta length width : D) : D :=
  datan ((2 * length * dsin theta) /
         (2 * length * dcos theta + width * dsin theta)).

Definition turning_radius (wheel_separation_l theta : D) : D :=
  dabs (wheel_separation_l * dtan ((M_PI / 2) - theta)).

Definition r_right_front_wheel (r wheel_separation_l wheel_separation_h : D)
  : D :=
  dsqrt (dpow (r + (wheel_separation_l / 2)) 2 + dpow wheel_separation_h 2).

Definition r_left_front_wheel (r wheel_separation_l wheel_separation_h : D)
  : D :=
  dsqrt (dpow (r - (wheel_separation_l / 2)) 2 + dpow wheel_separation_h 2).

Definition right_front_wheel_omega (p : Params) (c : Commands) : D :=
  let r := turning_radius (wheel_separation_l_ p) (ang c) in
  (r_right_front_wheel r (wheel_separation_l_ p) (wheel_separation_h_ p) / r)
  * lin c.

Definition left_front_wheel_omega (p : Params) (c : Commands) : D :=
  let r := turning_radius (wheel_separation_l_ p) (ang c) in
  (r_left_front_wheel r (wheel_separation_l_ p) (wheel_separation_h_ p) / r)
  * lin c.

Definition right_rear_wheel_omega (p : Params) (c : Commands) : D :=
  let r := turning_radius (wheel_separation_l_ p) (ang c) in
  ((r + (wheel_separation_l_ p / 2)) / r) * lin c.

Definition left_rear_wheel_omega (p : Params) (c : Commands) : D :=
  let r := turning_radius (wheel_separation_l_ p) (ang c) in
  ((r - (wheel_separation_l_ p / 2)) / r) * lin c.

(** The seven [setCommand] calls of "Set Command", as the registers they
    leave behind. *)
Definition wheel_targets (p : Params) (curr_cmd : Commands) : JointHandles :=
  let theta := ang curr_cmd in
  let length := wheel_separation_l_ p in
  let width := wheel_separation_h_ p in
  let wr := wheel_radius_ p in
  let lfs := right_wheel_steer_angle theta length width in
  let rfs := left_wheel_steer_angle theta length width in
  if theta >? 0 then
    mkJoints (right_rear_wheel_omega p curr_cmd / wr)
             (left_rear_wheel_omega p curr_cmd / wr)
             (right_front_wheel_omega p curr_cmd / wr)
             (left_front_wheel_omega p curr_cmd / wr)
             theta lfs rfs
  else
    mkJoints (left_rear_wheel_omega p curr_cmd / wr)
             (right_rear_wheel_omega p curr_cmd / wr)
             (left_front_wheel_omega p curr_cmd / wr)
             (right_front_wheel_omega p curr_cmd / wr)
             theta lfs rfs.

(** "MOVE ROBOT".  The two [limiter_*.limit] calls are commented out in
    the source; [period] is read into [cmd_dt] and not used. *)
Definition motion_phase (s : Controller) (time : RosTime)
    (period : RosDuration) : Controller :=
  let p := params s in
  let curr_cmd := staleness_cutoff (cmd_vel_timeout_ p) time (command_ s) in
  let s1 := set_last_cmds (last0_cmd_ s) curr_cmd s in
  set_joints (wheel_targets p curr_cmd) s1.

Definition update (s : Controller) (inp : CycleInputs) (time : RosTime)
    (period : RosDuration) : Controller :=
  match odometry_phase s inp time with
  | None => s
  | Some s1 => motion_phase (publish_phase s1 inp time) time period
  end.

(** ** [brake], [starting], [stopping] *)

Definition brake (s : Controller) : Controller :=
  let steer_pos := 0 in
  let wheel_vel := 0 in
  set_joints (mkJoints wheel_vel wheel_vel wheel_vel wheel_vel
                       steer_pos steer_pos steer_pos) s.

Definition starting (s : Controller) (time : RosTime) : Controller :=
  let s1 := brake s in
  let s2 := set_publish time (odom_pub_ s1) (tf_odom_pub_ s1) s1 in
  set_odometry (odom_init (odometry_ s2) time) s2.

Definition stopping (s : Controller) (time : RosTime) : Controller :=
  brake s.

(** ** [cmdVelCallback] *)

(** rosconsole's throttle test for a report with the given period: the
    report passes when a period has elapsed since the last hit, or when
    the clock went backwards. *)
Definition throttle_check (now last period : D) : bool :=
  dle (last + period) now || dgt last now.

Definition report_throttled (period : D) (now : RosTime) (e : D -> LogEntry)
    (s : Controller) : Controller :=
  let now_sec := toSec now in
  if throttle_check now_sec (throttle_last_hit s) period
  then set_log (e now_sec :: rosout s) now_sec s
  else s.

(** [num_publishers] is [sub_command_.getNumPublishers()], [now] is
    [ros::Time::now()]. *)
Definition cmdVelCallback (s : Controller) (command : Twist)
    (num_publishers : Z) (now : RosTime) : Controller :=
  if running s then
    if negb (allow_multiple_cmd_vel_publishers_ (params s))
       && (1 <? num_publishers)%Z
    then
      brake (report_throttled 1 now
               (fun t => ErrMultiplePublishers t num_publishers) s)
    else
      set_command (mkCommands (linear_x command) (angular_z command) now) s
  else
    set_log (ErrNotRunning :: rosout s) (throttle_last_hit s) s.

(** ** [init] *)

Local Open Scope string_scope.
Local Open Scope double_scope.

Fixpoint lookup_param (key : string) (ps : list (string * XmlRpcValue D))
  : option (XmlRpcValue D) :=
  match ps with
  | [] => None
  | (k, v) :: rest => if String.eqb k key then Some v else lookup_param key rest
  end.

(** [getParam] at each C++ type: a double parameter also accepts an
    integer value, an [int] parameter also accepts a double, which roscpp
    rounds ([dtoint]); a string or bool parameter accepts its own type
    only. *)
Definition getParam_double (nh : NodeHandle D) (key : string) : option D :=
  match lookup_param key (parameters nh) with
  | Some (XDouble d) => Some d
  | Some (XInt z) => Some (dofZ z)
  | _ => None
  end.

Definition getParam_bool (nh : NodeHandle D) (key : string) : option bool :=
  match lookup_param key (parameters nh) with
  | Some (XBool b) => Some b
  | _ => None
  end.

Definition getParam_string (nh : NodeHandle D) (key : string)
  : option string :=
  match lookup_param key (parameters nh) with
  | Some (XString s) => Some s
  | _ => None
  end.

(** [Some None]: the value is a double whose conversion to [int] is
    undefined. *)
Definition getParam_int (nh : NodeHandle D) (key : string)
  : option (option Z) :=
  match lookup_param key (parameters nh) with
  | Some (XInt z) => Some (Some z)
  | Some (XDouble d) => Some (dtoint d)
  | _ => None
  end.

(** [nh.param(key, var, default)]: the value read or the default, and
    whether it was read. *)
Definition param {A : Type} (get : NodeHandle D -> string -> option A)
    (nh : NodeHandle D) (key : string) (default : A) : A * bool :=
  match get nh key with
  | Some v => (v, true)
  | None => (default, false)
  end.

(** [nh.param(key, var, default)] on an [int]. *)
Definition param_int (nh : NodeHandle D) (key : string) (default : Z)
  : InitResult Z :=
  match getParam_int nh key with
  | Some (Some z) => InitOk z
  | Some None => InitUndefined
  | None => InitOk default
  end.

(** [ros::Duration(d)]. *)
Definition Duration (d : D) : InitResult RosDuration :=
  match fromSec d with
  | Some t => InitOk t
  | None => InitThrows
  end.

(** A joint name that [init] insists on finding on the parameter server. *)
Definition required_name (nh : NodeHandle D) (key default : string)
  : InitResult string :=
  let '(v, found) := param getParam_string nh key default in
  if found then InitOk v else InitFalse.

Definition getHandle (registered : list string) (name : string)
  : InitResult unit :=
  if existsb (String.eqb name) registered then InitOk tt else InitThrows.

Definition read_limiter (nh : NodeHandle D) (prefix : string)
    (l : SpeedLimiter) : SpeedLimiter :=
  let key := fun k => (prefix ++ k)%string in
  let hv := fst (param getParam_bool nh (key "has_velocity_limits")
                   (has_velocity_limits l)) in
  let ha := fst (param getParam_bool nh (key "has_acceleration_limits")
                   (has_acceleration_limits l)) in
  let hj := fst (param getParam_bool nh (key "has_jerk_limits")
                   (has_jerk_limits l)) in
  let maxv := fst (param getParam_double nh (key "max_velocity")
                     (max_velocity l)) in
  let minv := fst (param getParam_double nh (key "min_velocity")
                     (dneg maxv)) in
  let maxa := fst (param getParam_double nh (key "max_acceleration")
                     (max_acceleration l)) in
  let mina := fst (param getParam_double nh (key "min_acceleration")
                     (dneg maxa)) in
  let maxj := fst (param getParam_double nh (key "max_jerk") (max_jerk l)) in
  let minj := fst (param getParam_double nh (key "min_jerk") (dneg maxj)) in
  mkSpeedLimiter hv ha hj minv maxv mina maxa minj maxj.

(** [setOdomPubFields]: the checks on one covariance diagonal. *)
Definition covariance_diagonal (nh : NodeHandle D) (key : string)
  : InitResult (list D) :=
  match lookup_param key (parameters nh) with
  | Some (XArray l) =>
      if (List.length l =? 6)%nat then
        let ds := flat_map (fun v => match v with
                                     | XDouble d => [d]
                                     | _ => []
                                     end) l in
        if (List.length ds =? 6)%nat then InitOk ds else InitAssertFailed
      else InitAssertFailed
  | _ => InitAssertFailed
  end.

(** The object the constructor leaves behind.  [wheel_separation_l_] is
    missing from the constructor's initialiser list, so it starts with
    whatever value [wheel_separation_l_indeterminate] stands for;
    [hw_commands] is what the hardware registers hold. *)
Definition constructed (wheel_separation_l_indeterminate : D)
    (hw_commands : JointHandles) : Controller :=
  let zero := dofZ 0 in
  let one := dofZ 1 in
  let limiter := mkSpeedLimiter false false false zero zero zero zero zero zero
  in
  mkController
    (mkParams EmptyString false zero wheel_separation_l_indeterminate zero
       one one one (dofZ 1 / dofZ 2) (* 0.5 *) true "base_link" "odom" true 0%Z
       limiter limiter [] [])
    false Commands_default Commands_default Commands_default Commands_default
    odom_new 0%Z hw_commands [] [] [] zero.

Definition init (c : Controller) (robot_hw : RobotHW)
    (root_nh controller_nh : NodeHandle D) : InitResult Controller :=
  let p := params c in
  let name := after_last_slash (getNamespace controller_nh) in
  right_rear_wheel_name <-
    required_name controller_nh "right_rear_wheel" "right_rear_wheel_joint" ;;
  left_rear_wheel_name <-
    required_name controller_nh "left_rear_wheel" "left_rear_wheel_joint" ;;
  right_front_wheel_name <-
    required_name controller_nh "right_front_wheel" "right_front_wheel_joint" ;;
  left_front_wheel_name <-
    required_name controller_nh "left_front_wheel" "left_front_wheel_joint" ;;
  front_steer_name <-
    required_name controller_nh "front_steer" "front_steer_joint" ;;
  left_front_steer_name <-
    required_name controller_nh "left_front_steer" "left_front_steer_joint" ;;
  right_front_steer_name <-
    required_name controller_nh "right_front_steer" "right_front_steer_joint" ;;
  let publish_rate :=
    fst (param getParam_double controller_nh "publish_rate" (dofZ 50)) in
  publish_period <- Duration (dofZ 1 / publish_rate) ;;
  let open_loop :=
    fst (param getParam_bool controller_nh "open_loop" (open_loop_ p)) in
  let ws_h_mult :=
    fst (param getParam_double controller_nh "wheel_separation_h_multiplier"
           (wheel_separation_h_multiplier_ p)) in
  let wr_mult :=
    fst (param getParam_double controller_nh "wheel_radius_multiplier"
           (wheel_radius_multiplier_ p)) in
  let steer_mult :=
    fst (param getParam_double controller_nh "steer_pos_multiplier"
           (steer_pos_multiplier_ p)) in
  velocity_rolling_window_size <-
    param_int controller_nh "velocity_rolling_window_size" 10%Z ;;
  let odometry1 :=
    odom_setVelocityRollingWindowSize (odometry_ c)
      velocity_rolling_window_size in
  let cmd_vel_timeout :=
    fst (param getParam_double controller_nh "cmd_vel_timeout"
           (cmd_vel_timeout_ p)) in
  let allow_multiple :=
    fst (param getParam_bool controller_nh "allow_multiple_cmd_vel_publishers"
           (allow_multiple_cmd_vel_publishers_ p)) in
  let base_frame_id :=
    fst (param getParam_string controller_nh "base_frame_id"
           (base_frame_id_ p)) in
  let odom_frame_id :=
    fst (param getParam_string controller_nh "odom_frame_id"
           (odom_frame_id_ p)) in
  let enable_odom_tf :=
    fst (param getParam_bool controller_nh "enable_odom_tf"
           (enable_odom_tf_ p)) in
  let limiter_lin := read_limiter controller_nh "linear/x/" (limiter_lin_ p) in
  let limiter_ang := read_limiter controller_nh "angular/z/" (limiter_ang_ p) in
  (* the same key is read into both separations *)
  let wheel_separation_h := getParam_double controller_nh "wheel_separation_h" in
  let wheel_separation_l := getParam_double controller_nh "wheel_separation_h" in
  let wheel_radius := getParam_double controller_nh "wheel_radius" in
  match wheel_separation_h, wheel_separation_l, wheel_radius with
  | Some ws_h_value, Some ws_l_value, Some wr_value =>
      let ws_h := ws_h_mult * ws_h_value in
      let wr := wr_mult * wr_value in
      let odometry2 := odom_setWheelParams odometry1 ws_h wr in
      pose_cov <- covariance_diagonal controller_nh "pose_covariance_diagonal" ;;
      twist_cov <-
        covariance_diagonal controller_nh "twist_covariance_diagonal" ;;
      _ <- getHandle (velocity_joints robot_hw) right_rear_wheel_name ;;
      _ <- getHandle (velocity_joints robot_hw) left_rear_wheel_name ;;
      _ <- getHandle (velocity_joints robot_hw) left_front_wheel_name ;;
      _ <- getHandle (velocity_joints robot_hw) right_front_wheel_name ;;
      _ <- getHandle (position_joints robot_hw) front_steer_name ;;
      _ <- getHandle (position_joints robot_hw) left_front_steer_name ;;
      _ <- getHandle (position_joints robot_hw) right_front_steer_name ;;
      InitOk
        (mkController
           (mkParams name open_loop ws_h_value ws_l_value wr_value
              ws_h_mult wr_mult steer_mult cmd_vel_timeout allow_multiple
              base_frame_id odom_frame_id enable_odom_tf publish_period
              limiter_lin limiter_ang pose_cov twist_cov)
           (running c) (command_ c) (command_struct_ c) (last1_cmd_ c)
           (last0_cmd_ c) odometry2 (last_state_publish_time_ c) (joints c)
           (odom_pub_ c) (tf_odom_pub_ c) (rosout c) (throttle_last_hit c))
  | _, _, _ => InitFalse
  end.

(** ** The controller's life after [init] *)

(** The controller manager starts and stops the controller; [isRunning()]
    follows these requests. *)
Definition startRequest (s : Controller) (time : RosTime) : Controller :=
  set_running true (starting s time).

Definition stopRequest (s : Controller) (time : RosTime) : Controller :=
  set_running false (stopping s time).

Inductive controller_step : Controller -> Controller -> Prop :=
| step_update s inp time period :
    controller_step s (update s inp time period)
| step_cmdVelCallback s command num_publishers now :
    controller_step s (cmdVelCallback s command num_publishers now)
| step_start s time :
    controller_step s (startRequest s time)
| step_stop s time :
    controller_step s (stopRequest s time).

Inductive reachable (s : Controller) : Controller -> Prop :=
| reach_here : reachable s s
| reach_step s1 s2 :
    reachable s s1 -> controller_step s1 s2 -> reachable s s2.

(** What happens to a controller, in order of occurrence. *)
Inductive Event : Type :=
| EvUpdate (inp : CycleInputs) (time : RosTime) (period : RosDuration)
| EvCommand (command : Twist) (num_publishers : Z) (now : RosTime)
| EvStart (time : RosTime)
| EvStop (time : RosTime).

Definition run_event (s : Controller) (e : Event) : Controller :=
  match e with
  | EvUpdate inp time period => update s inp time period
  | EvCommand command num_publishers now =>
      cmdVelCallback s command num_publishers now
  | EvStart time => startRequest s time
  | EvStop time => stopRequest s time
  end.

Definition run (s : Controller) (evs : list Event) : Controller :=
  fold_left run_event evs s.

(** The times of the publisher-violation reports in a log, newest first. *)
Definition report_times (log : list LogEntry) : list D :=
  flat_map (fun e => match e with
                     | ErrMultiplePublishers t _ => [t]
                     | ErrNotRunning => []
                     end) log.

(** The command [update] acts on at [time]. *)
Definition cycle_command (s : Controller) (time : RosTime) : Commands :=
  staleness_cutoff (cmd_vel_timeout_ (params s)) time (command_ s).

(** ** The limiter and the cycles the specification describes *)

Definition clamp (x lo hi : D) : D :=
  if dgt lo x then lo else if dgt x hi then hi else x.

(** Modelled from the spec: the MotionLimiter ([SpeedLimiter::limit]) is
    part of the repository but not of this translation unit.  Section 4.1:
    [limit(desired, prev1, prev2, dt)] returns [desired] when [dt <= 0];
    otherwise it applies, in this order, the jerk bound (from [prev1],
    [prev2], [dt]), the acceleration bound (from [prev1], [dt]) and the
    velocity bound; a disabled bound is skipped and an enabled one clamps
    the candidate into [[min, max]].  The spec does not give the jerk
    formula; the second difference is bounded by [jerk * 2 * dt * dt]. *)
Definition limit_jerk (l : SpeedLimiter) (v v0 v1 dt : D) : D :=
  if has_jerk_limits l then
    let dv := v - v0 in
    let dv0 := v0 - v1 in
    let dt2 := dofZ 2 * dt * dt in
    v0 + dv0 + clamp (dv - dv0) (min_jerk l * dt2) (max_jerk l * dt2)
  else v.

Definition limit_acceleration (l : SpeedLimiter) (v v0 dt : D) : D :=
  if has_acceleration_limits l then
    v0 + clamp (v - v0) (min_acceleration l * dt) (max_acceleration l * dt)
  else v.

Definition limit_velocity (l : SpeedLimiter) (v : D) : D :=
  if has_velocity_limits l then clamp v (min_velocity l) (max_velocity l)
  else v.

Definition limit (l : SpeedLimiter) (desired prev1 prev2 dt : D) : D :=
  if dle dt (dofZ 0) then desired
  else
    limit_velocity l
      (limit_acceleration l (limit_jerk l desired prev1 prev2 dt) prev1 dt).

(** Every bound of a limiter is switched off. *)
Definition limiter_disabled (l : SpeedLimiter) : Prop :=
  has_velocity_limits l = false /\
  has_acceleration_limits l = false /\
  has_jerk_limits l = false.

(** The motion phase as section 4.5 words it: cutoff, then the limiter on
    both scalars with the two most recent post-limit values and [period],
    then the forward kinematics. *)
Definition motion_phase_limited (s : Controller) (time : RosTime)
    (period : RosDuration) : Controller :=
  let p := params s in
  let curr_cmd := staleness_cutoff (cmd_vel_timeout_ p) time (command_ s) in
  let cmd_dt := toSec period in
  let limited :=
    mkCommands
      (limit (limiter_lin_ p) (lin curr_cmd) (lin (last0_cmd_ s))
         (lin (last1_cmd_ s)) cmd_dt)
      (limit (limiter_ang_ p) (ang curr_cmd) (ang (last0_cmd_ s))
         (ang (last1_cmd_ s)) cmd_dt)
      (stamp curr_cmd) in
  set_joints (wheel_targets p limited)
    (set_last_cmds (last0_cmd_ s) limited s).

(** The cycle section 4.5 describes for a NaN reading: the odometry phase
    alone is skipped, publication and motion go on. *)
Definition cycle_skipping_odometry_only (s : Controller) (inp : CycleInputs)
    (time : RosTime) (period : RosDuration) : Controller :=
  motion_phase (publish_phase s inp time) time period.


End Controller.

Arguments Commands D : clear implicits.
Arguments Twist D : clear implicits.
Arguments SpeedLimiter D : clear implicits.
Arguments JointHandles D : clear implicits.
Arguments OdomMsg O : clear implicits.
Arguments LogEntry D : clear implicits.
Arguments Params D : clear implicits.
Arguments Controller D O : clear implicits.
Arguments CycleInputs D : clear implicits.
Arguments Event D : clear implicits.

(** ** The URDF helpers and the odometry message fields *)

Section Helpers.

Context {D : Type} {ops : DoubleOps D}.

Local Open Scope string_scope.
Local Open Scope double_scope.

(** [urdf::Vector3]. *)
Record Vector3 : Type := mkVector3 {
  vec_x : D;
  vec_y : D;
  vec_z : D
}.

Definition euclideanOfVectors (vec1 vec2 : Vector3) : D :=
  dsqrt (dpow (vec_x vec1 - vec_x vec2) 2 + dpow (vec_y vec1 - vec_y vec2) 2
         + dpow (vec_z vec1 - vec_z vec2) 2).

(** [urdf::Geometry] with its [type] tag, [urdf::Collision] and
    [urdf::Link]; each shared pointer may be null. *)
Inductive Geometry : Type :=
| SPHERE (radius : D)
| BOX (dim : Vector3)
| CYLINDER (length radius : D)
| MESH (filename : string).

Record Collision : Type := mkCollision {
  geometry : option Geometry
}.

Record Link : Type := mkLink {
  link_name : string;
  collision : option Collision
}.

(** The error each failed check of [isCylinder] logs. *)
Inductive LinkError : Type :=
| LinkPointerNull
| NoCollisionDescription (name : string)
| NoCollisionGeometry (name : string)
| NoCylinderGeometry (name : string).

Definition isCylinder (link : option Link) : bool * list LinkError :=
  match link with
  | None => (false, [LinkPointerNull])
  | Some l =>
      match collision l with
      | None => (false, [NoCollisionDescription (link_name l)])
      | Some c =>
          match geometry c with
          | None => (false, [NoCollisionGeometry (link_name l)])
          | Some (CYLINDER _ _) => (true, [])
          | Some _ => (false, [NoCylinderGeometry (link_name l)])
          end
      end
  end.

(** [getWheelRadius]: the radius written to the out-parameter on [true];
    on [false] the error message reads [wheel_link->name], which
    dereferences the pointer also when it is null. *)
Inductive WheelRadius : Type :=
| RadiusFound (wheel_radius : D)
| RadiusNotFound (wheel_link_name : string)
| RadiusNullDereference.

Definition getWheelRadius (wheel_link : option Link) : WheelRadius :=
  if fst (isCylinder wheel_link) then
    match wheel_link with
    | Some (mkLink _ (Some (mkCollision (Some (CYLINDER _ radius))))) =>
        RadiusFound radius
    | Some l => RadiusNotFound (link_name l)
    | None => RadiusNullDereference
    end
  else
    match wheel_link with
    | Some l => RadiusNotFound (link_name l)
    | None => RadiusNullDereference
    end.

(** [setOdomPubFields]: the 36 entries written to [pose.covariance] and
    [twist.covariance] from the six values of a diagonal, row by row. *)
Definition covariance_matrix (c0 c1 c2 c3 c4 c5 : D) : list D :=
  let z := dofZ 0 in
  [c0; z; z; z; z; z; z;
   c1; z; z; z; z; z; z;
   c2; z; z; z; z; z; z;
   c3; z; z; z; z; z; z;
   c4; z; z; z; z; z; z;
   c5].

Definition covariance_of_diagonal (diag : list D) : option (list D) :=
  match diag with
  | [c0; c1; c2; c3; c4; c5] => Some (covariance_matrix c0 c1 c2 c3 c4 c5)
  | _ => None
  end.

(** The parameters that name the joints. *)
Definition wheel_joint_keys : list string :=
  ["right_rear_wheel"; "left_rear_wheel"; "right_front_wheel";
   "left_front_wheel"].

Definition steer_joint_keys : list string :=
  ["front_steer"; "left_front_steer"; "right_front_steer"].

Definition joint_name_keys : list string :=
  wheel_joint_keys ++ steer_joint_keys.

(** Every joint-name parameter is set, to a string. *)
Definition all_names_set (nh : NodeHandle D) : Prop :=
  forall key, In key joint_name_keys -> getParam_string nh key <> None.

(** [publish_rate] as [init] reads it: 50.0 unless configured. *)
Definition configured_publish_rate (nh : NodeHandle D) : D :=
  fst (param getParam_double nh "publish_rate" (dofZ 50)).

(** Runs without a start request, and runs whose cycles happen no later
    than [T]. *)
Fixpoint no_start (evs : list (Event D)) : Prop :=
  match evs with
  | [] => True
  | EvStart _ :: _ => False
  | _ :: rest => no_start rest
  end.

Fixpoint updates_by (T : RosTime) (evs : list (Event D)) : Prop :=
  match evs with
  | [] => True
  | EvUpdate _ time _ :: rest => (time <= T)%Z /\ updates_by T rest
  | _ :: rest => updates_by T rest
  end.

End Helpers.

(** ** The throttled report over a run *)

Section Throttle.

Context {D : Type} {ops : DoubleOps D}.
Context {O : Type}.



End Throttle.

Arguments Vector3 D : clear implicits.
Arguments Geometry D : clear implicits.
Arguments Collision D : clear implicits.
Arguments Link D : clear implicits.
Arguments WheelRadius D : clear implicits.

(** ** A concrete controller

    The configuration of a small vehicle, run through [init], a start
    request and one command, over operation traces. *)

Module Demo.

Local Open Scope string_scope.

Definition TraceController : Type := Controller expr (list (OdomCall expr)).

Definition cov6 : XmlRpcValue expr :=
  XArray (map (fun q => XDouble (ENum q))
            [1 # 1000; 1 # 1000; 1 # 1000; 1 # 1000; 1 # 1000; 3 # 100]%Q).

Definition controller_nh : NodeHandle expr :=
  mkNodeHandle "/ackermann_steering_bot_controller"
    [ ("right_rear_wheel", XString "rear_right_wheel");
      ("left_rear_wheel", XString "rear_left_wheel");
      ("right_front_wheel", XString "front_right_wheel");
      ("left_front_wheel", XString "front_left_wheel");
      ("front_steer", XString "front_steer");
      ("left_front_steer", XString "front_left_steer");
      ("right_front_steer", XString "front_right_steer");
      ("wheel_separation_h", XDouble (ENum 1));
      ("wheel_radius", XDouble (ENum (1 # 10)));
      ("allow_multiple_cmd_vel_publishers", XBool false);
      ("pose_covariance_diagonal", cov6);
      ("twist_covariance_diagonal", cov6) ].

Definition root_nh : NodeHandle expr := mkNodeHandle "/" [].

Definition robot_hw : RobotHW :=
  mkRobotHW
    ["rear_right_wheel"; "rear_left_wheel"; "front_right_wheel";
     "front_left_wheel"]
    ["front_steer"; "front_left_steer"; "front_right_steer"].

(** The same parameters with one key removed, and hardware that lacks the
    right front steer joint. *)
Definition without (key : string) (nh : NodeHandle expr) : NodeHandle expr :=
  mkNodeHandle (getNamespace nh)
    (filter (fun kv => negb (String.eqb (fst kv) key)) (parameters nh)).

Definition robot_hw_without_a_steer : RobotHW :=
  mkRobotHW (velocity_joints robot_hw) ["front_steer"; "front_left_steer"].

Definition at_rest : JointHandles expr :=
  mkJoints (ENum 0) (ENum 0) (ENum 0) (ENum 0) (ENum 0) (ENum 0) (ENum 0).

Definition fresh : TraceController := constructed (ENum 7) at_rest.

Definition initialised : TraceController :=
  Eval vm_compute in
    match init fresh robot_hw root_nh controller_nh with
    | InitOk s => s
    | _ => fresh
    end.

(** Started at t = 1 s; a command (linear 1, steering 1/5) arrives at
    t = 2 s from the only publisher. *)
Definition started : TraceController :=
  Eval vm_compute in startRequest initialised 1000000000%Z.

Definition commanded : TraceController :=
  Eval vm_compute in
    cmdVelCallback started (mkTwist (ENum 1) (ENum (1 # 5))) 1%Z 2000000000%Z.

(** Variants of the configuration: one more parameter, and the
    controller [init] and a start at t = 1 s make of a configuration. *)
Definition with_param (key : string) (v : XmlRpcValue expr)
    (nh : NodeHandle expr) : NodeHandle expr :=
  mkNodeHandle (getNamespace nh) ((key, v) :: parameters nh).

Definition started_from (nh : NodeHandle expr) : TraceController :=
  match init fresh robot_hw root_nh nh with
  | InitOk s => startRequest s 1000000000%Z
  | _ => fresh
  end.

(** The rolling window size given as the double 4.0, and a publish rate
    of 0 in a configuration that lacks the wheel radius. *)
Definition window_as_double : NodeHandle expr :=
  with_param "velocity_rolling_window_size" (XDouble (ENum 4)) controller_nh.

Definition windowed : TraceController :=
  Eval vm_compute in
    match init fresh robot_hw root_nh window_as_double with
    | InitOk s => s
    | _ => fresh
    end.

Definition zero_rate_no_radius : NodeHandle expr :=
  with_param "publish_rate" (XDouble (ENum 0))
    (without "wheel_radius" controller_nh).

Definition open_loop_controller : TraceController :=
  Eval vm_compute in
    started_from (with_param "open_loop" (XBool true) controller_nh).

Definition without_transforms : TraceController :=
  Eval vm_compute in
    started_from (with_param "enable_odom_tf" (XBool false) controller_nh).

Definition permissive : TraceController :=
  Eval vm_compute in
    started_from (without "allow_multiple_cmd_vel_publishers" controller_nh).

(** A command, three cycles 10 ms apart, a command from a second
    publisher, a stop and one more command. *)
Definition drive : list (Event expr) :=
  [ EvCommand (mkTwist (ENum 1) (ENum (1 # 5))) 1%Z 2000000000%Z;
    EvUpdate (mkInputs (ENum 3) (ENum (1 # 5)) true true)
      2100000000%Z 10000000%Z;
    EvUpdate (mkInputs (ENum 4) (ENum (1 # 5)) true true)
      2110000000%Z 10000000%Z;
    EvUpdate (mkInputs (ENum 5) (ENum (1 # 5)) true true)
      2120000000%Z 10000000%Z;
    EvCommand (mkTwist (ENum 2) (ENum 0)) 2%Z 2125000000%Z;
    EvStop 2130000000%Z;
    EvCommand (mkTwist (ENum 3) (ENum 0)) 1%Z 2140000000%Z ].

(** A wheel link and a link without collision geometry. *)
Definition wheel_link : Link expr :=
  mkLink "rear_right_wheel"
    (Some (mkCollision (Some (CYLINDER (ENum (1 # 20)) (ENum (1 # 10)))))).

(** A cycle 0.1 s after the command, with a period of 10 ms. *)
Definition t_cycle : RosTime := 2100000000%Z.
Definition t_period : RosDuration := 10000000%Z.

Definition good_reading : CycleInputs expr :=
  mkInputs (ENum 3) (ENum (1 # 5)) true true.

Definition nan_reading : CycleInputs expr :=
  mkInputs ENaN (ENum (1 # 5)) true true.

(** The controller after that cycle: the joints hold the targets of the
    command (1, 1/5). *)
Definition turning : TraceController :=
  Eval vm_compute in update commanded good_reading t_cycle t_period.

(** The same after a next command (1, 3/10) at t = 2.2 s. *)
Definition recommanded : TraceController :=
  Eval vm_compute in
    cmdVelCallback turning (mkTwist (ENum 1) (ENum (3 # 10))) 1%Z
      2200000000%Z.

(** A command to the other side, (1, -1/5), at t = 2 s. *)
Definition commanded_right : TraceController :=
  Eval vm_compute in
    cmdVelCallback started (mkTwist (ENum 1) (ENum (- 1 # 5))) 1%Z
      2000000000%Z.

(** Cycle times 0.2 s after the latest command of [recommanded] and
    0.7 s after the command of [turning]. *)
Definition t_next : RosTime := 2400000000%Z.
Definition t_late : RosTime := 2700000000%Z.

End Demo.

(** ** Report times and arrival times, over the reals *)

(** [spaced gap ts]: in [ts], listed newest first, every time is at least
    [gap] after the one before it. *)
Fixpoint spaced (gap : R) (ts : list R) : Prop :=
  match ts with
  | t1 :: rest =>
      match rest with
      | t2 :: _ => (t2 + gap <= t1)%R /\ spaced gap rest
      | [] => True
      end
  | [] => True
  end.

(** The clock read at successive command arrivals never goes back, and
    starts no earlier than [t0]. *)
Fixpoint clock_monotone (t0 : R) (evs : list (Event R)) : Prop :=
  match evs with
  | [] => True
  | EvCommand _ _ now :: rest =>
      (t0 <= toSec now)%R /\ clock_monotone (toSec now) rest
  | _ :: rest => clock_monotone t0 rest
  end.

(** ** The same vehicle over the reals *)

Module Vehicle.

Local Open Scope string_scope.
Local Open Scope R_scope.

Definition RealController : Type := Controller R (list (OdomCall R)).

Definition no_limits : SpeedLimiter R :=
  mkSpeedLimiter false false false 0 0 0 0 0 0.

(** Velocity bound [[-1/2, 1/2]], nothing else. *)
Definition half_speed : SpeedLimiter R :=
  mkSpeedLimiter true false false (- (1 / 2)) (1 / 2) 0 0 0 0.

(** Wheelbase [L], track width [W], wheel radius [r_wheel]; closed loop,
    command timeout 0.5 s, one publisher allowed. *)
Definition geometry (L W r_wheel : R) (limiter_ang : SpeedLimiter R)
  : Params R :=
  mkParams "vehicle" false W L r_wheel 1 1 1 (1 / 2) false
    "base_link" "odom" true 20000000%Z no_limits limiter_ang [] [].

(** A running controller holding the command [cmd], its joints at rest. *)
Definition driving (p : Params R) (cmd : Commands R) : RealController :=
  mkController p true cmd cmd (mkCommands 0 0 0%Z) (mkCommands 0 0 0%Z)
    [] 0%Z (mkJoints 0 0 0 0 0 0 0) [] [] [] 0.

Definition reading : CycleInputs R := mkInputs 3 (1 / 5) true true.

(** Wheelbase and track width 1 m, wheel radius 0.1 m; the command
    (linear 1, steering 1/5) was stamped at t = 0. *)
Definition cruising : RealController :=
  driving (geometry 1 1 (1 / 10) no_limits) (mkCommands 1 (1 / 5) 0%Z).

(** The same with the angular velocity bounded to [[-1/2, 1/2]] and the
    steering command 1. *)
Definition bounded : RealController :=
  driving (geometry 1 1 (1 / 10) half_speed) (mkCommands 1 1 0%Z).

(** The command (linear 1, steering pi/4). *)
Definition quarter_turn : Commands R := mkCommands 1 (PI / 4) 0%Z.

(** Wheelbase and track width 1, wheel radius 1/10; commands at steering
    angles -pi/4 and atan 3. *)
Definition square : Params R := geometry 1 1 (1 / 10) no_limits.
Definition quarter_turn_right : Commands R := mkCommands 1 (- (PI / 4)) 0%Z.
Definition steep_turn : Commands R := mkCommands 1 (atan 3) 0%Z.

(** Cycle times: 0.1 s and 0.6 s after the command; period 10 ms. *)
Definition t_fresh : RosTime := 100000000%Z.
Definition t_stale : RosTime := 600000000%Z.
Definition t_period : RosDuration := 10000000%Z.

(** The vehicle after a first cycle at [t_fresh]: its joints hold the
    targets of the command (1, 1/5). *)
Definition rolling : RealController :=
  update cruising reading t_fresh t_period.

End Vehicle.

(** ** The same vehicle in binary64 *)

Module Binary.

Local Open Scope string_scope.
Local Open Scope Z_scope.

Fixpoint table (entries : list (f64 * f64)) (x : f64) : f64 :=
  match entries with
  | [] => FNaN
  | (k, v) :: rest => if f64_eqb x k then v else table rest x
  end.

Fixpoint fpow_pos (x : f64) (n : nat) : f64 :=
  match n with
  | O => f64_of_Z 1
  | S O => x
  | S k => fmul (fpow_pos x k) x
  end.

Definition half : f64 := fdiv (f64_of_Z 1) (f64_of_Z 2).
Definition half_pi : f64 := fdiv f64_M_PI (f64_of_Z 2).

(** The C library at the arguments the cycles below pass, at the steering
    angles 0 and 0.5: the values glibc returns.
    tan (M_PI / 2) = 0x1.d02967c31cdb5p+53, tan (M_PI / 2 - 0.5) =
    0x1.d49ad7e47c0a1p+0, sin 0.5 = 0x1.eaee8744b05f0p-2, cos 0.5 =
    0x1.c1528065b7d50p-1, and the arc tangents of the two steering ratios
    at 0.5, 0x1.49ff6f09973b5p-1 and 0x1.9f0fd2ffcd8e5p-2.  Squares are
    one multiplication.  Any other argument yields NaN. *)
Definition reference_libm : Libm :=
  mkLibm
    (table [ (FZero, FZero);
             (half, FNum false 8636562708039152 (-54)) ])
    (table [ (FZero, f64_of_Z 1);
             (half, FNum false 7904560997432656 (-53)) ])
    (table [ (half_pi, FNum false 8165619676597685 1);
             (fsub half_pi half, FNum false 8243783821410465 (-52)) ])
    (table [ (FZero, FZero);
             (FNum false 6769847709040075 (-53),
              FNum false 5805382481572789 (-53));
             (FNum false 7729883466729844 (-54),
              FNum false 7301844640258277 (-54)) ])
    (fun x n => fpow_pos x (Z.to_nat n)).

Definition reference_ops : DoubleOps f64 := f64_ops reference_libm.

#[local] Existing Instance reference_ops.

Definition FloatController : Type := Controller f64 (list (OdomCall f64)).

Definition cov6 : XmlRpcValue f64 :=
  XArray (map (fun z => XDouble (fdiv (f64_of_Z z) (f64_of_Z 1000)))
            [1; 1; 1; 1; 1; 30]).

(** The parameters of [Demo.controller_nh], as doubles, with
    "wheel_separation_h" set to [separation]: wheel radius 0.1; the
    command timeout defaults to 0.5 s and the publish rate to 50 Hz. *)
Definition configuration (separation : f64) : NodeHandle f64 :=
  mkNodeHandle "/ackermann_steering_bot_controller"
    [ ("right_rear_wheel", XString "rear_right_wheel");
      ("left_rear_wheel", XString "rear_left_wheel");
      ("right_front_wheel", XString "front_right_wheel");
      ("left_front_wheel", XString "front_left_wheel");
      ("front_steer", XString "front_steer");
      ("left_front_steer", XString "front_left_steer");
      ("right_front_steer", XString "front_right_steer");
      ("wheel_separation_h", XDouble separation);
      ("wheel_radius", XDouble (fdiv (f64_of_Z 1) (f64_of_Z 10)));
      ("allow_multiple_cmd_vel_publishers", XBool false);
      ("pose_covariance_diagonal", cov6);
      ("twist_covariance_diagonal", cov6) ].

(** Both separations 1.0. *)
Definition controller_nh : NodeHandle f64 := configuration (f64_of_Z 1).

Definition at_rest : JointHandles f64 :=
  mkJoints FZero FZero FZero FZero FZero FZero FZero.

Definition fresh : FloatController := constructed (f64_of_Z 7) at_rest.

Definition configured (nh : NodeHandle f64) : FloatController :=
  match init fresh Demo.robot_hw (mkNodeHandle "/" []) nh with
  | InitOk s => s
  | _ => fresh
  end.

Definition initialised : FloatController :=
  Eval vm_compute in configured controller_nh.

(** The same with both separations 0.0, which [init] accepts. *)
Definition flat : FloatController :=
  Eval vm_compute in configured (configuration FZero).

(** Started at t = 1 s; a command (linear 1, steering 0.5) arrives at
    t = 2 s and a cycle runs at t = 2.1 s; the next command, straight
    ahead (linear 1, steering 0), arrives at t = 2.2 s. *)
Definition started : FloatController :=
  Eval vm_compute in startRequest initialised 1000000000.

Definition reading : CycleInputs f64 := mkInputs (f64_of_Z 3) FZero true true.
Definition nan_reading : CycleInputs f64 := mkInputs FNaN FZero true true.

Definition t_period : RosDuration := 10000000.

Definition turning : FloatController :=
  Eval vm_compute in
    update (cmdVelCallback started (mkTwist (f64_of_Z 1) half) 1 2000000000)
      reading 2100000000 t_period.

Definition straightened : FloatController :=
  Eval vm_compute in
    cmdVelCallback turning (mkTwist (f64_of_Z 1) FZero) 1 2200000000.

(** The next cycles: 0.1 s and 0.6 s after the last command. *)
Definition t_fresh : RosTime := 2300000000.
Definition t_stale : RosTime := 2800000000.

End Binary.

(** * Properties *)

(** ** The model on concrete inputs *)

Section Checks.

Import Demo.

Local Open Scope string_scope.

Example name_is_last_path_segment :
  after_last_slash "/robot/ackermann_steering_bot_controller"
    = "ackermann_steering_bot_controller" /\
  after_last_slash "controller" = "controller" /\
  name_ (params initialised) = "ackermann_steering_bot_controller".
Proof. repeat split. Qed.

Example init_succeeds :
  init fresh robot_hw root_nh controller_nh = InitOk initialised /\
  wheel_separation_h_ (params initialised) = ENum 1 /\
  wheel_separation_l_ (params initialised) = ENum 1 /\
  publish_period_ (params initialised) = 20000000%Z.
Proof. repeat split; vm_compute; reflexivity. Qed.

Example init_needs_every_joint_name :
  init fresh robot_hw root_nh (without "front_steer" controller_nh)
    = InitFalse.
Proof. vm_compute. reflexivity. Qed.

Example init_needs_separation_and_radius :
  init fresh robot_hw root_nh (without "wheel_separation_h" controller_nh)
    = InitFalse /\
  init fresh robot_hw root_nh (without "wheel_radius" controller_nh)
    = InitFalse.
Proof. split; vm_compute; reflexivity. Qed.

(** A publish rate of 0: [ros::Duration(1.0 / 0.0)] throws before the
    missing wheel radius is noticed. *)
Example init_throws_on_zero_publish_rate :
  init fresh robot_hw root_nh zero_rate_no_radius = InitThrows /\
  init fresh robot_hw root_nh
    (with_param "publish_rate" (XDouble ENaN) controller_nh) = InitThrows.
Proof. split; vm_compute; reflexivity. Qed.

(** An [int] parameter given as a double: 4.0 and 4.4 become 4, 4.5
    becomes 5, -0.3 becomes -1, a NaN has no defined conversion. *)
Example int_parameter_from_double :
  dtoint (ENum 4) = Some 4%Z /\ dtoint (ENum (44 # 10)) = Some 4%Z /\
  dtoint (ENum (45 # 10)) = Some 5%Z /\ dtoint (ENum (- 3 # 10)) = Some (-1)%Z /\
  dtoint ENaN = None /\
  init fresh robot_hw root_nh
    (with_param "velocity_rolling_window_size" (XDouble ENaN) controller_nh)
    = InitUndefined.
Proof. repeat split; vm_compute; reflexivity. Qed.

(** While the publish clock lags behind the cycle time, every cycle
    publishes: three messages 10 ms apart with a publish period of
    20 ms. *)
Example catch_up_publishes_every_cycle :
  publish_period_ (params started) = 20000000%Z /\
  map (@odom_stamp _) (odom_pub_ (run started drive))
    = [2120000000; 2110000000; 2100000000]%Z.
Proof. split; vm_compute; reflexivity. Qed.

Example init_asserts_covariances :
  init fresh robot_hw root_nh
    (without "twist_covariance_diagonal" controller_nh) = InitAssertFailed.
Proof. vm_compute. reflexivity. Qed.

Example init_throws_on_unregistered_joint :
  init fresh robot_hw_without_a_steer root_nh controller_nh = InitThrows.
Proof. vm_compute. reflexivity. Qed.

(** One cycle 0.1 s after the command (1, 1/5): the centre joint gets
    1/5, the left front joint the angle of the "right" formula, and one
    odometry message goes out. *)
Example fresh_cycle_trace :
  let s' := update commanded good_reading t_cycle t_period in
  last0_cmd_ s' = mkCommands (ENum 1) (ENum (1 # 5)) 2000000000%Z /\
  front_steer_joint_ (joints s') = ENum (1 # 5) /\
  left_front_steer_joint_ (joints s') =
    EAtan (EDiv (EMul (EMul (ENum 2) (ENum 1)) (ESin (ENum (1 # 5))))
             (ESub (EMul (EMul (ENum 2) (ENum 1)) (ECos (ENum (1 # 5))))
                (EMul (ENum 1) (ESin (ENum (1 # 5)))))) /\
  List.length (odom_pub_ s') = 1%nat /\
  last_state_publish_time_ s' = 1020000000%Z.
Proof. repeat split; vm_compute; reflexivity. Qed.

(** The same cycle 0.6 s after the command: the command is cut to (0, 0). *)
Example stale_cycle_trace :
  last0_cmd_ (update commanded good_reading 2600000000%Z t_period)
    = mkCommands (ENum 0) (ENum 0) 2000000000%Z.
Proof. vm_compute. reflexivity. Qed.

(** A command from a second publisher: braked, reported, not stored. *)
Example second_publisher_trace :
  let s' := cmdVelCallback commanded (mkTwist (ENum 2) (ENum 0)) 2%Z
              3000000000%Z in
  joints s' = at_rest /\
  command_ s' = command_ commanded /\
  rosout s' = [ErrMultiplePublishers (ENum (3000000000 # 1000000000)) 2%Z].
Proof. repeat split; vm_compute; reflexivity. Qed.

End Checks.

(** ** What the phases of a cycle leave alone *)

Section CycleFacts.

Context {D : Type} {ops : DoubleOps D}.
Context {O : Type} {odo : OdometryOps D O}.

Implicit Types (s : Controller D O) (inp : CycleInputs D).
Implicit Types (time now : RosTime) (period : RosDuration).

Lemma odometry_phase_nan s inp time :
  open_loop_ (params s) = false ->
  disnan (wheel_pos_reading inp) || disnan (steer_pos_reading inp) = true ->
  odometry_phase s inp time = None.
Proof.
  intros Hloop Hnan. unfold odometry_phase.
  rewrite Hloop, Hnan. reflexivity.
Qed.

Lemma odometry_phase_closed_loop s inp time :
  open_loop_ (params s) = false ->
  disnan (wheel_pos_reading inp) || disnan (steer_pos_reading inp) = false ->
  odometry_phase s inp time =
    Some (set_odometry
            (odom_update (odometry_ s) (wheel_pos_reading inp)
               (dmul (steer_pos_reading inp) (steer_pos_multiplier_ (params s)))
               time
               (odometry_gain (wheel_separation_l_ (params s))
                  (steer_pos_reading inp))) s).
Proof.
  intros Hloop Hnan. unfold odometry_phase.
  rewrite Hloop, Hnan. reflexivity.
Qed.

(** The odometry phase touches the odometry object only. *)
Lemma odometry_phase_frame s inp time s1 :
  odometry_phase s inp time = Some s1 ->
  params s1 = params s /\ command_ s1 = command_ s /\
  last0_cmd_ s1 = last0_cmd_ s /\ joints s1 = joints s.
Proof.
  unfold odometry_phase.
  destruct (open_loop_ (params s)).
  - intros [= <-]. repeat split.
  - destruct (disnan _ || disnan _); [discriminate |].
    intros [= <-]. repeat split.
Qed.

(** Publication touches the publishers and the publish clock only. *)
Lemma publish_phase_frame s inp time :
  let s' := publish_phase s inp time in
  params s' = params s /\ command_ s' = command_ s /\
  last0_cmd_ s' = last0_cmd_ s /\ joints s' = joints s /\
  odometry_ s' = odometry_ s.
Proof.
  unfold publish_phase.
  destruct (_ <? _)%Z; repeat split.
Qed.

Lemma motion_phase_odometry s time period :
  odometry_ (motion_phase s time period) = odometry_ s.
Proof. reflexivity. Qed.

Lemma motion_phase_params s time period :
  params (motion_phase s time period) = params s.
Proof. reflexivity. Qed.

(** A cycle that gets past the odometry phase acts on [cycle_command]. *)
Lemma update_reaching_motion s inp time period s1 :
  odometry_phase s inp time = Some s1 ->
  joints (update s inp time period)
    = wheel_targets (params s) (cycle_command s time) /\
  last0_cmd_ (update s inp time period) = cycle_command s time /\
  last1_cmd_ (update s inp time period) = last0_cmd_ s.
Proof.
  intros Hodo. unfold update. rewrite Hodo.
  destruct (odometry_phase_frame _ _ _ Hodo) as (Hp & Hc & Hl & _).
  destruct (publish_phase_frame s1 inp time) as (Hp' & Hc' & Hl' & _).
  unfold motion_phase, cycle_command; simpl.
  rewrite Hp', Hp, Hc', Hc, Hl', Hl. repeat split.
Qed.

Lemma command_update s inp time period :
  command_ (update s inp time period) = command_ s.
Proof.
  unfold update.
  destruct (odometry_phase s inp time) as [s1 |] eqn:Hodo; [| reflexivity].
  unfold motion_phase. cbn [command_ set_joints set_last_cmds].
  destruct (publish_phase_frame s1 inp time) as (_ & -> & _).
  now destruct (odometry_phase_frame _ _ _ Hodo) as (_ & -> & _).
Qed.

Lemma params_update s inp time period :
  params (update s inp time period) = params s.
Proof.
  unfold update.
  destruct (odometry_phase s inp time) as [s1 |] eqn:Hodo; [| reflexivity].
  rewrite motion_phase_params.
  destruct (publish_phase_frame s1 inp time) as (-> & _).
  now destruct (odometry_phase_frame _ _ _ Hodo) as (-> & _).
Qed.

Lemma params_cmdVelCallback s command num_publishers now :
  params (cmdVelCallback s command num_publishers now) = params s.
Proof.
  unfold cmdVelCallback, report_throttled.
  destruct (running s); [| reflexivity].
  destruct (negb _ && _); [| reflexivity].
  destruct (throttle_check _ _ _); reflexivity.
Qed.

Lemma params_controller_step s s' :
  controller_step s s' -> params s' = params s.
Proof.
  destruct 1.
  - apply params_update.
  - apply params_cmdVelCallback.
  - reflexivity.
  - reflexivity.
Qed.

Lemma params_reachable s s' : reachable s s' -> params s' = params s.
Proof.
  induction 1 as [| s1 s2 _ IH Hstep]; [reflexivity |].
  rewrite (params_controller_step Hstep). exact IH.
Qed.

(** A cycle goes on past the odometry phase in open-loop mode, and in
    closed-loop mode when neither reading is NaN. *)
Lemma past_sensor_check s inp time :
  open_loop_ (params s) = true \/
  disnan (wheel_pos_reading inp) || disnan (steer_pos_reading inp) = false ->
  exists s1, odometry_phase s inp time = Some s1.
Proof.
  unfold odometry_phase. intros [-> | Hnan]; [eauto |].
  destruct (open_loop_ (params s)); [eauto |]. rewrite Hnan. eauto.
Qed.

Lemma update_past_sensor_check s inp time period :
  open_loop_ (params s) = true \/
  disnan (wheel_pos_reading inp) || disnan (steer_pos_reading inp) = false ->
  joints (update s inp time period)
    = wheel_targets (params s) (cycle_command s time) /\
  last0_cmd_ (update s inp time period) = cycle_command s time /\
  last1_cmd_ (update s inp time period) = last0_cmd_ s.
Proof.
  intros Hgo. destruct (past_sensor_check s inp time Hgo) as (s1 & Hodo).
  exact (update_reaching_motion s inp time period Hodo).
Qed.

(** In any arithmetic, a cycle that gets past the sensor check with a
    command older than the timeout acts on the zero command. *)
Lemma stale_cycle_acts_on_zero s inp time period :
  open_loop_ (params s) = true \/
  disnan (wheel_pos_reading inp) || disnan (steer_pos_reading inp) = false ->
  dgt (toSec (time - stamp (command_ s))%Z) (cmd_vel_timeout_ (params s))
    = true ->
  last0_cmd_ (update s inp time period)
    = mkCommands (dofZ 0) (dofZ 0) (stamp (command_ s)) /\
  last1_cmd_ (update s inp time period) = last0_cmd_ s /\
  joints (update s inp time period)
    = wheel_targets (params s)
        (mkCommands (dofZ 0) (dofZ 0) (stamp (command_ s))).
Proof.
  intros Hgo Hstale.
  destruct (update_past_sensor_check s inp time period Hgo) as (-> & -> & ->).
  unfold cycle_command, staleness_cutoff. rewrite Hstale. now repeat split.
Qed.

(** The three steering registers do not depend on the side branch. *)
Lemma wheel_targets_steer (p : Params D) (c : Commands D) :
  front_steer_joint_ (wheel_targets p c) = ang c /\
  left_front_steer_joint_ (wheel_targets p c)
    = right_wheel_steer_angle (ang c) (wheel_separation_l_ p)
        (wheel_separation_h_ p) /\
  right_front_steer_joint_ (wheel_targets p c)
    = left_wheel_steer_angle (ang c) (wheel_separation_l_ p)
        (wheel_separation_h_ p).
Proof.
  unfold wheel_targets.
  destruct (dgt (ang c) (dofZ 0)); repeat split.
Qed.

(** ** C1: a NaN reading *)

(** C1, as amended.  In closed-loop mode, a cycle whose rear-wheel
    position reading or steer-angle reading is NaN returns at once: the
    whole controller state is the one before the cycle.  The pose is
    unchanged, nothing is published, the command history is not shifted
    and no wheel-speed or steering setpoint is written. *)
Theorem update_returns_on_nan_reading s inp time period :
  open_loop_ (params s) = false ->
  disnan (wheel_pos_reading inp) || disnan (steer_pos_reading inp) = true ->
  update s inp time period = s.
Proof.
  intros Hloop Hnan. unfold update.
  now rewrite (odometry_phase_nan s inp time Hloop Hnan).
Qed.

(** ** C2: the limiter *)

Lemma limit_disabled (l : SpeedLimiter D) desired prev1 prev2 dt :
  limiter_disabled l -> limit l desired prev1 prev2 dt = desired.
Proof.
  intros (Hv & Ha & Hj).
  unfold limit, limit_velocity, limit_acceleration, limit_jerk.
  rewrite Hv, Ha, Hj. now destruct (dle dt _).
Qed.

(** C2, as amended.  After the staleness cutoff the motion phase applies
    no limiter: whatever bounds are configured, the post-cutoff command
    itself becomes the most recent command ([last0_cmd_], the previous
    one moving to [last1_cmd_]) and is what the forward kinematics turn
    into wheel targets.  The cycle agrees with the limited one of the
    specification when every bound of both limiters is disabled. *)
Theorem motion_phase_applies_no_limiter s time period :
  (joints (motion_phase s time period)
     = wheel_targets (params s) (cycle_command s time) /\
   last0_cmd_ (motion_phase s time period) = cycle_command s time /\
   last1_cmd_ (motion_phase s time period) = last0_cmd_ s) /\
  (limiter_disabled (limiter_lin_ (params s)) ->
   limiter_disabled (limiter_ang_ (params s)) ->
   motion_phase s time period = motion_phase_limited s time period).
Proof.
  split; [repeat split |].
  intros Hlin Hang. unfold motion_phase, motion_phase_limited.
  rewrite !limit_disabled by assumption.
  now destruct (staleness_cutoff _ _ _).
Qed.

(** ** C10: the odometry gain *)

(** C10.  In a closed-loop cycle with readable sensors, the odometry
    object is updated with the gain [|r - L/2| / |r|], where
    [r = L * tan(pi/2 - steer_pos)] is computed from the steer angle as
    read, while the steer angle handed over in the same call is the
    reading times [steer_pos_multiplier_]. *)
Theorem odometry_gain_uses_raw_steer_angle s inp time period :
  open_loop_ (params s) = false ->
  disnan (wheel_pos_reading inp) || disnan (steer_pos_reading inp) = false ->
  let L := wheel_separation_l_ (params s) in
  let steer_pos := steer_pos_reading inp in
  let r := dmul L (dtan (dsub (ddiv M_PI (dofZ 2)) steer_pos)) in
  odometry_ (update s inp time period) =
    odom_update (odometry_ s) (wheel_pos_reading inp)
      (dmul steer_pos (steer_pos_multiplier_ (params s))) time
      (ddiv (dabs (dsub r (ddiv L (dofZ 2)))) (dabs r)).
Proof.
  intros Hloop Hnan. cbv zeta. unfold update.
  rewrite (odometry_phase_closed_loop s inp time Hloop Hnan).
  rewrite motion_phase_odometry.
  now destruct (publish_phase_frame
                  (set_odometry
                     (odom_update (odometry_ s) (wheel_pos_reading inp)
                        (dmul (steer_pos_reading inp)
                           (steer_pos_multiplier_ (params s))) time
                        (odometry_gain (wheel_separation_l_ (params s))
                           (steer_pos_reading inp))) s) inp time)
    as (_ & _ & _ & _ & ->).
Qed.

(** ** C6: which side gets which value *)

(** C6, as amended.  In every control cycle that gets past the sensor
    check (open-loop mode, or neither reading NaN) the angle of the
    "right" formula is sent to the left front steer joint and the angle
    of the "left" formula to the right one; the wheel speeds computed as
    right/left go to the wheels of their own side exactly when the test
    [theta > 0] on the commanded angle holds, and to the wheels of the
    opposite side when it fails (an angle that is zero or negative). *)
Theorem side_assignment s inp time period :
  open_loop_ (params s) = true \/
  disnan (wheel_pos_reading inp) || disnan (steer_pos_reading inp) = false ->
  let p := params s in
  let c := cycle_command s time in
  let out := joints (update s inp time period) in
  let r_wheel := wheel_radius_ p in
  left_front_steer_joint_ out
    = right_wheel_steer_angle (ang c) (wheel_separation_l_ p)
        (wheel_separation_h_ p) /\
  right_front_steer_joint_ out
    = left_wheel_steer_angle (ang c) (wheel_separation_l_ p)
        (wheel_separation_h_ p) /\
  (dgt (ang c) (dofZ 0) = true ->
   right_rear_wheel_joint_ out = ddiv (right_rear_wheel_omega p c) r_wheel /\
   left_rear_wheel_joint_ out = ddiv (left_rear_wheel_omega p c) r_wheel /\
   right_front_wheel_joint_ out = ddiv (right_front_wheel_omega p c) r_wheel /\
   left_front_wheel_joint_ out = ddiv (left_front_wheel_omega p c) r_wheel) /\
  (dgt (ang c) (dofZ 0) = false ->
   right_rear_wheel_joint_ out = ddiv (left_rear_wheel_omega p c) r_wheel /\
   left_rear_wheel_joint_ out = ddiv (right_rear_wheel_omega p c) r_wheel /\
   right_front_wheel_joint_ out = ddiv (left_front_wheel_omega p c) r_wheel /\
   left_front_wheel_joint_ out = ddiv (right_front_wheel_omega p c) r_wheel).
Proof.
  intros Hgo. cbv zeta.
  destruct (update_past_sensor_check s inp time period Hgo) as (-> & _).
  destruct (wheel_targets_steer (params s) (cycle_command s time))
    as (_ & Hl & Hr).
  split; [exact Hl |]. split; [exact Hr |].
  split; intros Hside; unfold wheel_targets; rewrite Hside; repeat split.
Qed.

(** ** C8: a second command publisher *)

Lemma update_keeps_log s inp time period :
  rosout (update s inp time period) = rosout s /\
  throttle_last_hit (update s inp time period) = throttle_last_hit s.
Proof.
  unfold update, odometry_phase.
  destruct (open_loop_ (params s)); [| destruct (disnan _ || disnan _)];
    try (split; reflexivity);
    unfold motion_phase, publish_phase;
    cbn [last_state_publish_time_ set_odometry params];
    destruct (_ <? _)%Z; split; reflexivity.
Qed.

(** What a command's arrival does to the reports of the log. *)
Lemma callback_report s command num_publishers now :
  let s' := cmdVelCallback s command num_publishers now in
  (report_times (rosout s') = report_times (rosout s) /\
   throttle_last_hit s' = throttle_last_hit s) \/
  (report_times (rosout s') = toSec now :: report_times (rosout s) /\
   throttle_last_hit s' = toSec now /\
   throttle_check (toSec now) (throttle_last_hit s) (dofZ 1) = true).
Proof.
  cbv zeta. unfold cmdVelCallback, report_throttled.
  destruct (running s); [| left; split; reflexivity].
  destruct (negb _ && _); [| left; split; reflexivity].
  destruct (throttle_check _ _ _) eqn:Hthrottle; [right | left];
    repeat split.
Qed.




End CycleFacts.

(** ** C9: the two wheel separations *)

Section InitFacts.

Context {D : Type} {ops : DoubleOps D}.
Context {O : Type} {odo : OdometryOps D O}.

Local Open Scope string_scope.

Ltac init_step H :=
  match type of H with
  | init_bind ?r _ = InitOk _ =>
      let v := fresh "v" in
      destruct r as [v | | | |]; cbn [init_bind] in H; try discriminate H
  end.

Lemma init_reads_one_key (c : Controller D O) robot_hw root_nh controller_nh s :
  init c robot_hw root_nh controller_nh = InitOk s ->
  getParam_double controller_nh "wheel_separation_h"
    = Some (wheel_separation_h_ (params s)) /\
  getParam_double controller_nh "wheel_separation_h"
    = Some (wheel_separation_l_ (params s)).
Proof.
  unfold init. intros H.
  do 9 init_step H.
  destruct (getParam_double controller_nh "wheel_separation_h") as [ws |];
    [| discriminate H].
  destruct (getParam_double controller_nh "wheel_radius") as [wr |];
    [| discriminate H].
  do 9 init_step H.
  injection H as <-. split; reflexivity.
Qed.

(** C9.  After a successful [init], [wheel_separation_l_] (the wheelbase
    of the kinematics) and [wheel_separation_h_] (the track width) both
    hold the value of the one parameter "wheel_separation_h", so they are
    equal; and nothing the controller does afterwards changes them: in
    every later state, hence in every later cycle's forward kinematics and
    odometry gain, length equals width. *)
Theorem separations_loaded_from_one_key
    (c : Controller D O) robot_hw root_nh controller_nh s :
  init c robot_hw root_nh controller_nh = InitOk s ->
  getParam_double controller_nh "wheel_separation_h"
    = Some (wheel_separation_h_ (params s)) /\
  getParam_double controller_nh "wheel_separation_h"
    = Some (wheel_separation_l_ (params s)) /\
  forall s', reachable s s' ->
    wheel_separation_l_ (params s') = wheel_separation_h_ (params s').
Proof.
  intros Hinit.
  destruct (init_reads_one_key _ _ _ _ Hinit) as (Hh & Hl).
  repeat split; trivial.
  intros s' Hreach. rewrite (params_reachable Hreach). congruence.
Qed.

End InitFacts.

(** ** The controller over the reals *)

Section RealFacts.

Context {O : Type} {odo : OdometryOps R O}.

Implicit Types (s : Controller R O) (inp : CycleInputs R).
Implicit Types (p : Params R) (c : Commands R).
Implicit Types (time now : RosTime) (period : RosDuration).

Local Open Scope R_scope.

Lemma Rgtb_true a b : b < a -> Rgtb a b = true.
Proof. intros H. unfold Rgtb. destruct (Rlt_dec b a); [reflexivity | lra]. Qed.

Lemma Rgtb_false a b : a <= b -> Rgtb a b = false.
Proof. intros H. unfold Rgtb. destruct (Rlt_dec b a); [lra | reflexivity]. Qed.

Lemma Rleb_true a b : a <= b -> Rleb a b = true.
Proof. intros H. unfold Rleb. destruct (Rle_dec a b); [reflexivity | lra]. Qed.

Lemma Rleb_false a b : b < a -> Rleb a b = false.
Proof. intros H. unfold Rleb. destruct (Rle_dec a b); [lra | reflexivity]. Qed.

(** No real number is NaN: over the reals every cycle reaches the motion
    phase. *)
Lemma real_cycle_reaches_motion s inp time :
  exists s1, odometry_phase s inp time = Some s1.
Proof.
  unfold odometry_phase. destruct (open_loop_ (params s)); simpl; eauto.
Qed.

Lemma real_update_joints s inp time period :
  joints (update s inp time period)
    = wheel_targets (params s) (cycle_command s time) /\
  last0_cmd_ (update s inp time period) = cycle_command s time.
Proof.
  destruct (real_cycle_reaches_motion s inp time) as (s1 & Hodo).
  destruct (update_reaching_motion s inp time period Hodo) as (Hj & Hl & _).
  now split.
Qed.

Lemma wheel_targets_right_turn p c :
  0 < ang c ->
  wheel_targets p c =
    mkJoints (right_rear_wheel_omega p c / wheel_radius_ p)
             (left_rear_wheel_omega p c / wheel_radius_ p)
             (right_front_wheel_omega p c / wheel_radius_ p)
             (left_front_wheel_omega p c / wheel_radius_ p)
             (ang c)
             (right_wheel_steer_angle (ang c) (wheel_separation_l_ p)
                (wheel_separation_h_ p))
             (left_wheel_steer_angle (ang c) (wheel_separation_l_ p)
                (wheel_separation_h_ p)).
Proof.
  intros H. unfold wheel_targets. simpl dgt.
  now rewrite (Rgtb_true H).
Qed.

Lemma wheel_targets_otherwise p c :
  ang c <= 0 ->
  wheel_targets p c =
    mkJoints (left_rear_wheel_omega p c / wheel_radius_ p)
             (right_rear_wheel_omega p c / wheel_radius_ p)
             (left_front_wheel_omega p c / wheel_radius_ p)
             (right_front_wheel_omega p c / wheel_radius_ p)
             (ang c)
             (right_wheel_steer_angle (ang c) (wheel_separation_l_ p)
                (wheel_separation_h_ p))
             (left_wheel_steer_angle (ang c) (wheel_separation_l_ p)
                (wheel_separation_h_ p)).
Proof.
  intros H. unfold wheel_targets. simpl dgt.
  now rewrite (Rgtb_false H).
Qed.

(** The limiter modelled from the specification has the property its
    section 8 states: with only the acceleration bound [[-a, a]] enabled,
    the result stays within [a * dt] of the previous value. *)
Lemma limit_respects_acceleration_bound (a v v0 v1 dt : R) :
  0 <= a -> 0 < dt ->
  Rabs (limit (mkSpeedLimiter false true false 0 0 (- a) a 0 0) v v0 v1 dt
        - v0) <= a * dt.
Proof.
  intros Ha Hdt.
  unfold limit, limit_velocity, limit_acceleration, limit_jerk, clamp.
  cbn [has_velocity_limits has_acceleration_limits has_jerk_limits
       min_acceleration max_acceleration dadd dsub dmul dle dgt dofZ R_ops].
  rewrite Rleb_false by lra.
  unfold Rgtb.
  destruct (Rlt_dec (v - v0) (- a * dt));
    [| destruct (Rlt_dec (a * dt) (v - v0))];
    apply Rabs_le; nra.
Qed.

(** ** C5: a stale command *)

Lemma zero_command_targets p st :
  let out := wheel_targets p (mkCommands 0 0 st) in
  right_rear_wheel_joint_ out = 0 /\ left_rear_wheel_joint_ out = 0 /\
  right_front_wheel_joint_ out = 0 /\ left_front_wheel_joint_ out = 0.
Proof.
  cbv zeta. rewrite wheel_targets_otherwise by (simpl; lra).
  unfold left_rear_wheel_omega, right_rear_wheel_omega,
    left_front_wheel_omega, right_front_wheel_omega.
  cbn [right_rear_wheel_joint_ left_rear_wheel_joint_
       right_front_wheel_joint_ left_front_wheel_joint_ lin ang dmul ddiv
       R_ops].
  unfold Rdiv. repeat split; rewrite Rmult_0_r; apply Rmult_0_l.
Qed.

(** ** C3: the wheel speeds *)



(** ** C7: the two front steering angles *)


Lemma atan_pos x : 0 < x -> 0 < atan x.
Proof. intros H. rewrite <- atan_0. now apply atan_increasing. Qed.



(** ** The throttle read over the reals *)

Lemma throttle_check_passes (t_now t_last window : R) :
  throttle_check t_now t_last window = true ->
  t_last + window <= t_now \/ t_now < t_last.
Proof.
  unfold throttle_check. cbn [dadd dle dgt R_ops]. unfold Rleb, Rgtb.
  destruct (Rle_dec (t_last + window) t_now); [now left |].
  destruct (Rlt_dec t_now t_last); [now right | discriminate].
Qed.

Lemma callback_log s command num_publishers now :
  let s' := cmdVelCallback s command num_publishers now in
  (report_times (rosout s') = report_times (rosout s) /\
   throttle_last_hit s' = throttle_last_hit s) \/
  (report_times (rosout s') = toSec now :: report_times (rosout s) /\
   throttle_last_hit s' = toSec now /\
   (throttle_last_hit s + 1 <= toSec now \/ toSec now < throttle_last_hit s)).
Proof.
  cbv zeta.
  destruct (callback_report s command num_publishers now)
    as [Hsame | (Hlog & Hhit & Hpass)]; [now left | right].
  repeat split; trivial. now apply throttle_check_passes.
Qed.

(** Under a clock that never goes back, any two publisher-violation
    reports of a run are at least one second apart. *)
Lemma reports_a_period_apart (evs : list (Event R)) :
  forall s t0,
    spaced 1 (report_times (rosout s)) ->
    (forall t, hd_error (report_times (rosout s)) = Some t ->
               t <= throttle_last_hit s) ->
    throttle_last_hit s <= t0 ->
    clock_monotone t0 evs ->
    spaced 1 (report_times (rosout (run s evs))).
Proof.
  induction evs as [| e evs IH]; intros s t0 Hspaced Hhead Hlast Hclock;
    [exact Hspaced |].
  unfold run. cbn [fold_left]. fold (run (run_event s e) evs).
  destruct e as [inp time period | command n now | time | time];
    cbn [run_event clock_monotone] in *.
  - destruct (update_keeps_log s inp time period) as (Hlog & Hhit).
    apply (IH _ t0); rewrite ?Hlog, ?Hhit; assumption.
  - destruct Hclock as (Hnow & Hclock).
    destruct (callback_log s command n now)
      as [(Hlog & Hhit) | (Hlog & Hhit & Hgap)].
    + apply (IH _ (toSec now)); rewrite ?Hlog, ?Hhit; trivial. lra.
    + assert (Hgap' : throttle_last_hit s + 1 <= toSec now)
        by (destruct Hgap; lra).
      apply (IH _ (toSec now)); rewrite ?Hlog, ?Hhit; trivial.
      * destruct (report_times (rosout s)) as [| t ts] eqn:Hts;
          [exact I |].
        split; [| exact Hspaced].
        specialize (Hhead t eq_refl). lra.
      * intros t [= <-]. apply Rle_refl.
      * lra.
  - apply (IH _ t0); assumption.
  - apply (IH _ t0); assumption.
Qed.

End RealFacts.

(** ** Rounding in binary64 *)

Section Rounding.

Local Open Scope Z_scope.

Lemma pow2_pos d : 0 <= d -> 0 < 2 ^ d.
Proof. intros. apply Z.pow_pos_nonneg; lia. Qed.

Lemma pow2_succ d : 1 <= d -> 2 ^ d = 2 * 2 ^ (d - 1).
Proof.
  intros Hd. replace d with (Z.succ (d - 1)) at 1 by lia.
  apply Z.pow_succ_r. lia.
Qed.

(** A 53-bit significand followed by [d] more bits has [53 + d] bits. *)
Lemma log2_scaled m d x :
  normal m -> 0 <= d -> 0 <= x < 2 ^ d -> Z.log2 (m * 2 ^ d + x) = 52 + d.
Proof.
  intros [Hlo Hhi] Hd Hx. pose proof (pow2_pos Hd) as HP.
  assert (E1 : 2 ^ (52 + d) = 2 ^ 52 * 2 ^ d) by (apply Z.pow_add_r; lia).
  assert (E2 : 2 ^ Z.succ (52 + d) = 2 * (2 ^ 52 * 2 ^ d))
    by (rewrite Z.pow_succ_r, E1; lia).
  apply Z.log2_unique; [lia |].
  rewrite E1, E2. split; nia.
Qed.

(** Less than half a unit in the last place above [m] rounds down to
    [m]. *)
Lemma rne_absorb_up neg m d x e :
  normal m -> 1 <= d -> 0 <= x -> 2 * x < 2 ^ d ->
  round_nearest_even neg (m * 2 ^ d + x) e = FNum neg m (e + d).
Proof.
  intros Hm Hd Hx Hsmall.
  assert (HP : 0 < 2 ^ d) by (apply pow2_pos; lia).
  assert (HH : 0 < 2 ^ (d - 1)) by (apply pow2_pos; lia).
  pose proof (pow2_succ Hd) as Hhalf.
  unfold round_nearest_even.
  destruct Hm as [Hlo Hhi].
  assert (Hpos : 0 < m * 2 ^ d + x) by nia.
  destruct (Z.leb_spec (m * 2 ^ d + x) 0) as [Hle | _]; [lia |].
  rewrite (@log2_scaled m d x) by (unfold normal; lia).
  destruct (Z.leb_spec (52 + d) 52) as [Hle | _]; [lia |].
  replace (52 + d - 52) with d by lia.
  assert (Hq : (m * 2 ^ d + x) / 2 ^ d = m)
    by (symmetry; apply (Z.div_unique_pos _ _ m x); lia).
  assert (Hr : (m * 2 ^ d + x) mod 2 ^ d = x)
    by (symmetry; apply (Z.mod_unique_pos _ _ m x); lia).
  rewrite Hq, Hr.
  destruct (Z.ltb_spec x (2 ^ (d - 1))) as [_ | Hge]; [| lia].
  destruct (Z.eqb_spec m (2 ^ 53)) as [Heq | _]; [lia |].
  reflexivity.
Qed.

(** What fits 53 bits is not rounded. *)
Lemma rne_exact neg m e :
  normal m -> round_nearest_even neg m e = FNum neg m e.
Proof.
  intros [Hlo Hhi]. unfold round_nearest_even.
  destruct (Z.leb_spec m 0) as [Hle | _]; [lia |].
  assert (Hlog : Z.log2 m = 52) by (apply Z.log2_unique; lia).
  rewrite Hlog. cbn [Z.leb Z.compare Pos.compare Pos.compare_cont].
  change (52 <=? 52) with true. cbv iota.
  replace (52 - 52) with 0 by lia.
  rewrite Z.pow_0_r, Z.mul_1_r, Z.sub_0_r. reflexivity.
Qed.

(** Less than half a unit in the last place below [m] rounds up to [m];
    below a power of two the unit is half as long. *)
Lemma rne_absorb_down neg m d x e :
  2 ^ 52 < m < 2 ^ 53 -> 1 <= d -> 0 < x -> 2 * x < 2 ^ d ->
  round_nearest_even neg (m * 2 ^ d - x) e = FNum neg m (e + d).
Proof.
  intros [Hlo Hhi] Hd Hx Hsmall.
  assert (HP : 0 < 2 ^ d) by (apply pow2_pos; lia).
  assert (HH : 0 < 2 ^ (d - 1)) by (apply pow2_pos; lia).
  pose proof (pow2_succ Hd) as Hhalf.
  replace (m * 2 ^ d - x) with ((m - 1) * 2 ^ d + (2 ^ d - x)) by ring.
  unfold round_nearest_even.
  assert (Hpos : 0 < (m - 1) * 2 ^ d + (2 ^ d - x)) by nia.
  destruct (Z.leb_spec ((m - 1) * 2 ^ d + (2 ^ d - x)) 0) as [Hle | _];
    [lia |].
  rewrite (@log2_scaled (m - 1) d (2 ^ d - x)) by (unfold normal; lia).
  destruct (Z.leb_spec (52 + d) 52) as [Hle | _]; [lia |].
  replace (52 + d - 52) with d by lia.
  assert (Hq : ((m - 1) * 2 ^ d + (2 ^ d - x)) / 2 ^ d = m - 1)
    by (symmetry; apply (Z.div_unique_pos _ _ (m - 1) (2 ^ d - x)); lia).
  assert (Hr : ((m - 1) * 2 ^ d + (2 ^ d - x)) mod 2 ^ d = 2 ^ d - x)
    by (symmetry; apply (Z.mod_unique_pos _ _ (m - 1) (2 ^ d - x)); lia).
  rewrite Hq, Hr.
  destruct (Z.ltb_spec (2 ^ d - x) (2 ^ (d - 1))) as [Hlt | _]; [lia |].
  destruct (Z.ltb_spec (2 ^ (d - 1)) (2 ^ d - x)) as [_ | Hge]; [| lia].
  replace (m - 1 + 1) with m by lia.
  destruct (Z.eqb_spec m (2 ^ 53)) as [Heq | _]; [lia |].
  reflexivity.
Qed.

(** Rounding more than 53 bits: the result has a 53-bit significand and
    differs from [N] by half a unit in the last place at most. *)
Lemma rne_spec neg N e :
  2 ^ 53 <= N ->
  exists m s,
    round_nearest_even neg N e = FNum neg m (e + s) /\
    normal m /\ 1 <= s /\
    Z.log2 N - 52 <= s <= Z.log2 N - 51 /\
    2 * Z.abs (N - m * 2 ^ s) <= 2 ^ s.
Proof.
  intros HN. unfold round_nearest_even, normal.
  assert (Hpos : 0 < N) by lia.
  destruct (Z.leb_spec N 0) as [Hle | _]; [lia |].
  assert (Hn : 53 <= Z.log2 N) by (apply Z.log2_le_pow2; lia).
  destruct (Z.leb_spec (Z.log2 N) 52) as [Hle | _]; [lia |].
  set (s := Z.log2 N - 52) in *.
  assert (Hs : 1 <= s) by (unfold s; lia).
  assert (HP : 0 < 2 ^ s) by (apply pow2_pos; lia).
  assert (HH : 0 < 2 ^ (s - 1)) by (apply pow2_pos; lia).
  pose proof (pow2_succ Hs) as Hhalf.
  assert (HS : 2 ^ (s + 1) = 2 * 2 ^ s)
    by (replace (s + 1) with (Z.succ s) by lia; apply Z.pow_succ_r; lia).
  pose proof (Z.log2_spec N Hpos) as [Hlo Hhi].
  replace (Z.log2 N) with (52 + s) in Hlo, Hhi by (unfold s; lia).
  rewrite Z.pow_succ_r in Hhi by lia.
  rewrite (Z.pow_add_r 2 52 s) in Hlo, Hhi by lia.
  pose proof (Z.div_mod N (2 ^ s) ltac:(lia)) as Hdm.
  pose proof (Z.mod_pos_bound N (2 ^ s) HP) as Hrem.
  set (q := N / 2 ^ s) in *. set (r := N mod 2 ^ s) in *.
  assert (Hq : 2 ^ 52 <= q < 2 ^ 53) by nia.
  destruct (Z.ltb_spec r (2 ^ (s - 1))) as [Hlt | Hge].
  - destruct (Z.eqb_spec q (2 ^ 53)) as [Heq | _]; [lia |].
    exists q, s. repeat split; try lia.
  - assert (Hup :
      exists m s',
        (if q + 1 =? 2 ^ 53 then FNum neg (2 ^ 52) (e + s + 1)
         else FNum neg (q + 1) (e + s)) = FNum neg m (e + s') /\
        2 ^ 52 <= m < 2 ^ 53 /\ 1 <= s' /\ s <= s' <= s + 1 /\
        m * 2 ^ s' = (q + 1) * 2 ^ s).
    { destruct (Z.eqb_spec (q + 1) (2 ^ 53)) as [Heq | Hne].
      - exists (2 ^ 52), (s + 1). rewrite Z.add_assoc.
        repeat split; try lia.
      - exists (q + 1), s. repeat split; try lia. }
    destruct (Z.ltb_spec (2 ^ (s - 1)) r) as [Hgt | Hle].
    + destruct Hup as (m & s' & -> & Hm & Hs' & Hss & Hval).
      exists m, s'. repeat split; try lia.
      rewrite Hval.
      assert (2 ^ s <= 2 ^ s') by (apply Z.pow_le_mono_r; lia).
      lia.
    + destruct (Z.even q).
      * destruct (Z.eqb_spec q (2 ^ 53)) as [Heq | _]; [lia |].
        exists q, s. repeat split; try lia.
      * destruct Hup as (m & s' & -> & Hm & Hs' & Hss & Hval).
        exists m, s'. repeat split; try lia.
        rewrite Hval.
        assert (2 ^ s <= 2 ^ s') by (apply Z.pow_le_mono_r; lia).
        lia.
Qed.

Lemma rne_absorb_down_pow2 neg d x e :
  2 <= d -> 0 < x -> 4 * x < 2 ^ d ->
  round_nearest_even neg (2 ^ 52 * 2 ^ d - x) e = FNum neg (2 ^ 52) (e + d).
Proof.
  intros Hd Hx Hsmall.
  assert (Hd1 : 1 <= d - 1) by lia.
  assert (HP : 0 < 2 ^ (d - 1)) by (apply pow2_pos; lia).
  assert (HH : 0 < 2 ^ (d - 1 - 1)) by (apply pow2_pos; lia).
  pose proof (pow2_succ Hd1) as Hhalf.
  assert (Hfull : 2 ^ d = 2 * 2 ^ (d - 1)) by (apply pow2_succ; lia).
  replace (2 ^ 52 * 2 ^ d - x)
    with ((2 ^ 53 - 1) * 2 ^ (d - 1) + (2 ^ (d - 1) - x)) by lia.
  unfold round_nearest_even.
  assert (Hpos : 0 < (2 ^ 53 - 1) * 2 ^ (d - 1) + (2 ^ (d - 1) - x)) by nia.
  destruct (Z.leb_spec ((2 ^ 53 - 1) * 2 ^ (d - 1) + (2 ^ (d - 1) - x)) 0)
    as [Hle | _]; [lia |].
  rewrite (@log2_scaled (2 ^ 53 - 1) (d - 1) (2 ^ (d - 1) - x))
    by (unfold normal; lia).
  destruct (Z.leb_spec (52 + (d - 1)) 52) as [Hle | _]; [lia |].
  replace (52 + (d - 1) - 52) with (d - 1) by lia.
  assert (Hq : ((2 ^ 53 - 1) * 2 ^ (d - 1) + (2 ^ (d - 1) - x)) / 2 ^ (d - 1)
               = 2 ^ 53 - 1)
    by (symmetry;
        apply (Z.div_unique_pos _ _ (2 ^ 53 - 1) (2 ^ (d - 1) - x)); lia).
  assert (Hr : ((2 ^ 53 - 1) * 2 ^ (d - 1) + (2 ^ (d - 1) - x))
               mod 2 ^ (d - 1) = 2 ^ (d - 1) - x)
    by (symmetry;
        apply (Z.mod_unique_pos _ _ (2 ^ 53 - 1) (2 ^ (d - 1) - x)); lia).
  rewrite Hq, Hr.
  destruct (Z.ltb_spec (2 ^ (d - 1) - x) (2 ^ (d - 1 - 1))) as [Hlt | _];
    [lia |].
  destruct (Z.ltb_spec (2 ^ (d - 1 - 1)) (2 ^ (d - 1) - x)) as [_ | Hge];
    [| lia].
  replace (2 ^ 53 - 1 + 1) with (2 ^ 53) by lia.
  rewrite Z.eqb_refl. f_equal. lia.
Qed.

(** A value far below the last place of [x] is absorbed by [x + y] and
    by [x - y]. *)
Lemma fadd_absorbs sy mx ex my ey :
  normal mx -> normal my -> 54 <= ex - ey ->
  (mx = 2 ^ 52 -> 55 <= ex - ey) ->
  fadd (FNum false mx ex) (FNum sy my ey) = FNum false mx ex.
Proof.
  intros Hmx Hmy Hd Hpow. unfold fadd.
  rewrite Z.min_r by lia.
  replace (ey - ey) with 0 by lia. rewrite Z.pow_0_r, Z.mul_1_r.
  set (d := ex - ey) in *.
  assert (HP : 2 ^ 54 <= 2 ^ d) by (apply Z.pow_le_mono_r; lia).
  destruct Hmx as [Hlo Hhi]. destruct Hmy as [Hlo' Hhi'].
  cbn [signed].
  destruct sy; cbn [signed].
  - assert (Hpos : 0 < mx * 2 ^ d + - my) by nia.
    destruct (Z.ltb_spec (mx * 2 ^ d + - my) 0) as [Hneg | _]; [lia |].
    rewrite Z.abs_eq by lia.
    replace (mx * 2 ^ d + - my) with (mx * 2 ^ d - my) by lia.
    destruct (Z.eq_dec mx (2 ^ 52)) as [-> | Hne].
    + rewrite rne_absorb_down_pow2; [f_equal; unfold d; lia | | lia |].
      * specialize (Hpow eq_refl). lia.
      * specialize (Hpow eq_refl).
        assert (2 ^ 55 <= 2 ^ d) by (apply Z.pow_le_mono_r; lia). lia.
    + rewrite rne_absorb_down; [f_equal; unfold d; lia | lia | lia | lia | lia].
  - assert (Hpos : 0 < mx * 2 ^ d + my) by nia.
    destruct (Z.ltb_spec (mx * 2 ^ d + my) 0) as [Hneg | _]; [lia |].
    rewrite Z.abs_eq by lia.
    rewrite rne_absorb_up; [f_equal; unfold d; lia | | lia | lia | lia].
    unfold normal; lia.
Qed.

(** [x / x] is 1 up to the sign, and halving lowers the exponent. *)
Lemma fdiv_same s1 s2 m e :
  normal m ->
  fdiv (FNum s1 m e) (FNum s2 m e) = FNum (xorb s1 s2) (2 ^ 52) (- 52).
Proof.
  intros [Hlo Hhi]. unfold fdiv.
  rewrite (Z.mul_comm m), Z.div_mul, Z.mod_mul by lia.
  replace (e - e - 65) with (- 65) by lia.
  destruct (xorb s1 s2); reflexivity.
Qed.

Lemma fdiv_two s m e :
  normal m -> fdiv (FNum s m e) (f64_of_Z 2) = FNum s m (e - 1).
Proof.
  intros Hm. change (f64_of_Z 2) with (FNum false (2 ^ 52) (- 51)).
  unfold fdiv.
  replace (m * 2 ^ 64) with (m * 2 ^ 12 * 2 ^ 52) by lia.
  rewrite Z.div_mul, Z.mod_mul by lia.
  change (0 =? 0) with true. cbv iota.
  rewrite xorb_false_r.
  replace (2 * (m * 2 ^ 12) + 0) with (m * 2 ^ 13 + 0) by lia.
  rewrite rne_absorb_up; [f_equal; lia | exact Hm | lia | lia | lia].
Qed.

(** The product of two finite values. *)
Lemma fmul_spec s1 m1 e1 s2 m2 e2 :
  normal m1 -> normal m2 ->
  exists m s,
    fmul (FNum s1 m1 e1) (FNum s2 m2 e2) = FNum (xorb s1 s2) m (e1 + e2 + s) /\
    normal m /\ 52 <= s <= 54 /\
    Z.log2 (m1 * m2) - 52 <= s <= Z.log2 (m1 * m2) - 51 /\
    2 * Z.abs (m1 * m2 - m * 2 ^ s) <= 2 ^ s.
Proof.
  intros [Hlo1 Hhi1] [Hlo2 Hhi2]. unfold fmul.
  assert (Hlo : 2 ^ 104 <= m1 * m2) by nia.
  assert (Hhi : m1 * m2 < 2 ^ 106) by nia.
  assert (Hlog : 104 <= Z.log2 (m1 * m2) < 106).
  { split; [apply Z.log2_le_pow2; lia | apply Z.log2_lt_pow2; lia]. }
  destruct (@rne_spec (xorb s1 s2) (m1 * m2) (e1 + e2) ltac:(lia))
    as (m & s & Heq & Hm & Hs & Hrange & Herr).
  exists m, s. repeat split; try lia; try exact Heq; apply Hm.
Qed.

(** The integer square root, with its sticky bit, of a number between
    two squares. *)
Lemma sqrt_bounds (A N : Z) :
  2 ^ 11 < A -> (A - 2 ^ 11) * (A - 2 ^ 11) < N ->
  N < (A + 2 ^ 11) * (A + 2 ^ 11) ->
  let q := Z.sqrt N in
  let sticky := if q * q =? N then 0 else 1 in
  2 * A - 2 ^ 12 < 2 * q + sticky < 2 * A + 2 ^ 12.
Proof.
  intros HA Hlo Hhi. cbv zeta.
  assert (HN : 0 <= N) by nia.
  pose proof (Z.sqrt_spec N HN) as [Hq1 Hq2].
  pose proof (Z.sqrt_nonneg N) as Hq0.
  set (q := Z.sqrt N) in *.
  assert (Hqlo : A - 2 ^ 11 <= q) by nia.
  assert (Hqhi : q < A + 2 ^ 11) by nia.
  destruct (Z.eqb_spec (q * q) N) as [Heq | Hne]; [| lia].
  assert (A - 2 ^ 11 < q) by nia. lia.
Qed.

(** The square root of a rounded square is the value itself. *)
Lemma fsqrt_rounded_square mr er m2 s2 :
  normal mr -> normal m2 -> s2 = 52 \/ s2 = 53 ->
  2 * Z.abs (mr * mr - m2 * 2 ^ s2) <= 2 ^ s2 ->
  fsqrt (FNum false m2 (er + er + s2)) = FNum false mr er.
Proof.
  intros [Hlo Hhi] [Hlo2 Hhi2] Hs2 Herr. unfold fsqrt.
  assert (Hresult :
    forall N',
      mr * 2 ^ 13 - 2 ^ 12 < N' < mr * 2 ^ 13 + 2 ^ 12 ->
      (mr = 2 ^ 52 -> mr * 2 ^ 13 <= N') ->
      round_nearest_even false N' (er - 13) = FNum false mr er).
  { intros N' HN' Hpow.
    destruct (Z_lt_le_dec N' (mr * 2 ^ 13)) as [Hbelow | Habove].
    - replace N' with (mr * 2 ^ 13 - (mr * 2 ^ 13 - N')) by lia.
      rewrite rne_absorb_down; [f_equal; lia | | lia | lia | lia].
      split; [| lia].
      destruct (Z.eq_dec mr (2 ^ 52)) as [Heq | Hne];
        [specialize (Hpow Heq); lia | lia].
    - replace N' with (mr * 2 ^ 13 + (N' - mr * 2 ^ 13)) by lia.
      rewrite rne_absorb_up; [f_equal; lia | | lia | lia | lia].
      unfold normal; lia. }
  destruct Hs2 as [-> | ->].
  - replace (Z.even (er + er + 52)) with true
      by (replace (er + er + 52) with (2 * (er + 26)) by lia;
          now rewrite Z.even_mul).
    replace ((er + er + 52 - 76) / 2 - 1) with (er - 13)
      by (replace (er + er + 52 - 76) with ((er - 12) * 2) by lia;
          rewrite Z.div_mul; lia).
    apply Hresult.
    + replace (mr * 2 ^ 13) with (2 * (mr * 2 ^ 12)) by lia.
      apply sqrt_bounds; lia.
    + intros ->.
      assert (m2 = 2 ^ 52) by lia. subst m2. vm_compute. discriminate.
  - replace (Z.even (er + er + 53)) with false
      by (replace (er + er + 53) with (1 + 2 * (er + 26)) by lia;
          now rewrite Z.even_add_mul_2).
    replace ((er + er + 53 - 77) / 2 - 1) with (er - 13)
      by (replace (er + er + 53 - 77) with ((er - 12) * 2) by lia;
          rewrite Z.div_mul; lia).
    assert (Hbig : 2 ^ 52 < mr)
      by (destruct (Z.eq_dec mr (2 ^ 52)) as [-> | Hne]; lia).
    apply Hresult.
    + replace (mr * 2 ^ 13) with (2 * (mr * 2 ^ 12)) by lia.
      apply sqrt_bounds; lia.
    + intros ->. lia.
Qed.

End Rounding.

(** ** C4: the cycle at steering angle 0, in binary64 *)

Section StraightAhead.

Local Open Scope Z_scope.

Context {O : Type} {odo : OdometryOps f64 O}.

Variable libm : Libm.
Hypothesis Hlibm : straight_ahead_libm libm.

Local Hint Extern 0 (DoubleOps f64) => exact (f64_ops libm)
  : typeclass_instances.

Implicit Types (s : Controller f64 O) (inp : CycleInputs f64).
Implicit Types (time : RosTime) (period : RosDuration).


(** The turning radius at angle 0: finite, and at least 2^52 times the
    wheelbase. *)
Lemma turning_radius_straight sL mL eL :
  normal mL ->
  exists mr er,
    turning_radius (FNum sL mL eL) FZero = FNum false mr er /\
    normal mr /\ eL + 53 <= er /\ (mr = 2 ^ 52 -> eL + 54 <= er).
Proof.
  intros HL. destruct (tan_half_pi Hlibm) as (sT & mT & eT & HT & HmT & Hbig & HeT).
  unfold turning_radius.
  cbn [dabs dmul dtan dsub ddiv dofZ M_PI f64_ops].
  change (fsub (fdiv f64_M_PI (f64_of_Z 2)) FZero)
    with (fdiv f64_M_PI (f64_of_Z 2)).
  rewrite HT.
  destruct (@fmul_spec sL mL eL sT mT eT HL HmT)
    as (mr & s & -> & Hmr & Hs & Hlog & Herr).
  exists mr, (eL + eT + s). cbn [fabs].
  split; [reflexivity |]. split; [exact Hmr |]. split; [lia |].
  intros ->. destruct HL as [HL1 HL2]. destruct HmT as [HT1 HT2].
  destruct (Z.eq_dec s 52) as [-> | Hne]; [| lia].
  exfalso. nia.
Qed.

(** With equal separations [L], the four wheel radii at angle 0 are the
    turning radius itself: [r + L/2] and [r - L/2] round to [r], and so
    does [sqrt ((r -+ L/2)^2 + L^2)]. *)
Lemma radii_straight sL mL eL r :
  normal mL -> - 500 <= eL <= 400 ->
  r = turning_radius (FNum sL mL eL) FZero ->
  let L := FNum sL mL eL in
  dadd r (ddiv L (dofZ 2)) = r /\
  dsub r (ddiv L (dofZ 2)) = r /\
  r_right_front_wheel r L L = r /\
  r_left_front_wheel r L L = r /\
  ddiv r r = dofZ 1.
Proof.
  intros HL _ Hr. cbv zeta.
  destruct (@turning_radius_straight sL mL eL HL)
    as (mr & er & Hval & Hmr & Her & Hpow).
  rewrite Hval in Hr. subst r.
  cbn [dadd dsub ddiv dofZ f64_ops].
  rewrite (@fdiv_two sL mL eL HL).
  assert (Hplus : fadd (FNum false mr er) (FNum sL mL (eL - 1))
                  = FNum false mr er)
    by (apply fadd_absorbs; trivial; [lia | intros E; specialize (Hpow E); lia]).
  assert (Hminus : fsub (FNum false mr er) (FNum sL mL (eL - 1))
                   = FNum false mr er)
    by (unfold fsub; cbn [fneg]; apply fadd_absorbs; trivial;
        [lia | intros E; specialize (Hpow E); lia]).
  assert (Hroot :
    fsqrt (fadd (fmul (FNum false mr er) (FNum false mr er))
                (fmul (FNum sL mL eL) (FNum sL mL eL)))
    = FNum false mr er).
  { destruct (@fmul_spec false mr er false mr er Hmr Hmr)
      as (m2 & s2 & -> & Hm2 & Hs2 & Hlog2 & Herr2).
    destruct (@fmul_spec sL mL eL sL mL eL HL HL)
      as (m3 & s3 & -> & Hm3 & Hs3 & _ & _).
    cbn [xorb]. rewrite xorb_nilpotent.
    rewrite fadd_absorbs; trivial; [| lia | lia].
    apply fsqrt_rounded_square; trivial.
    destruct Hmr as [Hlo Hhi]. destruct Hm2 as [Hlo2 Hhi2].
    destruct (Z.eq_dec s2 54) as [-> | Hne]; [exfalso; nia | lia]. }
  repeat split; trivial.
  - unfold r_right_front_wheel.
    cbn [dadd dsub ddiv dsqrt dpow dofZ f64_ops].
    rewrite (@fdiv_two sL mL eL HL), Hplus, !(pow_square Hlibm).
    exact Hroot.
  - unfold r_left_front_wheel.
    cbn [dadd dsub ddiv dsqrt dpow dofZ f64_ops].
    rewrite (@fdiv_two sL mL eL HL), Hminus, !(pow_square Hlibm).
    exact Hroot.
  - apply fdiv_same. exact Hmr.
Qed.

(** The two front steering angles at angle 0. *)
Lemma steer_angles_straight sL mL eL :
  normal mL ->
  let L := FNum sL mL eL in
  right_wheel_steer_angle FZero L L = FZero /\
  left_wheel_steer_angle FZero L L = FZero.
Proof.
  intros HL. cbv zeta.
  unfold right_wheel_steer_angle, left_wheel_steer_angle.
  cbn [dadd dsub dmul ddiv dsin dcos datan dofZ f64_ops].
  rewrite (sin_zero Hlibm), (cos_zero Hlibm).
  change (f64_of_Z 2) with (FNum false (2 ^ 52) (- 51)).
  change (f64_of_Z 1) with (FNum false (2 ^ 52) (- 52)).
  assert (H2 : normal (2 ^ 52)) by (unfold normal; lia).
  destruct (@fmul_spec false (2 ^ 52) (- 51) sL mL eL H2 HL)
    as (m & s & -> & Hm & _).
  destruct (@fmul_spec (xorb false sL) m (- 51 + eL + s) false (2 ^ 52) (- 52)
              Hm H2) as (m' & s' & -> & _).
  cbn [fmul fsub fadd fneg fdiv]. rewrite (atan_zero Hlibm). now split.
Qed.

(** At angle 0 the four wheel registers receive one and the same value,
    [1 * lin / wheel_radius], and the three steering registers 0. *)
Lemma wheel_targets_straight (p : Params f64) (c : Commands f64) :
  ang c = FZero ->
  moderate (wheel_separation_l_ p) ->
  wheel_separation_h_ p = wheel_separation_l_ p ->
  let v := ddiv (dmul (dofZ 1) (lin c)) (wheel_radius_ p) in
  wheel_targets p c = mkJoints v v v v FZero FZero FZero.
Proof.
  intros Hzero HL Hsame. cbv zeta.
  destruct (wheel_separation_l_ p) as [| sL mL eL | |] eqn:EL;
    cbn [moderate] in HL; try contradiction.
  destruct HL as (HmL & HeL).
  destruct (@radii_straight sL mL eL _ HmL HeL eq_refl)
    as (Hplus & Hminus & Hrf & Hlf & Hone).
  destruct (@steer_angles_straight sL mL eL HmL) as (Hrs & Hls).
  unfold wheel_targets, right_rear_wheel_omega, left_rear_wheel_omega,
    right_front_wheel_omega, left_front_wheel_omega.
  rewrite Hsame, EL, Hzero.
  cbv zeta in Hplus, Hminus, Hrf, Hlf, Hrs, Hls |- *.
  rewrite Hplus, Hminus, Hrf, Hlf, Hone, Hrs, Hls.
  reflexivity.
Qed.


(** The targets of the zero command: 0 in every register, when the wheel
    radius is a divisor that leaves [0 / wheel_radius] at 0. *)
Lemma wheel_targets_zero_command (p : Params f64) (st : RosTime) :
  moderate (wheel_separation_l_ p) ->
  wheel_separation_h_ p = wheel_separation_l_ p ->
  wheel_radius_ p <> FZero ->
  wheel_radius_ p <> FNaN ->
  wheel_targets p (mkCommands FZero FZero st)
    = mkJoints FZero FZero FZero FZero FZero FZero FZero.
Proof.
  intros HL Hsame Hnz Hnn.
  rewrite wheel_targets_straight by trivial.
  cbn [lin dmul ddiv dofZ f64_ops].
  change (fmul (f64_of_Z 1) FZero) with FZero.
  destruct (wheel_radius_ p); try contradiction; reflexivity.
Qed.


End StraightAhead.

(** ** The cycle on the concrete vehicle (binary64) *)

Section BinaryRuns.

Local Open Scope Z_scope.

Local Existing Instance Binary.reference_ops.

Lemma reference_libm_straight_ahead : straight_ahead_libm Binary.reference_libm.
Proof.
  split; try reflexivity.
  exists false, 8165619676597685, 1.
  split; [reflexivity |]. unfold normal. lia.
Qed.

Lemma binary_reading_passes (s : Binary.FloatController) :
  open_loop_ (params s) = true \/
  disnan (wheel_pos_reading Binary.reading)
    || disnan (steer_pos_reading Binary.reading) = false.
Proof. right. reflexivity. Qed.

(** The configured vehicle: both separations 1.0, wheel radius 0.1, the
    latest command straight ahead. *)
Lemma straightened_state :
  wheel_separation_l_ (params Binary.straightened)
    = FNum false 4503599627370496 (-52) /\
  wheel_separation_h_ (params Binary.straightened)
    = wheel_separation_l_ (params Binary.straightened) /\
  wheel_radius_ (params Binary.straightened)
    = FNum false 7205759403792794 (-56) /\
  moderate (wheel_separation_l_ (params Binary.straightened)) /\
  command_ Binary.straightened
    = mkCommands (FNum false 4503599627370496 (-52)) FZero 2200000000.
Proof.
  repeat split; try reflexivity.
  all: cbn [params wheel_separation_l_ Binary.straightened]; lia.
Qed.

(** The operations on known values: 1/10 = 0x1.999999999999ap-4,
    0.1 + 0.2 = 0.1 * 3 = 0x1.3333333333334p-2,
    0.3 - 0.1 = 0x1.9999999999999p-3, 1/3 = 0x1.5555555555555p-2 and
    sqrt 2 = 0x1.6a09e667f3bcdp+0. *)
Example binary64_operations :
  let tenth := fdiv (f64_of_Z 1) (f64_of_Z 10) in
  let three_tenths := fdiv (f64_of_Z 3) (f64_of_Z 10) in
  tenth = FNum false 7205759403792794 (-56) /\
  fadd tenth (fdiv (f64_of_Z 2) (f64_of_Z 10))
    = FNum false 5404319552844596 (-54) /\
  fmul tenth (f64_of_Z 3) = FNum false 5404319552844596 (-54) /\
  fsub three_tenths tenth = FNum false 7205759403792793 (-55) /\
  fdiv (f64_of_Z 1) (f64_of_Z 3) = FNum false 6004799503160661 (-54) /\
  fsqrt (f64_of_Z 2) = FNum false 6369051672525773 (-52).
Proof. repeat split; vm_compute; reflexivity. Qed.

(** [toSec] of 0.9375 s and of 0.3 s is the double above 15/16 and above
    3/10: [1e-9 * nsec] rounds up. *)
Example toSec_rounds_up :
  dgt (toSec 937500000) (ddiv (dofZ 15) (dofZ 16)) = true /\
  dgt (toSec 300000000) (ddiv (dofZ 3) (dofZ 10)) = true /\
  dgt (toSec 500000000) (ddiv (dofZ 1) (dofZ 2)) = false.
Proof. repeat split; vm_compute; reflexivity. Qed.


(** The angle 0 goes through the general formulas: with a wheelbase of
    0.0 the turning radius is 0, each ratio of radii is 0 / 0, and the
    command (1, 0) yields NaN in the four wheel registers and in the two
    front steering registers. *)
Example zero_wheelbase_straight_ahead :
  init Binary.fresh Demo.robot_hw (mkNodeHandle "/" [])
    (Binary.configuration FZero) = InitOk Binary.flat /\
  wheel_separation_l_ (params Binary.flat) = FZero /\
  turning_radius (wheel_separation_l_ (params Binary.flat)) FZero = FZero /\
  wheel_targets (params Binary.flat) (mkCommands (f64_of_Z 1) FZero 0)
    = mkJoints FNaN FNaN FNaN FNaN FZero FNaN FNaN.
Proof. repeat split; vm_compute; reflexivity. Qed.


End BinaryRuns.

(** ** C5: a stale command *)

(** C5, as amended.  In a control cycle at [time] that gets past the
    sensor check (open-loop mode, or neither reading NaN), if the cycle
    finds the age [time - stamp] of the latest command above
    [cmd_vel_timeout_], it goes on with linear = angular = 0: that zero
    command is recorded as the latest one and the joints receive the
    forward kinematics of it, in any arithmetic.  Over the reals the
    four wheel speeds of the zero command are exactly 0: each is a ratio
    of radii times the linear command 0, over the wheel radius.  In
    binary64 they are exactly 0 as well, and so are the three steering
    targets, when both separations are one [L] with
    [2^-448 <= |L| < 2^453], the wheel radius is neither 0 nor NaN and
    the C library returns sin 0 = 0, cos 0 = 1, atan 0 = 0, a finite
    tan (M_PI / 2) of at least 1.5 * 2^53 and correctly rounded squares:
    each ratio of radii is then 1. *)
Theorem stale_command_brakes :
  (forall (D : Type) (ops : DoubleOps D) (O : Type) (odo : OdometryOps D O)
          (s : Controller D O) (inp : CycleInputs D) (time : RosTime)
          (period : RosDuration),
     open_loop_ (params s) = true \/
     disnan (wheel_pos_reading inp) || disnan (steer_pos_reading inp)
       = false ->
     dgt (toSec (time - stamp (command_ s))%Z) (cmd_vel_timeout_ (params s))
       = true ->
     last0_cmd_ (update s inp time period)
       = mkCommands (dofZ 0) (dofZ 0) (stamp (command_ s)) /\
     last1_cmd_ (update s inp time period) = last0_cmd_ s /\
     joints (update s inp time period)
       = wheel_targets (params s)
           (mkCommands (dofZ 0) (dofZ 0) (stamp (command_ s)))) /\
  (forall (p : Params R) (st : RosTime),
     right_rear_wheel_joint_ (wheel_targets p (mkCommands 0 0 st)) = 0 /\
     left_rear_wheel_joint_ (wheel_targets p (mkCommands 0 0 st)) = 0 /\
     right_front_wheel_joint_ (wheel_targets p (mkCommands 0 0 st)) = 0 /\
     left_front_wheel_joint_ (wheel_targets p (mkCommands 0 0 st)) = 0)%R /\
  (forall (libm : Libm) (p : Params f64) (st : RosTime),
     straight_ahead_libm libm ->
     moderate (wheel_separation_l_ p) ->
     wheel_separation_h_ p = wheel_separation_l_ p ->
     wheel_radius_ p <> FZero ->
     wheel_radius_ p <> FNaN ->
     wheel_targets (ops := f64_ops libm) p
       (mkCommands (dofZ (DoubleOps := f64_ops libm) 0)
                   (dofZ (DoubleOps := f64_ops libm) 0) st)
       = mkJoints FZero FZero FZero FZero FZero FZero FZero).
Proof.
  split; [| split].
  - intros D ops O odo s inp time period Hgo Hstale.
    exact (stale_cycle_acts_on_zero s inp time period Hgo Hstale).
  - intros p st. exact (zero_command_targets p st).
  - intros libm p st Hlibm HL Hsame Hnz Hnn.
    exact (wheel_targets_zero_command Hlibm p st HL Hsame Hnz Hnn).
Qed.

(** ** The cycle on the concrete controller (operation traces) *)

Section TraceRuns.

Import Demo.

Lemma update_returns_on_nan_reading_witness :
  open_loop_ (params commanded) = false /\
  disnan (wheel_pos_reading nan_reading)
    || disnan (steer_pos_reading nan_reading) = true /\
  update commanded nan_reading t_cycle t_period = commanded.
Proof.
  split; [reflexivity |]. split; [reflexivity |].
  apply update_returns_on_nan_reading; reflexivity.
Defined.

(** Against C1 as stated: with a NaN wheel reading the cycle is not the
    one that only skips the odometry.  The command (1, 1/5) is fresh, the
    motion phase would send 1/5 to the centre steering joint; the joints
    stay at rest. *)
Lemma nan_reading_stops_the_cycle :
  open_loop_ (params commanded) = false /\
  disnan (wheel_pos_reading nan_reading) = true /\
  joints (update commanded nan_reading t_cycle t_period) = at_rest /\
  front_steer_joint_
    (joints (cycle_skipping_odometry_only commanded nan_reading
               t_cycle t_period)) = ENum (1 # 5) /\
  update commanded nan_reading t_cycle t_period
    <> cycle_skipping_odometry_only commanded nan_reading t_cycle t_period.
Proof.
  repeat split; try reflexivity.
  intros Heq.
  apply (f_equal (fun s => front_steer_joint_ (joints s))) in Heq.
  vm_compute in Heq. discriminate Heq.
Qed.

Lemma motion_phase_applies_no_limiter_witness :
  limiter_disabled (limiter_lin_ (params commanded)) /\
  limiter_disabled (limiter_ang_ (params commanded)) /\
  motion_phase commanded t_cycle t_period
    = motion_phase_limited commanded t_cycle t_period.
Proof.
  assert (Hlin : limiter_disabled (limiter_lin_ (params commanded)))
    by (repeat split).
  assert (Hang : limiter_disabled (limiter_ang_ (params commanded)))
    by (repeat split).
  split; [exact Hlin |]. split; [exact Hang |].
  exact (proj2 (motion_phase_applies_no_limiter commanded t_cycle t_period)
           Hlin Hang).
Defined.

Lemma odometry_gain_uses_raw_steer_angle_witness :
  open_loop_ (params commanded) = false /\
  disnan (wheel_pos_reading good_reading)
    || disnan (steer_pos_reading good_reading) = false /\
  odometry_ (update commanded good_reading t_cycle t_period) =
    CallUpdate (ENum 3) (EMul (ENum (1 # 5)) (ENum 1)) t_cycle
      (EDiv
         (EAbs (ESub (EMul (ENum 1)
                        (ETan (ESub (EDiv EPi (ENum 2)) (ENum (1 # 5)))))
                  (EDiv (ENum 1) (ENum 2))))
         (EAbs (EMul (ENum 1)
                  (ETan (ESub (EDiv EPi (ENum 2)) (ENum (1 # 5)))))))
    :: odometry_ commanded.
Proof.
  split; [reflexivity |]. split; [reflexivity |].
  exact (odometry_gain_uses_raw_steer_angle commanded good_reading
           t_cycle t_period eq_refl eq_refl).
Defined.

Lemma separations_loaded_from_one_key_witness :
  init fresh robot_hw root_nh controller_nh = InitOk initialised /\
  wheel_separation_l_ (params commanded)
    = wheel_separation_h_ (params commanded).
Proof.
  assert (Hinit : init fresh robot_hw root_nh controller_nh
                  = InitOk initialised) by (vm_compute; reflexivity).
  split; [exact Hinit |].
  apply (proj2 (proj2 (separations_loaded_from_one_key _ _ _ _ Hinit))).
  apply reach_step with (s1 := startRequest initialised 1000000000%Z).
  - apply reach_step with (s1 := initialised);
      [apply reach_here | apply step_start].
  - exact (step_cmdVelCallback
             (startRequest initialised 1000000000%Z)
             (mkTwist (ENum 1) (ENum (1 # 5))) 1%Z 2000000000%Z).
Defined.

(** Against C5 as stated: the command (1, 1/5) of [turning] is 0.7 s old
    at [t_late], above the timeout of 0.5 s, and the wheel reading is
    NaN.  The cycle returns before the cutoff: the latest command on
    record is still (1, 1/5), not (0, 0), and every joint keeps the
    target of the previous cycle; the right rear wheel keeps the speed
    [((r + 1/2) / r) * 1 / (1/10)] of the turn. *)
Lemma stale_command_with_nan_reading :
  open_loop_ (params turning) = false /\
  disnan (wheel_pos_reading nan_reading) = true /\
  dgt (toSec (t_late - stamp (command_ turning))%Z)
    (cmd_vel_timeout_ (params turning)) = true /\
  last0_cmd_ (update turning nan_reading t_late t_period)
    = mkCommands (ENum 1) (ENum (1 # 5)) 2000000000%Z /\
  joints (update turning nan_reading t_late t_period) = joints turning /\
  right_rear_wheel_joint_ (joints (update turning nan_reading t_late t_period))
    = EDiv (EMul (EDiv (EAdd (turning_radius (ENum 1) (ENum (1 # 5)))
                          (EDiv (ENum 1) (ENum 2)))
                    (turning_radius (ENum 1) (ENum (1 # 5))))
              (ENum 1))
        (ENum (1 # 10)) /\
  right_rear_wheel_joint_ (joints (update turning nan_reading t_late t_period))
    <> ENum 0.
Proof.
  repeat split; try (vm_compute; reflexivity).
  vm_compute. discriminate.
Qed.

Lemma good_reading_passes (s : TraceController) :
  open_loop_ (params s) = true \/
  disnan (wheel_pos_reading good_reading)
    || disnan (steer_pos_reading good_reading) = false.
Proof. right. reflexivity. Qed.

Lemma side_assignment_witness :
  (dgt (ang (cycle_command commanded t_cycle)) (ENum 0) = true /\
   right_rear_wheel_joint_
     (joints (update commanded good_reading t_cycle t_period))
     = EDiv (right_rear_wheel_omega (params commanded)
               (cycle_command commanded t_cycle)) (ENum (1 # 10)) /\
   left_front_wheel_joint_
     (joints (update commanded good_reading t_cycle t_period))
     = EDiv (left_front_wheel_omega (params commanded)
               (cycle_command commanded t_cycle)) (ENum (1 # 10))) /\
  (dgt (ang (cycle_command commanded_right t_cycle)) (ENum 0) = false /\
   ang (cycle_command commanded_right t_cycle) = ENum (- 1 # 5) /\
   right_rear_wheel_joint_
     (joints (update commanded_right good_reading t_cycle t_period))
     = EDiv (left_rear_wheel_omega (params commanded_right)
               (cycle_command commanded_right t_cycle)) (ENum (1 # 10)) /\
   left_front_wheel_joint_
     (joints (update commanded_right good_reading t_cycle t_period))
     = EDiv (right_front_wheel_omega (params commanded_right)
               (cycle_command commanded_right t_cycle)) (ENum (1 # 10)) /\
   left_rear_wheel_omega (params commanded_right)
     (cycle_command commanded_right t_cycle)
   <> right_rear_wheel_omega (params commanded_right)
        (cycle_command commanded_right t_cycle)).
Proof.
  assert (Hpos : dgt (ang (cycle_command commanded t_cycle)) (ENum 0) = true)
    by reflexivity.
  assert (Hneg :
    dgt (ang (cycle_command commanded_right t_cycle)) (ENum 0) = false)
    by reflexivity.
  split.
  - split; [exact Hpos |].
    destruct (proj1 (proj2 (proj2
                (side_assignment commanded good_reading t_cycle t_period
                   (good_reading_passes commanded)))) Hpos)
      as (Hrr & _ & _ & Hlf).
    split; [exact Hrr | exact Hlf].
  - split; [exact Hneg |]. split; [reflexivity |].
    destruct (proj2 (proj2 (proj2
                (side_assignment commanded_right good_reading t_cycle
                   t_period (good_reading_passes commanded_right)))) Hneg)
      as (Hrr & _ & _ & Hlf).
    split; [exact Hrr |]. split; [exact Hlf |].
    vm_compute. discriminate.
Defined.

(** Against C6 as stated: [recommanded] holds the fresh command
    (1, 3/10) while its joints still hold the targets of (1, 1/5); in a
    cycle with a NaN wheel reading nothing is sent, and the left front
    steer joint keeps the "right" angle of 1/5, not that of 3/10. *)
Lemma nan_cycle_assigns_nothing :
  open_loop_ (params recommanded) = false /\
  disnan (wheel_pos_reading nan_reading) = true /\
  cycle_command recommanded t_next
    = mkCommands (ENum 1) (ENum (3 # 10)) 2200000000%Z /\
  left_front_steer_joint_
    (joints (update recommanded nan_reading t_next t_period))
    = right_wheel_steer_angle (ENum (1 # 5)) (ENum 1) (ENum 1) /\
  left_front_steer_joint_
    (joints (update recommanded nan_reading t_next t_period))
    <> right_wheel_steer_angle
         (ang (cycle_command recommanded t_next))
         (wheel_separation_l_ (params recommanded))
         (wheel_separation_h_ (params recommanded)).
Proof.
  repeat split; try (vm_compute; reflexivity).
  vm_compute. discriminate.
Qed.


End TraceRuns.

(** ** The cycle on the concrete vehicle (reals) *)

Section RealRuns.

Import Vehicle.

Local Open Scope R_scope.

Lemma fresh_command_kept (s : RealController) (time : RosTime) :
  toSec (time - stamp (command_ s))%Z <= cmd_vel_timeout_ (params s) ->
  cycle_command s time = command_ s.
Proof.
  intros Hfresh. unfold cycle_command, staleness_cutoff.
  change (dgt ?a ?b) with (Rgtb a b).
  now rewrite (Rgtb_false Hfresh).
Qed.

Lemma tenth_of_a_second_is_fresh (p : Params R) (c : Commands R) :
  cmd_vel_timeout_ p = 1 / 2 -> stamp c = 0%Z ->
  cycle_command (driving p c) t_fresh = c.
Proof.
  intros Htimeout Hstamp. apply fresh_command_kept.
  cbn [command_ params driving toSec R_ops]. rewrite Htimeout, Hstamp.
  unfold NSEC_PER_SEC, t_fresh. simpl (100000000 - 0)%Z. lra.
Qed.

(** Against C2 as stated: with the angular velocity bounded to
    [[-1/2, 1/2]] and a fresh steering command 1, the limiter would hand
    1/2 to the kinematics; the cycle sends 1 to the centre steering
    joint. *)
Lemma limiter_bound_is_ignored :
  front_steer_joint_ (joints (motion_phase_limited bounded t_fresh t_period))
    = 1 / 2 /\
  front_steer_joint_ (joints (update bounded reading t_fresh t_period)) = 1 /\
  joints (update bounded reading t_fresh t_period)
    <> joints (motion_phase_limited bounded t_fresh t_period).
Proof.
  assert (Hcmd : cycle_command bounded t_fresh = mkCommands 1 1 0%Z)
    by (now apply tenth_of_a_second_is_fresh).
  assert (Hlimited :
    front_steer_joint_ (joints (motion_phase_limited bounded t_fresh t_period))
    = 1 / 2).
  { unfold motion_phase_limited. fold (cycle_command bounded t_fresh).
    rewrite Hcmd. cbn [joints set_joints].
    destruct (wheel_targets_steer (params bounded)
      (mkCommands
         (limit (limiter_lin_ (params bounded)) (lin (mkCommands 1 1 0%Z))
            (lin (last0_cmd_ bounded)) (lin (last1_cmd_ bounded))
            (toSec t_period))
         (limit (limiter_ang_ (params bounded)) (ang (mkCommands 1 1 0%Z))
            (ang (last0_cmd_ bounded)) (ang (last1_cmd_ bounded))
            (toSec t_period))
         (stamp (mkCommands 1 1 0%Z)))) as (-> & _).
    cbn [ang lin limiter_ang_ params bounded driving geometry].
    unfold limit, limit_velocity, limit_acceleration, limit_jerk, clamp.
    cbn [has_velocity_limits has_acceleration_limits has_jerk_limits
         min_velocity max_velocity half_speed dle dgt dofZ toSec R_ops].
    unfold NSEC_PER_SEC, t_period.
    rewrite Rleb_false by lra.
    rewrite Rgtb_false by lra.
    rewrite Rgtb_true by lra.
    reflexivity. }
  assert (Hcode :
    front_steer_joint_ (joints (update bounded reading t_fresh t_period)) = 1).
  { destruct (real_update_joints bounded reading t_fresh t_period) as (-> & _).
    destruct (wheel_targets_steer (params bounded)
                (cycle_command bounded t_fresh)) as (-> & _).
    now rewrite Hcmd. }
  repeat split; trivial.
  intros Heq. rewrite Heq, Hlimited in Hcode. lra.
Qed.




End RealRuns.

(** * Further properties of the code *)

(** ** [init]: failures and what a success guarantees *)

Section InitOutcomes.

Context {D : Type} {ops : DoubleOps D}.
Context {O : Type} {odo : OdometryOps D O}.

Local Open Scope string_scope.

Lemma required_name_cases (nh : NodeHandle D) key default :
  required_name nh key default =
    match getParam_string nh key with
    | Some v => InitOk v
    | None => InitFalse
    end.
Proof.
  unfold required_name, param. now destruct (getParam_string nh key).
Qed.

Lemma getHandle_ok registered name :
  getHandle registered name = InitOk tt -> In name registered.
Proof.
  unfold getHandle. destruct (existsb _ _) eqn:Hex; [| discriminate].
  intros _. apply existsb_exists in Hex. destruct Hex as (x & Hin & Heq).
  apply String.eqb_eq in Heq. now subst.
Qed.

Lemma getHandle_cases registered name :
  getHandle registered name = InitOk tt \/
  getHandle registered name = InitThrows.
Proof. unfold getHandle. destruct (existsb _ _); auto. Qed.

Lemma covariance_diagonal_cases (nh : NodeHandle D) key :
  (exists ds, covariance_diagonal nh key = InitOk ds) \/
  covariance_diagonal nh key = InitAssertFailed.
Proof.
  unfold covariance_diagonal.
  destruct (lookup_param key (parameters nh)) as [[b | z | d | str | l] |];
    auto.
  destruct (_ =? _)%nat; auto. destruct (_ =? _)%nat; eauto.
Qed.

Lemma doubles_of_array (l : list (XmlRpcValue D)) :
  let ds := flat_map (fun v => match v with
                               | XDouble d => [d]
                               | _ => []
                               end) l in
  (List.length ds <= List.length l)%nat /\
  (List.length ds = List.length l -> l = map (@XDouble D) ds).
Proof.
  induction l as [| v l (IHle & IHeq)]; cbn [flat_map map List.length];
    [split; [lia | reflexivity] |].
  destruct v as [b | z | d | str | l']; cbn [app List.length];
    split; try lia.
  intros Hlen. cbn [map]. f_equal. apply IHeq. lia.
Qed.

Lemma covariance_diagonal_ok (nh : NodeHandle D) key ds :
  covariance_diagonal nh key = InitOk ds ->
  lookup_param key (parameters nh) = Some (XArray (map (@XDouble D) ds)) /\
  List.length ds = 6%nat.
Proof.
  unfold covariance_diagonal.
  destruct (lookup_param key (parameters nh)) as [[b | z | d | str | l] |];
    try discriminate.
  destruct (List.length l =? 6)%nat eqn:Hl; [| discriminate].
  destruct (List.length (flat_map _ l) =? 6)%nat eqn:Hds; [| discriminate].
  intros [= <-]. apply Nat.eqb_eq in Hl, Hds.
  destruct (doubles_of_array l) as (_ & Heq).
  split; [| exact Hds]. do 2 f_equal. apply Heq. congruence.
Qed.

Ltac init_name_step :=
  match goal with
  | |- context [init_bind
                  (match getParam_string ?nh ?k with _ => _ end) _] =>
      let E := fresh "Ename" in
      destruct (getParam_string nh k) eqn:E; cbn [init_bind]
  end.

Ltac init_invert H :=
  unfold init in H; rewrite !required_name_cases in H;
  repeat match type of H with
    | context [init_bind (match getParam_string ?nh ?k with _ => _ end) _] =>
        let E := fresh "Ename" in
        destruct (getParam_string nh k) eqn:E; cbn [init_bind] in H;
        [| discriminate H]
    end;
  repeat match type of H with
    | init_bind ?r _ = InitOk _ =>
        let v := fresh "v" in
        let E := fresh "Estep" in
        destruct r as [v | | | |] eqn:E; cbn [init_bind] in H;
        [| discriminate H | discriminate H | discriminate H | discriminate H]
    | context [match getParam_double ?nh ?k with _ => _ end] =>
        let E := fresh "Egeom" in
        destruct (getParam_double nh k) eqn:E; [| discriminate H]
    end;
  injection H as <-.

Lemma Duration_cases (d : D) :
  (exists t, fromSec d = Some t /\ Duration d = InitOk t) \/
  (fromSec d = None /\ Duration d = InitThrows).
Proof. unfold Duration. destruct (fromSec d); eauto. Qed.

Lemma param_int_cases (nh : NodeHandle D) key default :
  (exists z, getParam_int nh key <> Some None /\
             param_int nh key default = InitOk z) \/
  (getParam_int nh key = Some None /\
   param_int nh key default = InitUndefined).
Proof.
  unfold param_int.
  destruct (getParam_int nh key) as [[z |] |]; [left | right | left];
    try (eexists; split; [discriminate | reflexivity]).
  now split.
Qed.

(** X1.  [init] returns [false] exactly when one of the seven joint-name
    parameters is not set to a string (the default names in the source
    are never used), or when, the publish period having been constructed
    and the rolling window size read, "wheel_separation_h" or
    "wheel_radius" cannot be read as a number.  A publish rate whose
    period [ros::Duration] rejects, or a window size whose conversion is
    undefined, ends [init] before the separation and the radius are
    looked at. *)
Theorem init_returns_false_iff
    (c : Controller D O) robot_hw root_nh controller_nh :
  init c robot_hw root_nh controller_nh = InitFalse <->
  (exists key, In key joint_name_keys /\
               getParam_string controller_nh key = None) \/
  (fromSec (ddiv (dofZ 1) (configured_publish_rate controller_nh)) <> None /\
   getParam_int controller_nh "velocity_rolling_window_size" <> Some None /\
   (getParam_double controller_nh "wheel_separation_h" = None \/
    getParam_double controller_nh "wheel_radius" = None)).
Proof.
  unfold init, configured_publish_rate. rewrite !required_name_cases. split.
  - do 7 (init_name_step;
          [| intros _; left; eexists; split; [| eassumption];
             unfold joint_name_keys, wheel_joint_keys, steer_joint_keys;
             cbn [app In]; tauto]).
    destruct (Duration_cases
                (ddiv (dofZ 1)
                   (fst (param getParam_double controller_nh "publish_rate"
                           (dofZ 50))))) as [(t & Hsec & ->) | (_ & ->)];
      cbn [init_bind]; [| discriminate].
    destruct (param_int_cases controller_nh "velocity_rolling_window_size"
                10%Z) as [(z & Hint & ->) | (_ & ->)];
      cbn [init_bind]; [| discriminate].
    assert (Hperiod :
      fromSec (ddiv (dofZ 1)
                 (fst (param getParam_double controller_nh "publish_rate"
                         (dofZ 50)))) <> None) by congruence.
    destruct (getParam_double controller_nh "wheel_separation_h");
      [| intros _; right; repeat split; trivial; now left].
    destruct (getParam_double controller_nh "wheel_radius");
      [| intros _; right; repeat split; trivial; now right].
    intros H. exfalso.
    repeat match type of H with
      | init_bind (covariance_diagonal ?nh ?k) _ = _ =>
          let E := fresh "E" in
          destruct (covariance_diagonal_cases nh k) as [(? & E) | E];
          rewrite E in H; cbn [init_bind] in H; [| discriminate H]
      | init_bind (getHandle ?l ?n) _ = _ =>
          let E := fresh "E" in
          destruct (getHandle_cases l n) as [E | E];
          rewrite E in H; cbn [init_bind] in H; [| discriminate H]
      end.
    discriminate H.
  - intros [(key & Hin & Hnone) | (Hperiod & Hint & Hgeom)].
    + unfold joint_name_keys, wheel_joint_keys, steer_joint_keys in Hin.
      cbn [app In] in Hin.
      do 7 (init_name_step; [| reflexivity]).
      exfalso.
      repeat (destruct Hin as [<- | Hin]; [congruence |]).
      exact Hin.
    + do 7 (init_name_step; [| reflexivity]).
      destruct (Duration_cases
                  (ddiv (dofZ 1)
                     (fst (param getParam_double controller_nh "publish_rate"
                             (dofZ 50))))) as [(t & _ & ->) | (Hnone & _)];
        [| contradiction].
      destruct (param_int_cases controller_nh "velocity_rolling_window_size"
                  10%Z) as [(z & _ & ->) | (Hnone & _)];
        [| contradiction].
      cbn [init_bind].
      destruct Hgeom as [-> | ->]; [reflexivity |].
      now destruct (getParam_double controller_nh "wheel_separation_h").
Qed.

(** X2.  After a successful [init] every joint the parameters name is
    registered with the hardware: the four wheel joints with the velocity
    interface, the three steer joints with the position interface. *)
Theorem init_ok_handles_registered
    (c : Controller D O) robot_hw root_nh controller_nh s :
  init c robot_hw root_nh controller_nh = InitOk s ->
  (forall key name,
     In key wheel_joint_keys ->
     getParam_string controller_nh key = Some name ->
     In name (velocity_joints robot_hw)) /\
  (forall key name,
     In key steer_joint_keys ->
     getParam_string controller_nh key = Some name ->
     In name (position_joints robot_hw)).
Proof.
  intros H. init_invert H.
  repeat match goal with
    | E : getHandle _ _ = InitOk ?u |- _ =>
        destruct u; apply getHandle_ok in E
    end.
  split; intros key name Hin Hname;
    unfold wheel_joint_keys, steer_joint_keys in Hin; cbn [In] in Hin;
    repeat (destruct Hin as [<- | Hin]; [congruence |]);
    contradiction.
Qed.

(** X3.  After a successful [init] each stored covariance diagonal has
    six entries and is exactly the parameter it was read from: the
    parameter is an array of six doubles, in the stored order. *)
Theorem init_ok_covariance_roundtrip
    (c : Controller D O) robot_hw root_nh controller_nh s :
  init c robot_hw root_nh controller_nh = InitOk s ->
  (lookup_param "pose_covariance_diagonal" (parameters controller_nh)
     = Some (XArray (map (@XDouble D) (pose_covariance_diagonal (params s))))
   /\ List.length (pose_covariance_diagonal (params s)) = 6%nat) /\
  (lookup_param "twist_covariance_diagonal" (parameters controller_nh)
     = Some (XArray (map (@XDouble D) (twist_covariance_diagonal (params s))))
   /\ List.length (twist_covariance_diagonal (params s)) = 6%nat).
Proof.
  intros H. init_invert H.
  cbn [params pose_covariance_diagonal twist_covariance_diagonal].
  split; now apply covariance_diagonal_ok.
Qed.

(** X5.  [init] never reads [wheel_separation_l_], the member the
    constructor leaves uninitialised: its outcome is the same whatever
    value that member starts with. *)
Theorem init_ignores_uninitialised_separation
    (x y : D) (hw_commands : JointHandles D) robot_hw root_nh controller_nh :
  init (constructed (O := O) x hw_commands) robot_hw root_nh controller_nh
  = init (constructed y hw_commands) robot_hw root_nh controller_nh.
Proof. reflexivity. Qed.

(** X6.  After a successful [init] the odometry object has been given
    the rolling window size - 10 unless configured, an integer as it is,
    a double rounded as roscpp rounds it - and then the separation and
    the wheel radius each times its multiplier, while the members the
    kinematics use hold the values as configured; the command buffer, the
    command history, the joints and the running flag are as before. *)
Theorem init_ok_odometry_params
    (c : Controller D O) robot_hw root_nh controller_nh s :
  init c robot_hw root_nh controller_nh = InitOk s ->
  getParam_double controller_nh "wheel_separation_h"
    = Some (wheel_separation_h_ (params s)) /\
  getParam_double controller_nh "wheel_radius"
    = Some (wheel_radius_ (params s)) /\
  (exists window,
     match lookup_param "velocity_rolling_window_size"
             (parameters controller_nh) with
     | Some (XInt z) => window = z
     | Some (XDouble d) => dtoint d = Some window
     | _ => window = 10%Z
     end /\
     odometry_ s =
       odom_setWheelParams
         (odom_setVelocityRollingWindowSize (odometry_ c) window)
         (dmul (wheel_separation_h_multiplier_ (params s))
            (wheel_separation_h_ (params s)))
         (dmul (wheel_radius_multiplier_ (params s))
            (wheel_radius_ (params s)))) /\
  command_ s = command_ c /\ last0_cmd_ s = last0_cmd_ c /\
  last1_cmd_ s = last1_cmd_ c /\ joints s = joints c /\
  running s = running c.
Proof.
  intros H. init_invert H.
  split; [reflexivity |]. split; [reflexivity |].
  split; [| now repeat split].
  match goal with
  | E : param_int _ _ _ = InitOk ?w |- _ =>
      exists w; split; [| reflexivity];
      unfold param_int, getParam_int in E;
      destruct (lookup_param _ _) as [[b | z | x | str | l] |];
      try congruence;
      destruct (dtoint x); congruence
  end.
Qed.

(** X7.  After a successful [init], a limiter's lower bound that is not
    configured is the opposite of the upper bound read just before it,
    for velocity, acceleration and jerk, linear and angular alike. *)
Theorem init_ok_limiter_lower_bounds
    (c : Controller D O) robot_hw root_nh controller_nh s :
  init c robot_hw root_nh controller_nh = InitOk s ->
  let lin := limiter_lin_ (params s) in
  let ang := limiter_ang_ (params s) in
  (getParam_double controller_nh "linear/x/min_velocity" = None ->
   min_velocity lin = dneg (max_velocity lin)) /\
  (getParam_double controller_nh "linear/x/min_acceleration" = None ->
   min_acceleration lin = dneg (max_acceleration lin)) /\
  (getParam_double controller_nh "linear/x/min_jerk" = None ->
   min_jerk lin = dneg (max_jerk lin)) /\
  (getParam_double controller_nh "angular/z/min_velocity" = None ->
   min_velocity ang = dneg (max_velocity ang)) /\
  (getParam_double controller_nh "angular/z/min_acceleration" = None ->
   min_acceleration ang = dneg (max_acceleration ang)) /\
  (getParam_double controller_nh "angular/z/min_jerk" = None ->
   min_jerk ang = dneg (max_jerk ang)).
Proof.
  intros H. init_invert H. cbv zeta.
  cbn [params limiter_lin_ limiter_ang_]. unfold read_limiter, param.
  cbn [append min_velocity max_velocity min_acceleration max_acceleration
       min_jerk max_jerk].
  repeat split; intros Hnone; rewrite Hnone; reflexivity.
Qed.

End InitOutcomes.

(** ** Cycles, publication and the life cycle, in any arithmetic *)

Section CycleOutcomes.

Context {D : Type} {ops : DoubleOps D}.
Context {O : Type} {odo : OdometryOps D O}.

Implicit Types (s : Controller D O) (inp : CycleInputs D).
Implicit Types (evs : list (Event D)).
Implicit Types (time now T : RosTime) (period : RosDuration).

Local Open Scope Z_scope.

Lemma run_cons s e evs : run s (e :: evs) = run (run_event s e) evs.
Proof. reflexivity. Qed.

Lemma params_run_event s e : params (run_event s e) = params s.
Proof.
  destruct e; cbn [run_event];
    [apply params_update | apply params_cmdVelCallback
     | reflexivity | reflexivity].
Qed.

Lemma params_run evs : forall s, params (run s evs) = params s.
Proof.
  induction evs as [| e evs IH]; intros s; [reflexivity |].
  rewrite run_cons, IH. apply params_run_event.
Qed.

(** The odometry phase decides whether a cycle goes on from the mode and
    the readings alone. *)
Lemma odometry_phase_some_iff s inp time :
  odometry_phase s inp time <> None <->
  open_loop_ (params s) = true \/
  disnan (wheel_pos_reading inp) || disnan (steer_pos_reading inp) = false.
Proof.
  unfold odometry_phase.
  destruct (open_loop_ (params s));
    [| destruct (disnan _ || disnan _)]; split; intros H;
    try discriminate; try tauto; try congruence.
  destruct H; discriminate.
Qed.

(** X8.  In a cycle that gets past the odometry phase, publication is due
    when the publish clock plus one period is before [time].  The clock
    then advances by exactly one period (not to [time]), and each message
    that goes out is stamped [time] and carries the odometry as updated
    by this very cycle; a publisher whose lock is taken sends nothing and
    the slot is lost.  When publication is not due nothing changes. *)
Theorem publication_of_a_cycle s inp time period :
  odometry_phase s inp time <> None ->
  let s' := update s inp time period in
  let due :=
    last_state_publish_time_ s + publish_period_ (params s) <? time in
  last_state_publish_time_ s' =
    (if due then last_state_publish_time_ s + publish_period_ (params s)
     else last_state_publish_time_ s) /\
  odom_pub_ s' =
    (if due && odom_pub_trylock inp
     then mkOdomMsg time (odometry_ s') :: odom_pub_ s
     else odom_pub_ s) /\
  tf_odom_pub_ s' =
    (if due && (enable_odom_tf_ (params s) && tf_odom_pub_trylock inp)
     then mkOdomMsg time (odometry_ s') :: tf_odom_pub_ s
     else tf_odom_pub_ s).
Proof.
  intros Hgo. cbv zeta. unfold update, odometry_phase in *.
  destruct (open_loop_ (params s));
    [| destruct (disnan _ || disnan _); [congruence |]];
    unfold motion_phase, publish_phase;
    cbn [last_state_publish_time_ set_odometry params odometry_
         odom_pub_ tf_odom_pub_];
    destruct (_ <? _); cbn [andb];
    destruct (odom_pub_trylock inp);
    destruct (enable_odom_tf_ (params s));
    destruct (tf_odom_pub_trylock inp); repeat split.
Qed.

Lemma tf_run_event s e :
  enable_odom_tf_ (params s) = false ->
  tf_odom_pub_ (run_event s e) = tf_odom_pub_ s.
Proof.
  intros Hoff. destruct e as [inp time period | command n now | time | time];
    cbn [run_event]; try reflexivity.
  - unfold update, odometry_phase.
    destruct (open_loop_ (params s));
      [| destruct (disnan _ || disnan _); [reflexivity |]];
      unfold motion_phase, publish_phase;
      cbn [last_state_publish_time_ set_odometry params];
      rewrite Hoff; destruct (_ <? _); reflexivity.
  - unfold cmdVelCallback, report_throttled.
    destruct (running s); [| reflexivity].
    destruct (negb _ && _); [| reflexivity].
    destruct (throttle_check _ _ _); reflexivity.
Qed.

(** X9.  With [enable_odom_tf_] off, no run of cycles, commands, starts
    and stops ever publishes a transform. *)
Theorem no_transform_when_disabled evs : forall s,
  enable_odom_tf_ (params s) = false ->
  tf_odom_pub_ (run s evs) = tf_odom_pub_ s.
Proof.
  induction evs as [| e evs IH]; intros s Hoff; [reflexivity |].
  rewrite run_cons, IH by (now rewrite params_run_event).
  now apply tf_run_event.
Qed.

Lemma publish_slot_of_event s e T :
  no_start [e] -> updates_by T [e] ->
  exists k,
    0 <= k <= 1 /\
    last_state_publish_time_ (run_event s e)
      = last_state_publish_time_ s + k * publish_period_ (params s) /\
    0 <= Z.of_nat (List.length (odom_pub_ (run_event s e)))
         - Z.of_nat (List.length (odom_pub_ s)) <= k /\
    (k = 0 \/
     last_state_publish_time_ s + k * publish_period_ (params s) < T).
Proof.
  intros Hns Hby.
  destruct e as [inp time period | command n now | time | time];
    cbn [run_event no_start updates_by] in *.
  - destruct Hby as (Hby & _).
    unfold update, odometry_phase.
    destruct (open_loop_ (params s));
      [| destruct (disnan _ || disnan _);
         [exists 0; repeat split; lia |]];
      unfold motion_phase, publish_phase;
      cbn [last_state_publish_time_ set_odometry params odom_pub_];
      destruct (_ <? _) eqn:Hdue;
      try (exists 0; cbn; repeat split; lia);
      apply Z.ltb_lt in Hdue;
      exists 1; destruct (odom_pub_trylock inp);
      cbn [last_state_publish_time_ set_last_cmds set_joints set_publish
           odom_pub_ List.length];
      repeat split; lia.
  - exists 0. unfold cmdVelCallback, report_throttled.
    destruct (running s); [| cbn; repeat split; lia].
    destruct (negb _ && _); [| cbn; repeat split; lia].
    destruct (throttle_check _ _ _); cbn; repeat split; lia.
  - contradiction.
  - exists 0. cbn. repeat split; lia.
Qed.

Lemma publish_slots_of_run evs T : forall s,
  no_start evs -> updates_by T evs ->
  exists k,
    0 <= k /\
    last_state_publish_time_ (run s evs)
      = last_state_publish_time_ s + k * publish_period_ (params s) /\
    0 <= Z.of_nat (List.length (odom_pub_ (run s evs)))
         - Z.of_nat (List.length (odom_pub_ s)) <= k /\
    (k = 0 \/
     last_state_publish_time_ s + k * publish_period_ (params s) < T).
Proof.
  induction evs as [| e evs IH]; intros s Hns Hby.
  - exists 0. cbn. repeat split; lia.
  - assert (Hns1 : no_start [e] /\ no_start evs)
      by (destruct e; cbn in *; tauto).
    assert (Hby1 : updates_by T [e] /\ updates_by T evs)
      by (destruct e; cbn in *; tauto).
    destruct (publish_slot_of_event s e T (proj1 Hns1) (proj1 Hby1))
      as (k1 & Hk1 & Hlast1 & Hlen1 & Hbound1).
    destruct (IH (run_event s e) (proj2 Hns1) (proj2 Hby1))
      as (k2 & Hk2 & Hlast2 & Hlen2 & Hbound2).
    rewrite params_run_event in Hlast2, Hbound2.
    rewrite run_cons. exists (k1 + k2).
    repeat split; lia.
Qed.

(** X10.  Over any run without a restart whose cycles happen no later
    than [T], with a positive publish period, [n] new odometry messages
    use up [n] periods of the publish clock, which stays behind the
    cycle time: [last_state_publish_time_ + n * publish_period_] is
    before [T].  The number of messages since the clock was set is thus
    bounded by the time elapsed over the period.  The gap between two
    messages is not bounded below by this: while the publish clock lags,
    successive cycles each publish, however close they are. *)
Theorem publication_count_bounded s evs T :
  0 < publish_period_ (params s) ->
  no_start evs -> updates_by T evs ->
  let n := Z.of_nat (List.length (odom_pub_ (run s evs)))
           - Z.of_nat (List.length (odom_pub_ s)) in
  0 <= n /\
  (n = 0 \/ last_state_publish_time_ s + n * publish_period_ (params s) < T).
Proof.
  intros Hpos Hns Hby. cbv zeta.
  destruct (publish_slots_of_run evs T s Hns Hby)
    as (k & Hk & _ & Hlen & Hbound).
  split; [lia |].
  destruct Hbound as [-> | Hb]; [left; lia |].
  destruct (Z.eq_dec
              (Z.of_nat (List.length (odom_pub_ (run s evs)))
               - Z.of_nat (List.length (odom_pub_ s))) 0) as [Hz | Hnz];
    [now left | right]. nia.
Qed.

(** X11.  In open-loop mode a cycle never looks at the sensor readings
    (NaN or not), and the odometry is advanced with the command the
    previous cycle acted on: the second of two cycles integrates the
    command of the first. *)
Theorem open_loop_cycle s inp inp' time period :
  open_loop_ (params s) = true ->
  odom_pub_trylock inp = odom_pub_trylock inp' ->
  tf_odom_pub_trylock inp = tf_odom_pub_trylock inp' ->
  update s inp time period = update s inp' time period /\
  forall inp2 time2 period2,
    odometry_ (update (update s inp time period) inp2 time2 period2)
    = odom_updateOpenLoop (odometry_ (update s inp time period))
        (lin (cycle_command s time)) (ang (cycle_command s time)) time2.
Proof.
  intros Hopen Hlock Htf. split.
  - unfold update, odometry_phase. rewrite Hopen.
    unfold publish_phase. now rewrite Hlock, Htf.
  - intros inp2 time2 period2.
    assert (Hgo : exists s1, odometry_phase s inp time = Some s1)
      by (unfold odometry_phase; rewrite Hopen; eauto).
    destruct Hgo as (s1 & Hgo).
    destruct (update_reaching_motion s inp time period Hgo)
      as (_ & Hlast & _).
    set (s' := update s inp time period) in *.
    assert (Hopen' : open_loop_ (params s') = true)
      by (unfold s'; now rewrite params_update).
    unfold update at 1, odometry_phase. rewrite Hopen'.
    rewrite motion_phase_odometry.
    destruct (publish_phase_frame
                (set_odometry
                   (odom_updateOpenLoop (odometry_ s') (lin (last0_cmd_ s'))
                      (ang (last0_cmd_ s')) time2) s') inp2 time2)
      as (_ & _ & _ & _ & ->).
    cbn [odometry_ set_odometry]. now rewrite Hlast.
Qed.

(** X12.  A brake lasts until the next cycle that gets past the odometry
    phase: that cycle rewrites all seven joints from the stored command,
    so the controller ends up exactly as if [brake] had not been
    called. *)
Theorem next_cycle_overrides_brake s inp time period :
  odometry_phase s inp time <> None ->
  update (brake s) inp time period = update s inp time period.
Proof.
  intros Hgo. unfold update, odometry_phase in *. unfold brake at 1 2 3.
  cbn [params set_joints].
  destruct (open_loop_ (params s));
    [| destruct (disnan _ || disnan _); [congruence |]];
    unfold motion_phase, publish_phase;
    cbn [last_state_publish_time_ set_odometry set_joints params];
    destruct (_ <? _); reflexivity.
Qed.

(** X13.  Stopping and restarting the controller does not discard the
    stored command: the first cycle after the restart writes the same
    seven setpoints, and records the same command, as that cycle would
    have without the stop. *)
Theorem restart_keeps_the_command s t_stop t_start inp time period :
  odometry_phase s inp time <> None ->
  let s' := startRequest (stopRequest s t_stop) t_start in
  command_ s' = command_ s /\
  joints (update s' inp time period) = joints (update s inp time period) /\
  last0_cmd_ (update s' inp time period)
    = last0_cmd_ (update s inp time period).
Proof.
  intros Hgo. cbv zeta. split; [reflexivity |].
  assert (Hgo' : odometry_phase
                   (startRequest (stopRequest s t_stop) t_start) inp time
                 <> None)
    by (apply odometry_phase_some_iff; apply odometry_phase_some_iff in Hgo;
        exact Hgo).
  destruct (odometry_phase s inp time) as [s1 |] eqn:H1; [| congruence].
  destruct (odometry_phase (startRequest (stopRequest s t_stop) t_start)
              inp time) as [s2 |] eqn:H2; [| congruence].
  destruct (update_reaching_motion s inp time period H1) as (-> & -> & _).
  destruct (update_reaching_motion _ inp time period H2) as (-> & -> & _).
  split; reflexivity.
Qed.

Lemma stopped_run_event s e :
  running s = false -> no_start [e] ->
  running (run_event s e) = false /\
  command_ (run_event s e) = command_ s /\
  command_struct_ (run_event s e) = command_struct_ s.
Proof.
  intros Hstopped Hns.
  destruct e as [inp time period | command n now | time | time];
    cbn [run_event no_start] in *; try contradiction.
  - unfold update, odometry_phase.
    destruct (open_loop_ (params s));
      [| destruct (disnan _ || disnan _); [now repeat split |]];
      unfold motion_phase, publish_phase;
      cbn [last_state_publish_time_ set_odometry params];
      destruct (_ <? _); now repeat split.
  - unfold cmdVelCallback. rewrite Hstopped. now repeat split.
  - now repeat split.
Qed.

(** X14.  While the controller is not running, commands never reach the
    command buffer: over any run without a start request the stored
    command stays what it was and the controller stays stopped. *)
Theorem stopped_controller_stores_no_command evs : forall s,
  running s = false -> no_start evs ->
  running (run s evs) = false /\
  command_ (run s evs) = command_ s /\
  command_struct_ (run s evs) = command_struct_ s.
Proof.
  induction evs as [| e evs IH]; intros s Hstopped Hns; [now repeat split |].
  assert (Hns1 : no_start [e] /\ no_start evs)
    by (destruct e; cbn in *; tauto).
  destruct (stopped_run_event s e Hstopped (proj1 Hns1)) as (Hr & Hc & Hcs).
  rewrite run_cons.
  destruct (IH (run_event s e) Hr (proj2 Hns1)) as (-> & -> & ->).
  now repeat split.
Qed.

Lemma reports_run_event s e :
  allow_multiple_cmd_vel_publishers_ (params s) = true ->
  report_times (rosout (run_event s e)) = report_times (rosout s).
Proof.
  intros Hallow.
  destruct e as [inp time period | command n now | time | time];
    cbn [run_event]; try reflexivity.
  - unfold update, odometry_phase.
    destruct (open_loop_ (params s));
      [| destruct (disnan _ || disnan _); [reflexivity |]];
      unfold motion_phase, publish_phase;
      cbn [last_state_publish_time_ set_odometry params];
      destruct (_ <? _); reflexivity.
  - unfold cmdVelCallback. rewrite Hallow.
    destruct (running s); reflexivity.
Qed.

(** X16.  When several command publishers are allowed, no run ever
    reports a publisher violation, and a running controller stores every
    command it receives, however many publishers there are. *)
Theorem multiple_publishers_allowed evs : forall s,
  allow_multiple_cmd_vel_publishers_ (params s) = true ->
  report_times (rosout (run s evs)) = report_times (rosout s) /\
  forall command num_publishers now,
    running s = true ->
    command_ (cmdVelCallback s command num_publishers now)
    = mkCommands (linear_x command) (angular_z command) now.
Proof.
  induction evs as [| e evs IH]; intros s Hallow.
  - split; [reflexivity |]. intros command n now Hrun.
    unfold cmdVelCallback. now rewrite Hrun, Hallow.
  - split.
    + rewrite run_cons.
      destruct (IH (run_event s e)) as (-> & _);
        [now rewrite params_run_event |].
      now apply reports_run_event.
    + intros command n now Hrun.
      unfold cmdVelCallback. now rewrite Hrun, Hallow.
Qed.

(** X15.  A command accepted by a running controller is the command the
    next cycle acts on, provided that cycle gets past the sensor check
    and its staleness test [dt > cmd_vel_timeout_] fails, [dt] being the
    time since the command's arrival as the cycle computes it.  The
    command becomes [last0_cmd_], stamped with its arrival time, and the
    seven joints receive its forward kinematics, the centre steering
    joint its angular part. *)
Theorem accepted_command_is_executed
    s command num_publishers now inp time period :
  running s = true ->
  allow_multiple_cmd_vel_publishers_ (params s) = true
    \/ num_publishers <= 1 ->
  open_loop_ (params s) = true \/
  (disnan (wheel_pos_reading inp) || disnan (steer_pos_reading inp))%bool
    = false ->
  dgt (toSec (time - now)) (cmd_vel_timeout_ (params s)) = false ->
  let cmd := mkCommands (linear_x command) (angular_z command) now in
  let s' := update (cmdVelCallback s command num_publishers now)
              inp time period in
  last0_cmd_ s' = cmd /\
  joints s' = wheel_targets (params s) cmd /\
  front_steer_joint_ (joints s') = angular_z command.
Proof.
  intros Hrun Hpolicy Hgo Hfresh. cbv zeta.
  assert (Hstored :
    cmdVelCallback s command num_publishers now
    = set_command
        (mkCommands (linear_x command) (angular_z command) now) s).
  { unfold cmdVelCallback. rewrite Hrun.
    destruct Hpolicy as [-> | Hone]; [reflexivity |].
    apply Z.ltb_ge in Hone. rewrite Hone. now rewrite andb_false_r. }
  rewrite Hstored.
  destruct (update_past_sensor_check
              (set_command
                 (mkCommands (linear_x command) (angular_z command) now) s)
              inp time period Hgo) as (-> & -> & _).
  assert (Hcmd :
    cycle_command
      (set_command (mkCommands (linear_x command) (angular_z command) now) s)
      time
    = mkCommands (linear_x command) (angular_z command) now).
  { unfold cycle_command, staleness_cutoff.
    cbn [command_ params set_command stamp]. now rewrite Hfresh. }
  rewrite Hcmd. cbn [params set_command].
  split; [reflexivity |]. split; [reflexivity |].
  now destruct (wheel_targets_steer (params s)
    (mkCommands (linear_x command) (angular_z command) now)) as (-> & _).
Qed.

End CycleOutcomes.

(** ** The URDF helpers and the covariance matrices *)

Section HelperFacts.

Context {D : Type} {ops : DoubleOps D}.

(** X18.  [getWheelRadius] finds a radius exactly on a link whose
    collision geometry is a cylinder, and returns that cylinder's radius;
    it agrees with [isCylinder]; and on a null link, where [isCylinder]
    only reports, it dereferences the pointer for its own message. *)
Theorem getWheelRadius_outcomes (wheel_link : option (Link D)) :
  (forall r,
     getWheelRadius wheel_link = RadiusFound r <->
     exists name len,
       wheel_link
       = Some (mkLink name (Some (mkCollision (Some (CYLINDER len r)))))) /\
  (fst (isCylinder wheel_link) = true <->
   exists r, getWheelRadius wheel_link = RadiusFound r) /\
  (getWheelRadius wheel_link = RadiusNullDereference <-> wheel_link = None).
Proof.
  unfold getWheelRadius, isCylinder.
  destruct wheel_link as [[name [[[g |]] |]] |]; cbn [fst collision geometry];
    try destruct g as [rad | dim | len rad | file]; cbn [fst link_name];
    repeat split;
    try (intros H; discriminate H);
    try (intros (? & ? & H); discriminate H);
    try (intros (? & H); discriminate H);
    try (intros [= <-]; eauto);
    try (intros (? & ? & [= -> -> ->]); reflexivity);
    eauto.
Qed.

(** X4.  The covariance written to the odometry message from a diagonal
    of six values is the 6x6 diagonal matrix of those values, row by
    row: 36 entries, entry (i, j) being the i-th value when [i = j] and 0
    otherwise. *)
Theorem covariance_matrix_is_diagonal (diag : list D) :
  List.length diag = 6%nat ->
  exists m,
    covariance_of_diagonal diag = Some m /\
    List.length m = 36%nat /\
    forall i j, (i < 6)%nat -> (j < 6)%nat ->
      nth (6 * i + j) m (dofZ 0)
      = if (i =? j)%nat then nth i diag (dofZ 0) else dofZ 0.
Proof.
  intros Hlen.
  destruct diag as [| c0 [| c1 [| c2 [| c3 [| c4 [| c5 [| c6 rest]]]]]]];
    try discriminate Hlen.
  eexists. split; [reflexivity |]. split; [reflexivity |].
  intros i j Hi Hj.
  do 6 (destruct i as [| i];
        [do 6 (destruct j as [| j]; [reflexivity |]); lia |]).
  lia.
Qed.

End HelperFacts.

(** ** The geometry of a cycle, over the reals *)

Section RealGeometry.

Context {O : Type} {odo : OdometryOps R O}.

Implicit Types (s : Controller R O) (inp : CycleInputs R).
Implicit Types (p : Params R) (c : Commands R).
Implicit Types (time : RosTime) (period : RosDuration).

Local Open Scope R_scope.

Lemma sin_nonzero theta :
  - (PI / 2) < theta < PI / 2 -> theta <> 0 -> sin theta <> 0.
Proof.
  intros [Hlo Hhi] Hnz. pose proof PI_RGT_0 as Hpi.
  destruct (Rtotal_order theta 0) as [Hneg | [Hz | Hpos]]; [| contradiction |].
  - assert (sin theta < 0) by (apply sin_lt_0_var; lra). lra.
  - assert (0 < sin theta) by (apply sin_gt_0; lra). lra.
Qed.

Lemma Rabs_quotient a b : Rabs (a / b) = Rabs a / Rabs b.
Proof. unfold Rdiv. now rewrite Rabs_mult, Rabs_inv. Qed.

Lemma cotangent theta : tan (PI / 2 - theta) = cos theta / sin theta.
Proof. unfold tan. now rewrite sin_shift, cos_shift. Qed.

(** Within (-pi/2, pi/2) and away from 0 the turning radius is
    [L * cos theta / |sin theta|], a positive length. *)
Lemma turning_radius_value L theta :
  - (PI / 2) < theta < PI / 2 -> theta <> 0 -> 0 < L ->
  turning_radius L theta = L * cos theta / Rabs (sin theta) /\
  0 < turning_radius L theta.
Proof.
  intros Hin Hnz HL. pose proof (sin_nonzero Hin Hnz) as Hsin.
  assert (Hcos : 0 < cos theta) by (apply cos_gt_0; lra).
  assert (Habs : 0 < Rabs (sin theta)) by (now apply Rabs_pos_lt).
  unfold turning_radius. cbn [dmul ddiv dsub dabs dtan dofZ M_PI R_ops].
  rewrite cotangent, Rabs_mult, Rabs_quotient, (Rabs_pos_eq L),
    (Rabs_pos_eq (cos theta)) by lra.
  split; [unfold Rdiv; ring |].
  apply Rmult_lt_0_compat; [lra |]. now apply Rdiv_lt_0_compat.
Qed.

(** X19.  For a steering angle within (-pi/2, pi/2) other than 0 and a
    non-zero wheelbase, the two rear wheel setpoints average to the
    commanded speed over the wheel radius, whichever way the vehicle
    turns. *)
Theorem rear_wheels_average_the_command p c :
  - (PI / 2) < ang c < PI / 2 -> ang c <> 0 ->
  wheel_separation_l_ p <> 0 ->
  right_rear_wheel_joint_ (wheel_targets p c)
  + left_rear_wheel_joint_ (wheel_targets p c)
  = 2 * lin c / wheel_radius_ p.
Proof.
  intros Hin Hnz HL. pose proof (sin_nonzero Hin Hnz) as Hsin.
  assert (Hcos : 0 < cos (ang c)) by (apply cos_gt_0; lra).
  assert (Hr : turning_radius (wheel_separation_l_ p) (ang c) <> 0).
  { unfold turning_radius. cbn [dmul ddiv dsub dabs dtan dofZ M_PI R_ops].
    apply Rabs_no_R0. rewrite cotangent.
    apply Rmult_integral_contrapositive_currified; [exact HL |].
    unfold Rdiv. apply Rmult_integral_contrapositive_currified; [lra |].
    now apply Rinv_neq_0_compat. }
  assert (Hsum :
    right_rear_wheel_omega p c + left_rear_wheel_omega p c = 2 * lin c).
  { unfold right_rear_wheel_omega, left_rear_wheel_omega.
    cbn [dadd dsub dmul ddiv dofZ R_ops].
    set (r := turning_radius (wheel_separation_l_ p) (ang c)) in *.
    field. exact Hr. }
  destruct (Rlt_le_dec 0 (ang c)) as [Hpos | Hneg].
  - rewrite wheel_targets_right_turn by exact Hpos.
    cbn [right_rear_wheel_joint_ left_rear_wheel_joint_].
    unfold Rdiv in *. rewrite <- Rmult_plus_distr_r. now rewrite Hsum.
  - rewrite wheel_targets_otherwise by exact Hneg.
    cbn [right_rear_wheel_joint_ left_rear_wheel_joint_].
    unfold Rdiv in *. rewrite <- Rmult_plus_distr_r, Rplus_comm.
    now rewrite Hsum.
Qed.

Lemma scaled_speed_lt a b r v r_wheel :
  0 < r -> 0 < v -> 0 < r_wheel -> a < b ->
  a / r * v / r_wheel < b / r * v / r_wheel.
Proof.
  intros Hr Hv Hw Hab. unfold Rdiv.
  apply Rmult_lt_compat_r; [now apply Rinv_0_lt_compat |].
  apply Rmult_lt_compat_r; [exact Hv |].
  apply Rmult_lt_compat_r; [now apply Rinv_0_lt_compat | exact Hab].
Qed.

Lemma front_radius_lt r L W :
  0 < r -> 0 < L -> r_left_front_wheel r L W < r_right_front_wheel r L W.
Proof.
  intros Hr HL. unfold r_left_front_wheel, r_right_front_wheel.
  cbn [dadd dsub ddiv dsqrt dpow dofZ R_ops]. simpl powerRZ.
  pose proof (Rle_0_sqr (r - L / 2)) as H1.
  pose proof (Rle_0_sqr (r + L / 2)) as H2.
  pose proof (Rle_0_sqr W) as H3.
  pose proof (Rmult_lt_0_compat r L Hr HL) as H4.
  unfold Rsqr in *.
  apply sqrt_lt_1; lra.
Qed.

(** X20.  With a positive wheelbase, wheel radius and linear command, the
    wheels on the outside of the turn are commanded strictly faster than
    those on the inside, on both axles: the right wheels for a positive
    steering angle below pi/2, the left wheels for a negative one above
    -pi/2. *)
Theorem outer_wheels_turn_faster p c :
  0 < wheel_separation_l_ p -> 0 < wheel_radius_ p -> 0 < lin c ->
  (0 < ang c < PI / 2 ->
   left_rear_wheel_joint_ (wheel_targets p c)
     < right_rear_wheel_joint_ (wheel_targets p c) /\
   left_front_wheel_joint_ (wheel_targets p c)
     < right_front_wheel_joint_ (wheel_targets p c)) /\
  (- (PI / 2) < ang c < 0 ->
   right_rear_wheel_joint_ (wheel_targets p c)
     < left_rear_wheel_joint_ (wheel_targets p c) /\
   right_front_wheel_joint_ (wheel_targets p c)
     < left_front_wheel_joint_ (wheel_targets p c)).
Proof.
  intros HL Hw Hv.
  assert (Hspeeds :
    - (PI / 2) < ang c < PI / 2 -> ang c <> 0 ->
    left_rear_wheel_omega p c / wheel_radius_ p
      < right_rear_wheel_omega p c / wheel_radius_ p /\
    left_front_wheel_omega p c / wheel_radius_ p
      < right_front_wheel_omega p c / wheel_radius_ p).
  { intros Hin Hnz.
    destruct (turning_radius_value Hin Hnz HL) as (_ & Hr).
    unfold left_rear_wheel_omega, right_rear_wheel_omega,
      left_front_wheel_omega, right_front_wheel_omega.
    cbn [dadd dsub dmul ddiv dofZ R_ops]. cbv zeta.
    set (r := turning_radius (wheel_separation_l_ p) (ang c)) in *.
    split; apply scaled_speed_lt; trivial; [lra |].
    now apply front_radius_lt. }
  split; intros Hside.
  - rewrite wheel_targets_right_turn by lra.
    cbn [right_rear_wheel_joint_ left_rear_wheel_joint_
         right_front_wheel_joint_ left_front_wheel_joint_].
    apply Hspeeds; lra.
  - rewrite wheel_targets_otherwise by lra.
    cbn [right_rear_wheel_joint_ left_rear_wheel_joint_
         right_front_wheel_joint_ left_front_wheel_joint_].
    apply Hspeeds; lra.
Qed.

(** X21.  The inner rear wheel changes direction at [|tan theta| = 2]:
    with positive wheelbase, wheel radius and linear command and a
    steering angle within (-pi/2, pi/2) other than 0, the inner rear
    wheel (left for a positive angle, right for a negative one) is
    commanded forwards while [|sin theta| < 2 cos theta] and backwards
    once [|sin theta| > 2 cos theta]. *)
Theorem inner_rear_wheel_direction p c :
  0 < wheel_separation_l_ p -> 0 < wheel_radius_ p -> 0 < lin c ->
  - (PI / 2) < ang c < PI / 2 -> ang c <> 0 ->
  let inner :=
    if Rgtb (ang c) 0 then left_rear_wheel_joint_ (wheel_targets p c)
    else right_rear_wheel_joint_ (wheel_targets p c) in
  (Rabs (sin (ang c)) < 2 * cos (ang c) -> 0 < inner) /\
  (2 * cos (ang c) < Rabs (sin (ang c)) -> inner < 0).
Proof.
  intros HL Hw Hv Hin Hnz. cbv zeta.
  pose proof (sin_nonzero Hin Hnz) as Hsin.
  assert (Habs : 0 < Rabs (sin (ang c))) by (now apply Rabs_pos_lt).
  assert (Hcos : 0 < cos (ang c)) by (apply cos_gt_0; lra).
  destruct (turning_radius_value Hin Hnz HL) as (Hval & Hr).
  assert (Hinner :
    (if Rgtb (ang c) 0 then left_rear_wheel_joint_ (wheel_targets p c)
     else right_rear_wheel_joint_ (wheel_targets p c))
    = left_rear_wheel_omega p c / wheel_radius_ p).
  { destruct (Rlt_le_dec 0 (ang c)) as [Hpos | Hneg].
    - rewrite (Rgtb_true Hpos). now rewrite wheel_targets_right_turn.
    - rewrite (Rgtb_false Hneg). now rewrite wheel_targets_otherwise. }
  rewrite Hinner. unfold left_rear_wheel_omega.
  cbn [dsub dmul ddiv dofZ R_ops]. cbv zeta.
  set (r := turning_radius (wheel_separation_l_ p) (ang c)) in *.
  assert (Hdiff :
    r - wheel_separation_l_ p / 2
    = wheel_separation_l_ p * (2 * cos (ang c) - Rabs (sin (ang c)))
      / (2 * Rabs (sin (ang c)))).
  { rewrite Hval. field. lra. }
  split; intros Hcase.
  - assert (0 < r - wheel_separation_l_ p / 2).
    { rewrite Hdiff. apply Rdiv_lt_0_compat; nra. }
    apply Rdiv_lt_0_compat; [| exact Hw].
    apply Rmult_lt_0_compat; [| exact Hv].
    now apply Rdiv_lt_0_compat.
  - assert (Hneg : 0 < - (r - wheel_separation_l_ p / 2)).
    { rewrite Hdiff. unfold Rdiv. rewrite Ropp_mult_distr_l.
      apply Rmult_lt_0_compat; [nra |].
      apply Rinv_0_lt_compat. lra. }
    assert (Hquot :
      0 < - (r - wheel_separation_l_ p / 2) / r * lin c / wheel_radius_ p).
    { apply Rdiv_lt_0_compat; [| exact Hw].
      apply Rmult_lt_0_compat; [| exact Hv].
      now apply Rdiv_lt_0_compat. }
    unfold Rdiv in *.
    rewrite <- !Ropp_mult_distr_l in Hquot. lra.
Qed.

(** X22.  For a steer angle within (-pi/2, pi/2) other than 0 and a
    non-zero wheelbase the odometry gain is [|1 - tan(theta) / 2|]: it
    does not depend on the wheelbase, it vanishes at [tan theta = 2], and
    it is above 1 for every negative angle. *)
Theorem odometry_gain_closed_form L theta :
  - (PI / 2) < theta < PI / 2 -> theta <> 0 -> L <> 0 ->
  odometry_gain L theta = Rabs (1 - tan theta / 2) /\
  (theta < 0 -> 1 < odometry_gain L theta).
Proof.
  intros Hin Hnz HL. pose proof (sin_nonzero Hin Hnz) as Hsin.
  assert (Hcos : 0 < cos theta) by (apply cos_gt_0; lra).
  assert (Hgain : odometry_gain L theta = Rabs (1 - tan theta / 2)).
  { unfold odometry_gain. cbn [dsub dmul ddiv dabs dtan dofZ M_PI R_ops].
    cbv zeta. rewrite <- Rabs_quotient. f_equal.
    rewrite cotangent. unfold tan. field. repeat split; lra. }
  split; [exact Hgain |].
  intros Hneg. rewrite Hgain.
  assert (Htan : tan theta < 0)
    by (apply tan_lt_0; lra).
  rewrite Rabs_pos_eq; lra.
Qed.

Lemma squares3_nonneg x y z : 0 <= x * (x * 1) + y * (y * 1) + z * (z * 1).
Proof.
  pose proof (Rle_0_sqr x). pose proof (Rle_0_sqr y).
  pose proof (Rle_0_sqr z). unfold Rsqr in *. lra.
Qed.

Lemma squares3_zero x y z :
  x * (x * 1) + y * (y * 1) + z * (z * 1) = 0 -> x = 0 /\ y = 0 /\ z = 0.
Proof.
  intros Hsum.
  pose proof (Rle_0_sqr x) as Hx. pose proof (Rle_0_sqr y) as Hy.
  pose proof (Rle_0_sqr z) as Hz. unfold Rsqr in *.
  repeat split; apply Rsqr_0_uniq; unfold Rsqr; lra.
Qed.

Lemma cauchy_schwarz3 u1 u2 u3 v1 v2 v3 :
  (u1 * v1 + u2 * v2 + u3 * v3) * (u1 * v1 + u2 * v2 + u3 * v3)
  <= (u1 * (u1 * 1) + u2 * (u2 * 1) + u3 * (u3 * 1))
     * (v1 * (v1 * 1) + v2 * (v2 * 1) + v3 * (v3 * 1)).
Proof.
  pose proof (Rle_0_sqr (u1 * v2 - u2 * v1)) as H12.
  pose proof (Rle_0_sqr (u1 * v3 - u3 * v1)) as H13.
  pose proof (Rle_0_sqr (u2 * v3 - u3 * v2)) as H23.
  unfold Rsqr in *.
  apply Rminus_le. 
  replace ((u1 * v1 + u2 * v2 + u3 * v3) * (u1 * v1 + u2 * v2 + u3 * v3)
           - (u1 * (u1 * 1) + u2 * (u2 * 1) + u3 * (u3 * 1))
             * (v1 * (v1 * 1) + v2 * (v2 * 1) + v3 * (v3 * 1)))
    with (- ((u1 * v2 - u2 * v1) * (u1 * v2 - u2 * v1)
             + (u1 * v3 - u3 * v1) * (u1 * v3 - u3 * v1)
             + (u2 * v3 - u3 * v2) * (u2 * v3 - u3 * v2))) by ring.
  lra.
Qed.

(** X17.  [euclideanOfVectors] is a distance: symmetric, never negative,
    zero exactly between equal vectors, and it obeys the triangle
    inequality. *)
Theorem euclideanOfVectors_is_a_distance (a b c : Vector3 R) :
  euclideanOfVectors a b = euclideanOfVectors b a /\
  0 <= euclideanOfVectors a b /\
  (euclideanOfVectors a b = 0 <-> a = b) /\
  euclideanOfVectors a c <= euclideanOfVectors a b + euclideanOfVectors b c.
Proof.
  destruct a as [ax ay az], b as [bx b_y bz], c as [cx cy cz].
  unfold euclideanOfVectors. cbn [vec_x vec_y vec_z dadd dsub dsqrt dpow R_ops].
  simpl powerRZ.
  repeat split.
  - f_equal. ring.
  - apply sqrt_pos.
  - intros Hzero. apply sqrt_eq_0 in Hzero; [| apply squares3_nonneg].
    apply squares3_zero in Hzero. destruct Hzero as (Hx & Hy & Hz).
    f_equal; lra.
  - intros [= -> -> ->].
    replace ((bx - bx) * ((bx - bx) * 1) + (b_y - b_y) * ((b_y - b_y) * 1)
             + (bz - bz) * ((bz - bz) * 1)) with 0 by ring.
    apply sqrt_0.
  - set (u1 := ax - bx). set (u2 := ay - b_y). set (u3 := az - bz).
    set (v1 := bx - cx). set (v2 := b_y - cy). set (v3 := bz - cz).
    replace (ax - cx) with (u1 + v1) by (unfold u1, v1; ring).
    replace (ay - cy) with (u2 + v2) by (unfold u2, v2; ring).
    replace (az - cz) with (u3 + v3) by (unfold u3, v3; ring).
    set (U := u1 * (u1 * 1) + u2 * (u2 * 1) + u3 * (u3 * 1)).
    set (V := v1 * (v1 * 1) + v2 * (v2 * 1) + v3 * (v3 * 1)).
    assert (HU : 0 <= U) by apply squares3_nonneg.
    assert (HV : 0 <= V) by apply squares3_nonneg.
    pose proof (sqrt_pos U) as HsU. pose proof (sqrt_pos V) as HsV.
    assert (Hdot : u1 * v1 + u2 * v2 + u3 * v3 <= sqrt U * sqrt V).
    { rewrite <- sqrt_mult by assumption.
      destruct (Rle_lt_dec (u1 * v1 + u2 * v2 + u3 * v3) 0) as [Hle | Hgt].
      - pose proof (sqrt_pos (U * V)). lra.
      - rewrite <- (sqrt_square (u1 * v1 + u2 * v2 + u3 * v3)) by lra.
        apply sqrt_le_1_alt. apply cauchy_schwarz3. }
    rewrite <- (sqrt_square (sqrt U + sqrt V)) by lra.
    apply sqrt_le_1_alt.
    pose proof (sqrt_sqrt U HU) as HUU. pose proof (sqrt_sqrt V HV) as HVV.
    replace ((u1 + v1) * ((u1 + v1) * 1) + (u2 + v2) * ((u2 + v2) * 1)
             + (u3 + v3) * ((u3 + v3) * 1))
      with (U + V + 2 * (u1 * v1 + u2 * v2 + u3 * v3))
      by (unfold U, V; ring).
    replace ((sqrt U + sqrt V) * (sqrt U + sqrt V))
      with (sqrt U * sqrt U + 2 * (sqrt U * sqrt V) + sqrt V * sqrt V)
      by ring.
    lra.
Qed.

End RealGeometry.

(** ** The further properties on the concrete controller and vehicle *)

Section MoreTraceRuns.

Import Demo.

Local Open Scope string_scope.

Lemma all_names_configured (nh : NodeHandle expr) key :
  In key joint_name_keys ->
  getParam_string nh key = None ->
  existsb (fun k => match getParam_string nh k with
                    | None => true
                    | Some _ => false
                    end) joint_name_keys = true.
Proof.
  intros Hin Hnone. apply existsb_exists. exists key.
  split; [exact Hin |]. now rewrite Hnone.
Qed.

Lemma init_returns_false_iff_witness :
  init fresh robot_hw root_nh (without "front_steer" controller_nh)
    = InitFalse /\
  init fresh robot_hw root_nh (without "wheel_radius" controller_nh)
    = InitFalse /\
  init fresh robot_hw root_nh zero_rate_no_radius <> InitFalse.
Proof.
  split; [| split].
  - apply init_returns_false_iff. left.
    exists "front_steer". split; [| reflexivity].
    unfold joint_name_keys, wheel_joint_keys, steer_joint_keys.
    cbn [app In]. tauto.
  - apply init_returns_false_iff. right.
    split; [vm_compute; discriminate |].
    split; [vm_compute; discriminate |].
    right. reflexivity.
  - intros Hfalse. apply init_returns_false_iff in Hfalse.
    destruct Hfalse as [(key & Hin & Hnone) | (Hperiod & _)].
    + pose proof (@all_names_configured _ _ Hin Hnone) as Hex.
      vm_compute in Hex. discriminate Hex.
    + apply Hperiod. vm_compute. reflexivity.
Defined.

Lemma init_ok_handles_registered_witness :
  init fresh robot_hw root_nh controller_nh = InitOk initialised /\
  In "rear_right_wheel" (velocity_joints robot_hw) /\
  In "front_left_steer" (position_joints robot_hw).
Proof.
  assert (Hinit : init fresh robot_hw root_nh controller_nh
                  = InitOk initialised) by (vm_compute; reflexivity).
  split; [exact Hinit |].
  destruct (init_ok_handles_registered _ _ _ _ Hinit) as (Hwheel & Hsteer).
  split.
  - apply (Hwheel "right_rear_wheel"); [cbn; tauto | reflexivity].
  - apply (Hsteer "left_front_steer"); [cbn; tauto | reflexivity].
Defined.

Lemma init_ok_covariance_roundtrip_witness :
  init fresh robot_hw root_nh controller_nh = InitOk initialised /\
  lookup_param "pose_covariance_diagonal" (parameters controller_nh)
    = Some (XArray (map (@XDouble expr)
                      (pose_covariance_diagonal (params initialised)))) /\
  List.length (twist_covariance_diagonal (params initialised)) = 6%nat.
Proof.
  assert (Hinit : init fresh robot_hw root_nh controller_nh
                  = InitOk initialised) by (vm_compute; reflexivity).
  split; [exact Hinit |].
  destruct (init_ok_covariance_roundtrip _ _ _ _ Hinit)
    as ((Hpose & _) & (_ & Htwist)).
  split; assumption.
Defined.

Lemma init_ok_odometry_params_witness :
  init fresh robot_hw root_nh window_as_double = InitOk windowed /\
  odometry_ windowed =
    [CallSetWheelParams (EMul (ENum 1) (ENum 1)) (EMul (ENum 1) (ENum (1 # 10)));
     CallSetVelocityRollingWindowSize 4%Z] /\
  joints windowed = joints fresh.
Proof.
  assert (Hinit : init fresh robot_hw root_nh window_as_double
                  = InitOk windowed) by (vm_compute; reflexivity).
  split; [exact Hinit |].
  destruct (init_ok_odometry_params _ _ _ _ Hinit)
    as (_ & _ & (window & Hwindow & Hodo) & _ & _ & _ & Hjoints & _).
  split; [| exact Hjoints].
  vm_compute in Hwindow. injection Hwindow as <-. exact Hodo.
Defined.

Lemma init_ok_limiter_lower_bounds_witness :
  init fresh robot_hw root_nh controller_nh = InitOk initialised /\
  getParam_double controller_nh "linear/x/min_velocity" = None /\
  getParam_double controller_nh "angular/z/min_jerk" = None /\
  min_velocity (limiter_lin_ (params initialised))
    = ENeg (max_velocity (limiter_lin_ (params initialised))) /\
  min_jerk (limiter_ang_ (params initialised))
    = ENeg (max_jerk (limiter_ang_ (params initialised))).
Proof.
  assert (Hinit : init fresh robot_hw root_nh controller_nh
                  = InitOk initialised) by (vm_compute; reflexivity).
  split; [exact Hinit |]. split; [reflexivity |]. split; [reflexivity |].
  destruct (init_ok_limiter_lower_bounds _ _ _ _ Hinit)
    as (Hv & _ & _ & _ & _ & Hj).
  split; [apply Hv | apply Hj]; reflexivity.
Defined.

Lemma publication_of_a_cycle_witness :
  odometry_phase commanded good_reading t_cycle <> None /\
  last_state_publish_time_ (update commanded good_reading t_cycle t_period)
    = 1020000000%Z /\
  odom_pub_ (update commanded good_reading t_cycle t_period)
    = [mkOdomMsg t_cycle
         (odometry_ (update commanded good_reading t_cycle t_period))].
Proof.
  assert (Hgo : odometry_phase commanded good_reading t_cycle <> None)
    by (vm_compute; discriminate).
  split; [exact Hgo |].
  destruct (publication_of_a_cycle commanded good_reading t_cycle t_period Hgo)
    as (Hclock & Hodom & _).
  split; [exact Hclock | exact Hodom].
Defined.

Lemma no_transform_when_disabled_witness :
  enable_odom_tf_ (params without_transforms) = false /\
  tf_odom_pub_ (run without_transforms drive) = [].
Proof.
  split; [reflexivity |].
  exact (no_transform_when_disabled drive without_transforms eq_refl).
Defined.

Lemma publication_count_bounded_witness :
  (0 < publish_period_ (params started))%Z /\
  no_start drive /\ updates_by 2120000000%Z drive /\
  (0 <= Z.of_nat (List.length (odom_pub_ (run started drive)))
        - Z.of_nat (List.length (odom_pub_ started)))%Z /\
  (Z.of_nat (List.length (odom_pub_ (run started drive)))
   - Z.of_nat (List.length (odom_pub_ started)) = 0
   \/ last_state_publish_time_ started
      + (Z.of_nat (List.length (odom_pub_ (run started drive)))
         - Z.of_nat (List.length (odom_pub_ started)))
        * publish_period_ (params started) < 2120000000)%Z.
Proof.
  assert (Hpos : (0 < publish_period_ (params started))%Z) by reflexivity.
  assert (Hns : no_start drive) by (cbn; exact I).
  assert (Hby : updates_by 2120000000%Z drive) by (cbn; lia).
  split; [exact Hpos |]. split; [exact Hns |]. split; [exact Hby |].
  exact (publication_count_bounded started drive 2120000000%Z Hpos Hns Hby).
Defined.

Lemma open_loop_cycle_witness :
  open_loop_ (params open_loop_controller) = true /\
  update open_loop_controller nan_reading t_cycle t_period
    = update open_loop_controller good_reading t_cycle t_period.
Proof.
  split; [reflexivity |].
  exact (proj1 (open_loop_cycle open_loop_controller nan_reading good_reading
                  t_cycle t_period eq_refl eq_refl eq_refl)).
Defined.

Lemma next_cycle_overrides_brake_witness :
  odometry_phase commanded good_reading t_cycle <> None /\
  update (brake commanded) good_reading t_cycle t_period
    = update commanded good_reading t_cycle t_period.
Proof.
  assert (Hgo : odometry_phase commanded good_reading t_cycle <> None)
    by (vm_compute; discriminate).
  split; [exact Hgo |].
  exact (next_cycle_overrides_brake commanded good_reading t_cycle t_period
           Hgo).
Defined.

Lemma restart_keeps_the_command_witness :
  odometry_phase commanded good_reading t_cycle <> None /\
  joints (update (startRequest (stopRequest commanded 2050000000%Z)
                    2060000000%Z) good_reading t_cycle t_period)
    = joints (update commanded good_reading t_cycle t_period).
Proof.
  assert (Hgo : odometry_phase commanded good_reading t_cycle <> None)
    by (vm_compute; discriminate).
  split; [exact Hgo |].
  exact (proj1 (proj2 (restart_keeps_the_command commanded 2050000000%Z
                         2060000000%Z good_reading t_cycle t_period Hgo))).
Defined.

Lemma stopped_controller_stores_no_command_witness :
  running initialised = false /\ no_start drive /\
  running (run initialised drive) = false /\
  command_ (run initialised drive) = command_ initialised.
Proof.
  assert (Hns : no_start drive) by (cbn; exact I).
  split; [reflexivity |]. split; [exact Hns |].
  destruct (stopped_controller_stores_no_command drive initialised
              eq_refl Hns) as (Hr & Hc & _).
  split; [exact Hr | exact Hc].
Defined.

Lemma accepted_command_is_executed_witness :
  running turning = true /\ (1 <= 1)%Z /\
  dgt (toSec (t_next - 2200000000)%Z) (cmd_vel_timeout_ (params turning))
    = false /\
  last0_cmd_ (update recommanded good_reading t_next t_period)
    = mkCommands (ENum 1) (ENum (3 # 10)) 2200000000%Z /\
  joints (update recommanded good_reading t_next t_period)
    = wheel_targets (params turning)
        (mkCommands (ENum 1) (ENum (3 # 10)) 2200000000%Z) /\
  front_steer_joint_ (joints (update recommanded good_reading t_next t_period))
    = ENum (3 # 10).
Proof.
  split; [reflexivity |]. split; [apply Z.le_refl |]. split; [reflexivity |].
  exact (accepted_command_is_executed turning
           (mkTwist (ENum 1) (ENum (3 # 10))) (num_publishers := 1)
           2200000000%Z good_reading t_next t_period
           eq_refl (or_intror (Z.le_refl 1)) (or_intror eq_refl) eq_refl).
Defined.

Lemma multiple_publishers_allowed_witness :
  allow_multiple_cmd_vel_publishers_ (params permissive) = true /\
  running permissive = true /\
  report_times (rosout (run permissive drive))
    = report_times (rosout permissive) /\
  command_ (cmdVelCallback permissive (mkTwist (ENum 2) (ENum 0)) 2%Z
              2125000000%Z)
    = mkCommands (ENum 2) (ENum 0) 2125000000%Z.
Proof.
  split; [reflexivity |]. split; [reflexivity |].
  destruct (multiple_publishers_allowed drive permissive eq_refl)
    as (Hlog & Hstore).
  split; [exact Hlog |].
  exact (Hstore (mkTwist (ENum 2) (ENum 0)) 2%Z 2125000000%Z eq_refl).
Defined.

Lemma covariance_matrix_is_diagonal_witness :
  List.length (pose_covariance_diagonal (params initialised)) = 6%nat /\
  exists m,
    covariance_of_diagonal (pose_covariance_diagonal (params initialised))
      = Some m /\
    nth (6 * 5 + 5) m (ENum 0) = ENum (3 # 100) /\
    nth (6 * 5 + 4) m (ENum 0) = ENum 0.
Proof.
  assert (Hlen :
    List.length (pose_covariance_diagonal (params initialised)) = 6%nat)
    by reflexivity.
  split; [exact Hlen |].
  destruct (covariance_matrix_is_diagonal
              (pose_covariance_diagonal (params initialised)) Hlen)
    as (m & Hm & _ & Hentry).
  exists m. split; [exact Hm |]. split.
  - exact (Hentry 5%nat 5%nat ltac:(lia) ltac:(lia)).
  - exact (Hentry 5%nat 4%nat ltac:(lia) ltac:(lia)).
Defined.

End MoreTraceRuns.

Section MoreRealRuns.

Import Vehicle.

Local Open Scope R_scope.

Ltac vehicle_fact :=
  unfold square, geometry, quarter_turn, quarter_turn_right, steep_turn;
  cbn [wheel_separation_l_ wheel_radius_ lin ang];
  try (pose proof PI_RGT_0); lra.

Lemma real_reading_passes (s : RealController) (inp : CycleInputs R) :
  open_loop_ (params s) = true \/
  disnan (wheel_pos_reading inp) || disnan (steer_pos_reading inp) = false.
Proof. right. reflexivity. Qed.

Lemma rolling_state :
  params rolling = params cruising /\
  command_ rolling = command_ cruising /\
  last0_cmd_ rolling = mkCommands 1 (1 / 5) 0%Z /\
  joints rolling
    = wheel_targets (params cruising) (mkCommands 1 (1 / 5) 0%Z).
Proof.
  unfold rolling.
  destruct (update_past_sensor_check cruising reading t_fresh t_period
              (real_reading_passes cruising reading)) as (Hj & Hl & _).
  assert (Hcmd : cycle_command cruising t_fresh = mkCommands 1 (1 / 5) 0%Z)
    by (unfold cruising; now apply tenth_of_a_second_is_fresh).
  rewrite Hcmd in Hj, Hl.
  repeat split; trivial.
Qed.

Lemma stale_command_brakes_witness :
  toSec (t_stale - stamp (command_ rolling))%Z
    > cmd_vel_timeout_ (params rolling) /\
  last0_cmd_ rolling = mkCommands 1 (1 / 5) 0%Z /\
  front_steer_joint_ (joints rolling) = 1 / 5 /\
  0 < right_rear_wheel_joint_ (joints rolling) /\
  last0_cmd_ (update rolling reading t_stale t_period) = mkCommands 0 0 0%Z /\
  last1_cmd_ (update rolling reading t_stale t_period)
    = mkCommands 1 (1 / 5) 0%Z /\
  right_rear_wheel_joint_ (joints (update rolling reading t_stale t_period))
    = 0 /\
  left_rear_wheel_joint_ (joints (update rolling reading t_stale t_period))
    = 0 /\
  right_front_wheel_joint_ (joints (update rolling reading t_stale t_period))
    = 0 /\
  left_front_wheel_joint_ (joints (update rolling reading t_stale t_period))
    = 0 /\
  let ops := Binary.reference_ops in
  let s := Binary.straightened in
  let s' := update s Binary.reading Binary.t_stale Binary.t_period in
  dgt (toSec (Binary.t_stale - stamp (command_ s))%Z)
      (cmd_vel_timeout_ (params s)) = true /\
  right_rear_wheel_joint_ (joints s) = FNum false 7167204340270662 (-49) /\
  last0_cmd_ s' = mkCommands FZero FZero 2200000000%Z /\
  joints s' = mkJoints FZero FZero FZero FZero FZero FZero FZero.
Proof.
  cut ((let ops := Binary.reference_ops in
        let s := Binary.straightened in
        let s' := update s Binary.reading Binary.t_stale Binary.t_period in
        dgt (toSec (Binary.t_stale - stamp (command_ s))%Z)
            (cmd_vel_timeout_ (params s)) = true /\
        right_rear_wheel_joint_ (joints s)
          = FNum false 7167204340270662 (-49) /\
        last0_cmd_ s' = mkCommands FZero FZero 2200000000%Z /\
        joints s' = mkJoints FZero FZero FZero FZero FZero FZero FZero)).
  2: { cbv zeta.
       destruct straightened_state as (HL & Hsame & Hwr & Hmod & Hcmd).
       assert (Hold :
         dgt (DoubleOps := Binary.reference_ops)
           (toSec (DoubleOps := Binary.reference_ops)
              (Binary.t_stale - stamp (command_ Binary.straightened))%Z)
           (cmd_vel_timeout_ (params Binary.straightened)) = true)
         by reflexivity.
       destruct (proj1 stale_command_brakes f64 Binary.reference_ops _ _
                   Binary.straightened Binary.reading Binary.t_stale
                   Binary.t_period (binary_reading_passes Binary.straightened)
                   Hold) as (Hlast0 & _ & Hjoints).
       split; [exact Hold |]. split; [reflexivity |].
       split; [rewrite Hlast0; reflexivity |].
       rewrite Hjoints.
       apply (proj2 (proj2 stale_command_brakes) Binary.reference_libm
                (params Binary.straightened)
                (stamp (command_ Binary.straightened))
                reference_libm_straight_ahead Hmod Hsame);
         rewrite Hwr; discriminate. }
  intros Hbinary.
  destruct rolling_state as (Hp & Hc & Hl & Hj).
  assert (Hstale :
    toSec (t_stale - stamp (command_ rolling))%Z
    > cmd_vel_timeout_ (params rolling)).
  { rewrite Hp, Hc.
    cbn [command_ params cruising driving stamp cmd_vel_timeout_ geometry
         toSec R_ops].
    unfold NSEC_PER_SEC, t_stale. simpl (600000000 - 0)%Z. lra. }
  assert (Hturn : - (PI / 2) < 1 / 5 < PI / 2)
    by (pose proof PI2_1; lra).
  assert (Hmoving : 0 < right_rear_wheel_joint_ (joints rolling)).
  { rewrite Hj, wheel_targets_right_turn by (cbn [ang]; lra).
    cbn [right_rear_wheel_joint_]. unfold right_rear_wheel_omega.
    cbn [params cruising driving geometry wheel_separation_l_ wheel_radius_
         lin ang dadd dmul ddiv dofZ R_ops].
    destruct (turning_radius_value (L := 1) Hturn) as (_ & Hr); try lra.
    set (r := turning_radius 1 (1 / 5)) in *.
    apply Rdiv_lt_0_compat; [| lra].
    apply Rmult_lt_0_compat; [| lra].
    apply Rdiv_lt_0_compat; lra. }
  destruct (proj1 stale_command_brakes R R_ops _ _ rolling reading t_stale
              t_period (real_reading_passes rolling reading)
              (Rgtb_true Hstale))
    as (Hlast0 & Hlast1 & Hjoints).
  destruct (proj1 (proj2 stale_command_brakes) (params rolling)
              (stamp (command_ rolling))) as (H1 & H2 & H3 & H4).
  split; [exact Hstale |]. split; [exact Hl |].
  split; [rewrite Hj; now destruct (wheel_targets_steer (params cruising)
                                      (mkCommands 1 (1 / 5) 0%Z)) as (-> & _) |].
  split; [exact Hmoving |].
  split; [rewrite Hlast0, Hc; reflexivity |].
  split; [rewrite Hlast1; exact Hl |].
  rewrite Hjoints.
  split; [exact H1 |]. split; [exact H2 |]. split; [exact H3 |].
  split; [exact H4 |]. exact Hbinary.
Defined.

Lemma quarter_pi_in_range :
  - (PI / 2) < PI / 4 < PI / 2 /\ PI / 4 <> 0 /\
  - (PI / 2) < - (PI / 4) < PI / 2 /\ - (PI / 4) <> 0.
Proof. pose proof PI_RGT_0. repeat split; lra. Qed.

Lemma rear_wheels_average_the_command_witness :
  - (PI / 2) < ang quarter_turn < PI / 2 /\ ang quarter_turn <> 0 /\
  wheel_separation_l_ square <> 0 /\
  right_rear_wheel_joint_ (wheel_targets square quarter_turn)
  + left_rear_wheel_joint_ (wheel_targets square quarter_turn)
  = 2 * lin quarter_turn / wheel_radius_ square.
Proof.
  destruct quarter_pi_in_range as (Hin & Hnz & _).
  assert (HL : wheel_separation_l_ square <> 0) by vehicle_fact.
  split; [exact Hin |]. split; [exact Hnz |]. split; [exact HL |].
  exact (rear_wheels_average_the_command square quarter_turn Hin Hnz HL).
Defined.

Lemma outer_wheels_turn_faster_witness :
  0 < wheel_separation_l_ square /\ 0 < wheel_radius_ square /\
  (0 < lin quarter_turn /\ 0 < ang quarter_turn < PI / 2 /\
   left_rear_wheel_joint_ (wheel_targets square quarter_turn)
     < right_rear_wheel_joint_ (wheel_targets square quarter_turn)) /\
  (0 < lin quarter_turn_right /\ - (PI / 2) < ang quarter_turn_right < 0 /\
   right_front_wheel_joint_ (wheel_targets square quarter_turn_right)
     < left_front_wheel_joint_ (wheel_targets square quarter_turn_right)).
Proof.
  pose proof PI_RGT_0 as Hpi.
  assert (HL : 0 < wheel_separation_l_ square) by vehicle_fact.
  assert (Hw : 0 < wheel_radius_ square) by vehicle_fact.
  assert (Hv : 0 < lin quarter_turn) by vehicle_fact.
  assert (Hv' : 0 < lin quarter_turn_right) by vehicle_fact.
  assert (Hleft : 0 < ang quarter_turn < PI / 2) by vehicle_fact.
  assert (Hright : - (PI / 2) < ang quarter_turn_right < 0) by vehicle_fact.
  split; [exact HL |]. split; [exact Hw |]. split.
  - split; [exact Hv |]. split; [exact Hleft |].
    exact (proj1 (proj1 (outer_wheels_turn_faster square quarter_turn
                           HL Hw Hv) Hleft)).
  - split; [exact Hv' |]. split; [exact Hright |].
    exact (proj2 (proj2 (outer_wheels_turn_faster square quarter_turn_right
                           HL Hw Hv') Hright)).
Defined.

Lemma steep_turn_sine :
  - (PI / 2) < atan 3 < PI / 2 /\ 0 < atan 3 /\ 0 < cos (atan 3) /\
  sin (atan 3) = 3 * cos (atan 3).
Proof.
  pose proof (atan_bound 3) as Hbound.
  assert (Hpos : 0 < atan 3) by (apply atan_pos; lra).
  assert (Hcos : 0 < cos (atan 3)) by (apply cos_gt_0; lra).
  repeat split; try lra.
  pose proof (tan_atan 3) as Htan. unfold tan in Htan.
  apply (f_equal (fun x => x * cos (atan 3))) in Htan.
  unfold Rdiv in Htan.
  rewrite Rmult_assoc, Rinv_l, Rmult_1_r in Htan by lra.
  exact Htan.
Qed.

Lemma inner_rear_wheel_direction_witness :
  (Rabs (sin (ang quarter_turn)) < 2 * cos (ang quarter_turn) /\
   0 < (if Rgtb (ang quarter_turn) 0
        then left_rear_wheel_joint_ (wheel_targets square quarter_turn)
        else right_rear_wheel_joint_ (wheel_targets square quarter_turn))) /\
  (2 * cos (ang steep_turn) < Rabs (sin (ang steep_turn)) /\
   (if Rgtb (ang steep_turn) 0
    then left_rear_wheel_joint_ (wheel_targets square steep_turn)
    else right_rear_wheel_joint_ (wheel_targets square steep_turn)) < 0).
Proof.
  pose proof PI_RGT_0 as Hpi.
  destruct quarter_pi_in_range as (Hin & Hnz & _).
  destruct steep_turn_sine as (Hin3 & Hpos3 & Hcos3 & Hsin3).
  assert (HL : 0 < wheel_separation_l_ square) by vehicle_fact.
  assert (Hw : 0 < wheel_radius_ square) by vehicle_fact.
  assert (Hs : 0 < 1 / sqrt 2)
    by (apply Rdiv_lt_0_compat; [lra | apply Rlt_sqrt2_0]).
  assert (Hgentle :
    Rabs (sin (ang quarter_turn)) < 2 * cos (ang quarter_turn))
    by (cbn [ang quarter_turn];
        rewrite sin_PI4, cos_PI4, Rabs_pos_eq; lra).
  assert (Hsteep : 2 * cos (ang steep_turn) < Rabs (sin (ang steep_turn)))
    by (cbn [ang steep_turn]; rewrite Hsin3, Rabs_pos_eq; lra).
  split.
  - split; [exact Hgentle |].
    apply (proj1 (inner_rear_wheel_direction square quarter_turn HL Hw
                    ltac:(vehicle_fact) Hin Hnz)).
    exact Hgentle.
  - split; [exact Hsteep |].
    apply (proj2 (inner_rear_wheel_direction square steep_turn HL Hw
                    ltac:(vehicle_fact) Hin3 ltac:(vehicle_fact))).
    exact Hsteep.
Defined.

Lemma odometry_gain_closed_form_witness :
  (- (PI / 2) < - (PI / 4) < PI / 2) /\ - (PI / 4) <> 0 /\ 1 <> 0 /\
  - (PI / 4) < 0 /\
  odometry_gain 1 (- (PI / 4)) = Rabs (1 - tan (- (PI / 4)) / 2) /\
  1 < odometry_gain 1 (- (PI / 4)).
Proof.
  destruct quarter_pi_in_range as (_ & _ & Hin & Hnz).
  pose proof PI_RGT_0 as Hpi.
  split; [exact Hin |]. split; [exact Hnz |]. split; [lra |].
  split; [lra |].
  destruct (odometry_gain_closed_form (L := 1) Hin Hnz ltac:(lra))
    as (Hform & Habove).
  split; [exact Hform | apply Habove; lra].
Defined.

End MoreRealRuns.
